(** * Azure Functions extension: deployment and debugging glue

    A shallow embedding of the control flow of the extension's TypeScript
    sources:

    - [pickFuncProcess.ts]: [startFuncTask], [getInnermostUnixPid],
      [getInnermostWindowsPid];
    - the two [FuncTaskProvider.ts] files ([provideTasks], [getHostStartTask],
      [getExtensionInstallTask], [getPythonCommand]);
    - [PythonProjectCreator.ts]: [convertToVenvCommand] and its helpers;
    - [JavaScriptProjectCreator.ts]: [funcNodeDebugArgs], [getLaunchJson];
    - [deploy.ts]: [deploy], [runPreDeployTask];
    - [extension.ts]: [activate].

    Everything the sources obtain from the editor, the operating system or
    the cloud SDK (events, clocks, process trees, settings, prompts) is an
    explicit input of the model; promises are modelled by their outcome. *)

From Stdlib Require Import String Ascii List ZArith NArith Lia Bool DecimalString.
From Stdlib Require DecimalZ DecimalPos Permutation.
Import ListNotations.
Set Warnings "-register-all".
Local Open Scope string_scope.
Local Open Scope Z_scope.

(* ===================================================================== *)
(** * JavaScript values used by the sources *)
(* ===================================================================== *)

Module JS.

(** [localize(key, format, ...args)]: the message is kept symbolic. *)
Record LocalizedString := localize {
  l_key : string;
  l_format : string;
  l_args : list string
}.

(** Message texts are quoted with ['] where the sources quote with a
    double quote inside the literal. *)
Inductive Error :=
| NewError (message : LocalizedString)   (* new Error(localize(...)) *)
| NewErrorLines (lines : list LocalizedString) (* new Error(lines.join(os.EOL)) *)
| PlainError (message : string)          (* new Error('...') *)
| UserCancelledError                     (* vscode-azureextensionui *)
| ExternalError (tag : string).          (* raised by a callee outside the sources *)

(** Outcome of an awaited promise that settles. *)
Inductive Completion (A : Type) :=
| Resolved (a : A)
| Rejected (e : Error).
Arguments Resolved {A} a.
Arguments Rejected {A} e.

(** [n.toString()] for an integral number. *)
Definition toString (n : Z) : string := NilZero.string_of_int (Z.to_int n).

(** [Number(s)]; [None] is NaN.  Agrees with JavaScript on canonical
    decimal integers, the strings that [processId.toString()] produces. *)
Definition Number (s : string) : option Z :=
  option_map Z.of_int (NilZero.int_of_string s).

(** [parseInt(s)] on the same strings. *)
Definition parseInt (s : string) : option Z := Number s.

Definition lowerAscii (c : ascii) : ascii :=
  let n := nat_of_ascii c in
  if andb (Nat.leb 65 n) (Nat.leb n 90) then ascii_of_nat (n + 32) else c.

(** [s.toLowerCase()] as far as the letters A to Z go; every other
    character is left as it is.  It stands for [String.prototype.toLowerCase]
    only where the lowered text is searched for the word [func]: no
    character outside A to Z lowers to one of the letters f, u, n and c, so
    the search gives the same answer.  Where a lowered text is compared as
    a whole, [toLowerCase] is taken from the environment instead. *)
Fixpoint toLowerCase (s : string) : string :=
  match s with
  | EmptyString => EmptyString
  | String c r => String (lowerAscii c) (toLowerCase r)
  end.

(** [s.includes(sub)]. *)
Fixpoint includes (s sub : string) : bool :=
  if String.prefix sub s then true
  else match s with
       | EmptyString => false
       | String _ r => includes r sub
       end.

(** The delay a timer of Node.js has: [setTimeout] replaces a delay below
    1 ms or above [TIMEOUT_MAX] by 1 ms. *)
Definition TIMEOUT_MAX : Z := 2147483647.

Definition setTimeoutDelay (ms : Z) : Z :=
  if (1 <=? ms) && (ms <=? TIMEOUT_MAX) then ms else 1.

(** Truthiness of [string | undefined]: the empty string is falsy. *)
Definition truthy (s : option string) : bool :=
  match s with
  | Some EmptyString | None => false
  | Some _ => true
  end.

(** A template literal hole [${x}] for [x : number | undefined]. *)
Definition interpolate (x : option Z) : string :=
  match x with
  | Some n => toString n
  | None => "undefined"
  end.

End JS.
Import JS.

(* ===================================================================== *)
(** * Process discovery ([pickFuncProcess.ts]) *)
(* ===================================================================== *)

Module PickFuncProcess.

(** ** Unix *)

(** An entry of the list [ps-tree] hands to its callback. *)
Record PS := mkPS {
  PID : string;
  PPID : string;
  COMMAND : string
}.

(** What [ps-tree] passes to its callback: [(error, children)]. *)
Definition PsTreeReport : Type := option Error * list PS.

(** [children.pop()]: the last element, if any. *)
Definition pop {A} (l : list A) : option A := List.last (List.map Some l) None.

(** [getInnermostUnixPid]: the outcome of the promise, given what
    [unixPsTree(parseInt(pid), callback)] reports. *)
Definition getInnermostUnixPid
    (unixPsTree : option Z -> PsTreeReport) (pid : string) : Completion string :=
  match unixPsTree (parseInt pid) with
  | (Some error, _) => Rejected error
  | (None, children) =>
      match pop children with
      | Some child => Resolved (PID child)
      | None => Resolved pid
      end
  end.

(** ** Windows *)

Inductive IProcessTreeNode :=
  ProcessTreeNode (pid : Z) (name : string) (children : list IProcessTreeNode).

Definition node_pid (t : IProcessTreeNode) : Z :=
  match t with ProcessTreeNode p _ _ => p end.
Definition node_name (t : IProcessTreeNode) : string :=
  match t with ProcessTreeNode _ n _ => n end.
Definition node_children (t : IProcessTreeNode) : list IProcessTreeNode :=
  match t with ProcessTreeNode _ _ c => c end.

(** [while (psTree.children.length > 0) psTree = psTree.children[0];] *)
Fixpoint firstChildLeaf (psTree : IProcessTreeNode) : IProcessTreeNode :=
  match psTree with
  | ProcessTreeNode _ _ [] => psTree
  | ProcessTreeNode _ _ (c :: _) => firstChildLeaf c
  end.

(** [psTree.name.toLowerCase().includes('func')] *)
Definition isFuncLeaf (leaf : IProcessTreeNode) : bool :=
  includes (toLowerCase (node_name leaf)) "func".

(** The [windows-process-tree] module together with the behaviour of the
    machine during the polling loop.  The [k]-th call of [getProcessTree]
    (counting from 0) answers [getProcessTree rootPid k] after
    [fetchLatency k] milliseconds; the [k]-th [delay(500)] resumes
    [timerSlack k] milliseconds late. *)
Record IWindowsProcessTree := {
  getProcessTree : option Z -> nat -> option IProcessTreeNode;
  fetchLatency : nat -> N;
  timerSlack : nat -> N
}.

Definition noWindowsProcessTree : Error :=
  NewError (localize "noWindowsProcessTree" "Failed to find dependency '{0}'."
                     ["windows-process-tree"]).
Definition funcTaskStopped : Error :=
  NewError (localize "funcTaskStopped" "Functions host is no longer running." []).

Section Polling.
Variable wpt : IWindowsProcessTree.
Variable pid : string.
Variable maxTime : Z.
Variable timeoutError : Error.

(** One run of the [while (Date.now() < maxTime)] loop, started with the
    clock at [now] and [k] polls already made.  [fuel] bounds the number
    of iterations; [None] means the bound was reached. *)
Fixpoint pollLoop (fuel : nat) (k : nat) (now : Z) : option (Completion string) :=
  match fuel with
  | O => None
  | S fuel' =>
      if now <? maxTime then
        match getProcessTree wpt (Number pid) k with
        | None => Some (Rejected funcTaskStopped)
        | Some psTree =>
            let leaf := firstChildLeaf psTree in
            if isFuncLeaf leaf then Some (Resolved (toString (node_pid leaf)))
            else pollLoop fuel' (S k)
                   (now + Z.of_N (fetchLatency wpt k) + 500 + Z.of_N (timerSlack wpt k))
        end
      else Some (Rejected timeoutError)
  end.

(** The clock value [Date.now()] returns at the head of iteration [k],
    provided the loop gets that far. *)
Fixpoint clockAt (now0 : Z) (k : nat) : Z :=
  match k with
  | O => now0
  | S k' => clockAt now0 k' + Z.of_N (fetchLatency wpt k') + 500 + Z.of_N (timerSlack wpt k')
  end.
End Polling.

(** Iterations that suffice for a loop that starts [span] ms before the
    deadline. *)
Definition pollBudget (span : Z) : nat := S (Z.to_nat (span / 500 + 1)).

(** [getInnermostWindowsPid].  [tryFetch] is the result of
    [tryFetchNodeModule('windows-process-tree')], [now0] the value of the
    first [Date.now()]. *)
Definition getInnermostWindowsPid
    (tryFetch : option IWindowsProcessTree) (now0 : Z)
    (pid : string) (timeoutInSeconds : Z) (timeoutError : Error)
    : option (Completion string) :=
  match tryFetch with
  | None => Some (Rejected noWindowsProcessTree)
  | Some windowsProcessTree =>
      let maxTime := now0 + timeoutInSeconds * 1000 in
      pollLoop windowsProcessTree pid maxTime timeoutError
               (pollBudget (timeoutInSeconds * 1000)) 0 now0
  end.

End PickFuncProcess.

(* ===================================================================== *)
(** * The editor's task model *)
(* ===================================================================== *)

Module Vscode.

Record WorkspaceFolder := mkFolder {
  fsPath : string               (* folder.uri.fsPath *)
}.

(** [new ProcessExecution(process, args, { env })] and
    [new ShellExecution(commandLine, options)]; [options] is either
    [undefined] or [{ env }]. *)
Inductive Execution :=
| ProcessExecution (process : string) (args : list string)
                   (env : option (list (string * string)))
| ShellExecution (commandLine : string) (options : option (list (string * string))).

Record TaskDefinition := mkDefinition {
  td_type : string;
  td_command : string;
  td_port : option Z
}.

(** [task.scope]: a workspace folder, one of the [TaskScope] constants
    (which have no [uri]), or [undefined]. *)
Inductive Scope :=
| ScopeUndefined
| ScopeGlobal
| ScopeWorkspace
| ScopeFolder (folder : WorkspaceFolder).

(** [new Task(definition, folder, name, source, execution, problemMatchers)] *)
Record Task := mkTask {
  definition : TaskDefinition;
  scope : Scope;
  name : string;
  source : string;
  execution : Execution;
  problemMatchers : list string;
  isBackground : bool
}.

(** A task object held by the editor: [===] compares [objectId]. *)
Record TaskObject := mkTaskObject {
  objectId : nat;
  task : Task
}.

Definition sameObject (a b : TaskObject) : bool :=
  Nat.eqb (objectId a) (objectId b).

(** [TaskProcessStartEvent] and [TaskProcessEndEvent], with
    [e.execution.task]. *)
Inductive TaskEvent :=
| DidStartTaskProcess (t : TaskObject) (processId : Z)
| DidEndTaskProcess (t : TaskObject) (exitCode : Z).

(** An event together with the time at which it is delivered, in
    milliseconds after the listeners were registered.  A history lists the
    events in the order of delivery and is complete: nothing is delivered
    after its last event. *)
Definition History : Type := list (Z * TaskEvent).

End Vscode.
Import Vscode.

(* ===================================================================== *)
(** * Waiting for the functions host ([startFuncTask]) *)
(* ===================================================================== *)

Module StartFuncTask.

Definition taskFailed (t : TaskObject) (exitCode : Z) : Error :=
  NewError (localize "taskFailed"
    "Failed to start debugging. Task '{0}' failed with exit code '{1}'."
    [name (task t); toString exitCode]).

(** The promise [waitForStartPromise] and the two subscriptions its
    executor makes.  [promise = None] while the promise is pending. *)
Record Wait := mkWait {
  promise : option (Completion string);
  listener : bool;          (* onDidStartTaskProcess still subscribed *)
  errorListener : bool      (* onDidEndTaskProcess still subscribed *)
}.

(** [resolve]/[reject] on a promise: the first call settles it. *)
Definition settle {A} (p : option (Completion A)) (c : Completion A)
  : option (Completion A) :=
  match p with
  | None => Some c
  | Some _ => p
  end.

Definition initial : Wait := mkWait None true true.

Section Listeners.
Variable isFuncHostTask : Task -> bool.
Variable timeoutError : Error.

Definition onEvent (w : Wait) (ev : TaskEvent) : Wait :=
  match ev with
  | DidStartTaskProcess t processId =>
      if listener w && isFuncHostTask (task t)
      then mkWait (settle (promise w) (Resolved (toString processId)))
                  false (errorListener w)
      else w
  | DidEndTaskProcess t exitCode =>
      if errorListener w && negb (exitCode =? 0)
      then mkWait (settle (promise w) (Rejected (taskFailed t exitCode)))
                  (listener w) false
      else w
  end.

(** The [setTimeout] callback. *)
Definition onTimer (w : Wait) : Wait :=
  mkWait (settle (promise w) (Rejected timeoutError)) (listener w) (errorListener w).

(** Delivery of a history with the timer due at [delay] ms, the delay the
    timer has after [setTimeout]: the timer callback runs before the first
    event that is not strictly earlier than [delay], or after the last
    event. *)
Fixpoint deliver (delay : Z) (fired : bool) (w : Wait) (h : History) : Wait :=
  match h with
  | [] => if fired then w else onTimer w
  | (t, ev) :: rest =>
      if negb fired && (delay <=? t)
      then deliver delay true (onEvent (onTimer w) ev) rest
      else deliver delay fired (onEvent w ev) rest
  end.

Definition waitForStartPromise (timeoutInSeconds : Z) (h : History)
  : option (Completion string) :=
  promise (deliver (setTimeoutDelay (timeoutInSeconds * 1000)) false initial h).

(** [startFuncTask]: [executeTask] is the outcome of
    [vscode.tasks.executeTask(funcTask)] ([None]: it resolved).
    [None] as result would mean that the promise never settles. *)
Definition startFuncTask (executeTask : option Error)
    (timeoutInSeconds : Z) (h : History) : option (Completion string) :=
  match executeTask with
  | Some e => Some (Rejected e)
  | None => waitForStartPromise timeoutInSeconds h
  end.
End Listeners.

End StartFuncTask.

(* ===================================================================== *)
(** * Names from [constants.ts] *)
(* ===================================================================== *)

Module Constants.

(** Modelled from the spec: [constants.ts] is not among the sources.  The
    members of [ProjectLanguage] and [ProjectRuntime] are those the sources
    branch on; every other language is an [OtherLanguage]. *)
Inductive ProjectLanguage :=
| CSharp
| Java
| JavaScript
| Python
| OtherLanguage (languageName : string).

Inductive ProjectRuntime := v1 | v2.

Definition isJava (l : ProjectLanguage) : bool :=
  match l with Java => true | _ => false end.
Definition isPython (l : ProjectLanguage) : bool :=
  match l with Python => true | _ => false end.

(** Modelled from the spec: the task type under which the extension's
    task provider is registered (the earlier [FuncTaskProvider.ts] spells
    it out as a literal). *)
Definition func : string := "func".

(** Modelled from the spec: the members of [ScmType] are strings that
    spell their own names. *)
Module ScmType.
Definition LocalGit : string := "LocalGit".
Definition GitHub : string := "GitHub".
End ScmType.

(** Names of tasks and settings that the sources only import. *)
Record Names := {
  hostStartCommand : string;
  extInstallCommand : string;
  funcWatchProblemMatcher : string;
  hostStartTaskName : string;
  publishTaskId : string;
  extInstallTaskName : string;
  funcPackId : string;
  preDeployTaskSetting : string;
  extensionPrefix : string
}.

End Constants.
Import Constants.

(* ===================================================================== *)
(** * The pickProcess command ([pickFuncProcess]) *)
(* ===================================================================== *)

Module PickProcessCommand.
Import PickFuncProcess StartFuncTask.

(** What the command awaits from outside itself: the call has settled, with
    an outcome of type [A], or it never settles.  Nothing in the command
    bounds such a wait. *)
Inductive Awaited (A : Type) : Type :=
| Settled (outcome : A)
| Pending.
Arguments Settled {A} outcome.
Arguments Pending {A}.

Record Env := {
  extensionPrefix : string;                      (* constants.ts *)
  validateFuncCoreToolsInstalled : Awaited (Completion bool);
  stopFuncHostPromise : Awaited (option Error);  (* [None]: it resolved *)
  fetchTasks : Awaited (Completion (list TaskObject));
  isFuncHostTask : Task -> bool;                 (* funcCoreTools/funcHostTask *)
  (* Number(getFuncExtensionSetting('pickProcessTimeout')); [None]: NaN *)
  pickProcessTimeout : option Z;
  executeTask : Awaited (option Error);          (* [None]: it resolved *)
  taskEvents : History;                          (* after the listeners were registered *)
  isWindows : bool;
  tryFetchNodeModule : Awaited (option IWindowsProcessTree);
  now : Z;                                       (* Date.now() when polling starts *)
  (* what ps-tree hands to its callback, if it ever calls it *)
  unixPsTree : option Z -> Awaited PsTreeReport
}.

Definition noFuncTask : Error :=
  NewError (localize "noFuncTask" "Failed to find task with label '{0}'." ["todo"]).

(** The second argument of the message, the raw value of the setting, is
    left out. *)
Definition invalidSettingValue : Error :=
  NewError (localize "invalidSettingValue"
    "The setting '{0}' must be a number, but instead found '{1}'."
    ["pickProcessTimeout"]).

Definition failedToFindFuncHost (env : Env) (timeoutInSeconds : Z) : Error :=
  NewError (localize "failedToFindFuncHost"
    "Failed to detect running Functions host within '{0}' seconds. You may want to adjust the '{1}' setting."
    [toString timeoutInSeconds; extensionPrefix env ++ ".pickProcessTimeout"]).

(** [pickFuncProcess]; [None]: the command never completes.  The awaits of
    [executeTask] in [startFuncTask], of [tryFetchNodeModule] in
    [getInnermostWindowsPid] and of the promise around [unixPsTree] in
    [getInnermostUnixPid] are met here, where the call that reaches them is
    made. *)
Definition pickFuncProcess (env : Env) : option (Completion string) :=
  match validateFuncCoreToolsInstalled env with
  | Pending => None
  | Settled (Rejected e) => Some (Rejected e)
  | Settled (Resolved false) => Some (Rejected UserCancelledError)
  | Settled (Resolved true) =>
      match stopFuncHostPromise env with
      | Pending => None
      | Settled (Some e) => Some (Rejected e)
      | Settled None =>
          match fetchTasks env with
          | Pending => None
          | Settled (Rejected e) => Some (Rejected e)
          | Settled (Resolved tasks) =>
              match List.find (fun t => isFuncHostTask env (task t)) tasks with
              | None => Some (Rejected noFuncTask)
              | Some funcTask =>
                  match pickProcessTimeout env with
                  | None => Some (Rejected invalidSettingValue)
                  | Some timeoutInSeconds =>
                      let timeoutError := failedToFindFuncHost env timeoutInSeconds in
                      match executeTask env with
                      | Pending => None
                      | Settled executed =>
                          match startFuncTask (isFuncHostTask env) timeoutError
                                              executed timeoutInSeconds
                                              (taskEvents env) with
                          | Some (Resolved pid) =>
                              if isWindows env
                              then
                                match tryFetchNodeModule env with
                                | Pending => None
                                | Settled windowsProcessTree =>
                                    getInnermostWindowsPid windowsProcessTree (now env)
                                      pid timeoutInSeconds timeoutError
                                end
                              else
                                match unixPsTree env (parseInt pid) with
                                | Pending => None
                                | Settled report =>
                                    Some (getInnermostUnixPid (fun _ => report) pid)
                                end
                          | Some (Rejected e) => Some (Rejected e)
                          | None => None
                          end
                      end
                  end
              end
          end
      end
  end.

End PickProcessCommand.

(* ===================================================================== *)
(** * The deploy command ([deploy.ts]) *)
(* ===================================================================== *)

Module Deploy.

(** ** Data *)

(** Values compared with [!==] at line 94: a string, an object or
    [undefined]. *)
Inductive Value :=
| VUndefined
| VString (s : string)
| VObject (ref : nat).

(** [a === b] without conversion: values of different types differ. *)
Definition strictEquals (a b : Value) : bool :=
  match a, b with
  | VUndefined, VUndefined => true
  | VString x, VString y => String.eqb x y
  | VObject x, VObject y => Nat.eqb x y
  | _, _ => false
  end.

Record SiteConfigResource := mkSiteConfig {
  sc_ref : nat;                       (* the object itself *)
  scmType : option string
}.

Definition valueOfField (f : option string) : Value :=
  match f with Some s => VString s | None => VUndefined end.

Record SlotTreeItemBase := mkNode {
  fullId : string;
  isLinuxPreview : bool;
  client_fullName : string           (* node.root.client.fullName *)
}.

(** The first argument of the command. *)
Inductive Target :=
| TargetUri (uriFsPath : string)
| TargetString (path : string)
| TargetNode (node : option SlotTreeItemBase).

(** What the command does to the outside, in order. *)
Inductive Effect :=
| SetTelemetry (key value : string)
| SetProjectLanguage (language : ProjectLanguage)  (* telemetryProperties.projectLanguage *)
| SetProjectRuntime (runtime : ProjectRuntime)     (* telemetryProperties.projectRuntime *)
| AppendLine (lines : list LocalizedString)       (* ext.outputChannel.appendLine *)
| OutputShow                                      (* ext.outputChannel.show *)
| ShowWarningMessage (message : LocalizedString) (modal : bool) (buttons : list string)
| FetchTasks
| ExecuteTask (t : TaskObject)
| GetSiteConfig
| ClientStop
| ClientStart
| AppServiceDeploy (deployFsPath : string)
| ShowInformationMessage (message : LocalizedString)
| ListHttpTriggerUrls.

(** ** The command as a computation

    A computation performs a list of effects and then returns, throws, or
    waits for ever on a promise that never settles. *)
Inductive Outcome (A : Type) :=
| Done (a : A)
| Threw (e : Error)
| Hung.
Arguments Done {A} a.
Arguments Threw {A} e.
Arguments Hung {A}.

Definition M (A : Type) : Type := (Outcome A * list Effect)%type.

Definition outcome {A} (m : M A) : Outcome A := fst m.
Definition effects {A} (m : M A) : list Effect := snd m.

Definition ret {A} (a : A) : M A := (Done a, []).

Definition bind {A B} (m : M A) (k : A -> M B) : M B :=
  match m with
  | (Done a, done) => (outcome (k a), (done ++ effects (k a))%list)
  | (Threw e, done) => (Threw e, done)
  | (Hung, done) => (Hung, done)
  end.

Definition throw {A} (e : Error) : M A := (Threw e, []).

Definition emit (e : Effect) : M unit := (Done tt, [e]).

(** [await p] for a promise whose outcome is known. *)
Definition await {A} (p : Completion A) : M A :=
  match p with
  | Resolved a => ret a
  | Rejected e => throw e
  end.

(** [await p] for a promise with no value; [None]: it resolves. *)
Definition awaitVoid (p : option Error) : M unit :=
  match p with
  | None => ret tt
  | Some e => throw e
  end.

(** [await p] for a promise that may stay pending. *)
Definition awaitMaybe {A} (p : option (Completion A)) : M A :=
  match p with
  | Some c => await c
  | None => (Hung, [])
  end.

(** [try { body } finally { fin }] *)
Definition tryFinally {A} (body : M A) (fin : M unit) : M A :=
  match body with
  | (Hung, done) => (Hung, done)
  | (r, done) =>
      match fin with
      | (Done _, more) => (r, (done ++ more)%list)
      | (Threw e, more) => (Threw e, (done ++ more)%list)
      | (Hung, more) => (Hung, (done ++ more)%list)
      end
  end.

Declare Scope deploy_scope.
Delimit Scope deploy_scope with deploy.
Notation "x <- m ;; k" := (bind m (fun x => k))
  (at level 61, m at next level, right associativity) : deploy_scope.
Notation "m ;; k" := (bind m (fun _ => k))
  (at level 61, right associativity) : deploy_scope.
Local Open Scope deploy_scope.

Definition when (b : bool) (m : M unit) : M unit := if b then m else ret tt.

(** ** The wait at lines 327-338 *)

Definition preDeployTaskFailed (t : TaskObject) (exitCode : Z) : Error :=
  NewError (localize "taskFailed"
    "Failed to deploy. Pre-deploy task '{0}' failed with exit code '{1}'."
    [name (task t); toString exitCode]).

Record EndWait := mkEndWait {
  promise : option (Completion unit);
  listener : bool                   (* onDidEndTaskProcess still subscribed *)
}.

Definition onEvent (preDeployTask : TaskObject) (w : EndWait) (ev : TaskEvent) : EndWait :=
  match ev with
  | DidEndTaskProcess t exitCode =>
      if listener w && sameObject t preDeployTask
      then mkEndWait
             (StartFuncTask.settle (promise w)
                (if exitCode =? 0 then Resolved tt
                 else Rejected (preDeployTaskFailed t exitCode)))
             false
      else w
  | DidStartTaskProcess _ _ => w
  end.

(** The promise after the whole history of task events has been delivered;
    [None]: it is still pending, and nothing else will settle it. *)
Definition awaitTaskEnd (preDeployTask : TaskObject) (h : History)
  : option (Completion unit) :=
  promise (fold_left (onEvent preDeployTask) (map snd h) (mkEndWait None true)).

(** ** What the command obtains from outside

    The helpers of [deploy.ts] that run before line 93
    ([appendDeploySubpathSetting], [getDeployFsPath], [getJavaFolderPath],
    [verifyWebContentSettings], [verifyRuntimeIsCompatible]) and
    [listHttpTriggerUrls] neither upload nor stop or start the site; each is
    represented by its outcome. *)

Record Env := {
  names : Names;
  (* String.prototype.toLowerCase, which lowers every cased letter of a
     text and not only A to Z *)
  toLowerCase : string -> string;
  (* settings and path helpers ([ProjectSettings], [utils/fs]) *)
  preDeployTaskOf : string -> option string;  (* getFuncExtensionSetting(preDeployTaskSetting, path) *)
  isPathEqual : string -> string -> bool;
  isSubpath : string -> string -> bool;
  (* choosing what to deploy and where *)
  appendDeploySubpathSetting : string -> Completion string;
  getDeployFsPath : Completion string;
  ensureFolderIsOpen : string -> Completion string;
  showTreeItemPicker : Completion SlotTreeItemBase;
  findTreeItem : string -> Completion (option SlotTreeItemBase);
  createdNodes : list SlotTreeItemBase;       (* reported by onTreeItemCreate until dispose *)
  (* the project and the site *)
  getProjectLanguage : string -> Completion ProjectLanguage;
  getProjectRuntime : ProjectLanguage -> string -> Completion ProjectRuntime;
  verifyWebContentSettings : SlotTreeItemBase -> option Error;
  getJavaFolderPath : string -> Completion string;
  verifyRuntimeIsCompatible : ProjectRuntime -> option Error;
  getSiteConfig : Completion SiteConfigResource;
  (* ext.ui.showWarningMessage: rejects with UserCancelledError unless a
     button other than Cancel is chosen *)
  showWarningMessage : LocalizedString -> Completion string;
  (* tasks *)
  fetchTasks : Completion (list TaskObject);
  executeTask : TaskObject -> option Error;
  taskEvents : History;                       (* delivered after executeTask resolved *)
  (* the site client and the upload *)
  clientStop : option Error;
  clientStart : option Error;
  appserviceDeploy : string -> option Error;
  listHttpTriggerUrls : option Error
}.

Section Command.
Variable env : Env.

(** ** [runPreDeployTask] *)

(** The [switch (language)] at lines 292-308; [None]: [return]. *)
Definition inferredTaskName (language : ProjectLanguage) (runtime : ProjectRuntime)
  : option string :=
  match language with
  | CSharp => Some (publishTaskId (names env))
  | JavaScript =>
      match runtime with
      | v1 => None
      | _ => Some (extInstallTaskName (names env))
      end
  | Python => Some (funcPackId (names env))
  | _ => None
  end.

(** The test of the loop at lines 314-322. *)
Definition isPreDeployTask (taskName deployFsPath : string) (t : TaskObject) : bool :=
  String.eqb (toLowerCase env (name (task t))) (toLowerCase env taskName) &&
  match scope (task t) with
  | ScopeUndefined => false
  | ScopeFolder folder =>
      isPathEqual env (fsPath folder) deployFsPath
      || isSubpath env (fsPath folder) deployFsPath
  | ScopeGlobal | ScopeWorkspace => false      (* no [uri] *)
  end.

Definition ignoringPreDeployTask (taskName : string) : LocalizedString :=
  localize "ignoringPreDeployTask"
    "WARNING: Ignoring preDeployTask '{0}' for non-zip deploy." [taskName].

Definition howToAddPreDeploySteps : list LocalizedString :=
  [ localize "howToAddPreDeploy1"
      "1. Open Command Palette (View -> Command Palette...)" [];
    localize "howToAddPreDeploy2"
      "2. Search for 'Azure Functions' and run command 'Initialize Project for Use with VS Code'" [];
    localize "howToAddPreDeploy3"
      "3. Select 'Yes' to overwrite your tasks.json file when prompted" [] ].

Definition messageLines (isTaskNameDefinedInSettings : bool) (taskName : string)
  : list LocalizedString :=
  ((if isTaskNameDefinedInSettings then
      [ localize "noPreDeployTaskError"
          "Did not find preDeploy task '{0}'. Change the '{1}.{2}' setting, manually edit your task.json, or re-initialize your VS Code config with the following steps:"
          [taskName; extensionPrefix (names env); preDeployTaskSetting (names env)] ]
    else
      [ localize "noPreDeployTaskWarning"
          "WARNING: Did not find preDeploy task '{0}'. The deployment will continue, but the selected folder may not reflect your latest changes."
          [taskName];
        localize "howToAddPreDeploy"
          "In order to ensure that you always deploy your latest changes, add a preDeploy task with the following steps:" [] ])
   ++ howToAddPreDeploySteps)%list.

Definition runPreDeployTask (deployFsPath : string) (language : ProjectLanguage)
    (isZipDeploy : bool) (runtime : ProjectRuntime) : M unit :=
  let setting := preDeployTaskOf env deployFsPath in
  if negb isZipDeploy then
    match setting with
    | Some taskName =>
        when (truthy setting) (emit (AppendLine [ignoringPreDeployTask taskName]))
    | None => ret tt
    end
  else
    let isTaskNameDefinedInSettings := truthy setting in
    match (if truthy setting then setting else inferredTaskName language runtime) with
    | None => ret tt
    | Some taskName =>
        emit (SetTelemetry "preDeployTask" taskName) ;;
        emit FetchTasks ;;
        tasks <- await (fetchTasks env) ;;
        match List.find (isPreDeployTask taskName deployFsPath) tasks with
        | Some preDeployTask =>
            emit (SetTelemetry "foundPreDeployTask" "true") ;;
            emit (ExecuteTask preDeployTask) ;;
            awaitVoid (executeTask env preDeployTask) ;;
            awaitMaybe (awaitTaskEnd preDeployTask (taskEvents env))
        | None =>
            emit (SetTelemetry "foundPreDeployTask" "false") ;;
            let fullMessage := messageLines isTaskNameDefinedInSettings taskName in
            if isTaskNameDefinedInSettings then throw (NewErrorLines fullMessage)
            else (emit OutputShow ;; emit (AppendLine fullMessage))
        end
    end.

(** ** [deploy] *)

(** Line 94. *)
Definition isZipDeploy (siteConfig : SiteConfigResource) : bool :=
  negb (strictEquals (valueOfField (scmType siteConfig)) (VString ScmType.LocalGit))
  && negb (strictEquals (VObject (sc_ref siteConfig)) (VString ScmType.GitHub)).

(** Line 75. *)
Definition confirmDeployment (newNodes : list SlotTreeItemBase)
    (node : option SlotTreeItemBase) : bool :=
  negb (existsb
          (fun newNode =>
             match node with
             | Some n => String.eqb (fullId newNode) (fullId n)
             | None => false
             end)
          newNodes).

Definition confirmDeploy (node : SlotTreeItemBase) : LocalizedString :=
  localize "confirmDeploy"
    "Are you sure you want to deploy to '{0}'? This will overwrite any previous deployment and cannot be undone."
    [client_fullName node].

Definition stopFunctionApp (node : SlotTreeItemBase) : LocalizedString :=
  localize "stopFunctionApp" "Stopping Function App: {0} ..." [client_fullName node].
Definition startFunctionApp (node : SlotTreeItemBase) : LocalizedString :=
  localize "startFunctionApp" "Starting Function App: {0} ..." [client_fullName node].

(** The callback given to [node.runWithTemporaryDescription], lines
    112-127. *)
Definition deploying (node : SlotTreeItemBase) (language : ProjectLanguage)
    (deployFsPath : string) : M unit :=
  tryFinally
    (when (isJava language)
       (emit (AppendLine [stopFunctionApp node]) ;;
        emit ClientStop ;;
        awaitVoid (clientStop env)) ;;
     emit (AppServiceDeploy deployFsPath) ;;
     awaitVoid (appserviceDeploy env deployFsPath))
    (when (isJava language)
       (emit (AppendLine [startFunctionApp node]) ;;
        emit ClientStart ;;
        awaitVoid (clientStart env))).

(** Lines 37-72: the folder to deploy, the workspace folder, the target
    node and the nodes created while it was chosen. *)
Definition chooseTarget (target : Target) (functionAppId : option string)
  : M (string * string * SlotTreeItemBase * list SlotTreeItemBase) :=
  deployFsPath <- await (match target with
                         | TargetUri p => appendDeploySubpathSetting env p
                         | TargetString p => appendDeploySubpathSetting env p
                         | TargetNode _ => getDeployFsPath env
                         end) ;;
  workspaceFsPath <- await (ensureFolderIsOpen env deployFsPath) ;;
  match target with
  | TargetNode (Some node) => ret (deployFsPath, workspaceFsPath, node, [])
  | _ =>
      if negb (truthy functionAppId) then
        node <- await (showTreeItemPicker env) ;;
        ret (deployFsPath, workspaceFsPath, node, createdNodes env)
      else
        functionAppNode <- await (findTreeItem env
                                    (match functionAppId with Some i => i | None => "" end)) ;;
        match functionAppNode with
        | Some node => ret (deployFsPath, workspaceFsPath, node, createdNodes env)
        | None =>
            throw (NewError (localize "noMatchingFunctionApp"
                     "Failed to find a function app matching id '{0}'."
                     [match functionAppId with Some i => i | None => "" end]))
        end
  end.

(** Lines 93-145.  [node.runWithTemporaryDescription] runs its callback and
    passes its outcome on; the information message is not awaited, and what
    its buttons do later is no part of the command. *)
Definition confirmAndDeploy (node : SlotTreeItemBase) (confirm : bool)
    (language : ProjectLanguage) (runtime : ProjectRuntime)
    (deployFsPath workspaceFsPath : string) : M unit :=
  emit GetSiteConfig ;;
  siteConfig <- await (getSiteConfig env) ;;
  let zip := isZipDeploy siteConfig in
  when (confirm && zip)
    (emit (SetTelemetry "cancelStep" "confirmDestructiveDeployment") ;;
     emit (ShowWarningMessage (confirmDeploy node) true ["Deploy"; "Cancel"]) ;;
     await (showWarningMessage env (confirmDeploy node)) ;;
     emit (SetTelemetry "cancelStep" "")) ;;
  runPreDeployTask deployFsPath language zip runtime ;;
  let deployFsPath' :=
    if strictEquals (valueOfField (scmType siteConfig)) (VString ScmType.LocalGit)
    then workspaceFsPath else deployFsPath in
  deploying node language deployFsPath' ;;
  let deployComplete :=
    localize "deployComplete" "Deployment to '{0}' completed." [client_fullName node] in
  emit (AppendLine [deployComplete]) ;;
  emit (ShowInformationMessage deployComplete) ;;
  emit ListHttpTriggerUrls ;;
  awaitVoid (listHttpTriggerUrls env).

Definition pythonNotAvailableOnWindows : Error :=
  NewError (localize "pythonNotAvailableOnWindows"
    "Python projects are not supported on Windows Function apps.  Deploy to a Linux Consumption app." []).

Definition deploy (target : Target) (functionAppId : option string) : M unit :=
  chosen <- chooseTarget target functionAppId ;;
  let '(deployFsPath, workspaceFsPath, node, newNodes) := chosen in
  let confirm := confirmDeployment newNodes (Some node) in
  language <- await (getProjectLanguage env deployFsPath) ;;
  emit (SetProjectLanguage language) ;;
  runtime <- await (getProjectRuntime env language deployFsPath) ;;
  emit (SetProjectRuntime runtime) ;;
  (if isPython language && negb (isLinuxPreview node)
   then throw pythonNotAvailableOnWindows else ret tt) ;;
  awaitVoid (verifyWebContentSettings env node) ;;
  deployFsPath' <- (if isJava language
                    then await (getJavaFolderPath env deployFsPath)
                    else ret deployFsPath) ;;
  awaitVoid (verifyRuntimeIsCompatible env runtime) ;;
  confirmAndDeploy node confirm language runtime deployFsPath' workspaceFsPath.

End Command.

End Deploy.

(* ===================================================================== *)
(** * Project creators *)
(* ===================================================================== *)

Module JavaScriptProjectCreator.

Definition funcNodeDebugArgs : string := "--inspect=5858".
Definition funcNodeDebugEnvVar : string := "languageWorkers__node__arguments".

(** An entry of [configurations] in [launch.json]. *)
Record DebugConfiguration := mkDebugConfiguration {
  dc_name : LocalizedString;
  dc_type : string;
  dc_request : string;
  dc_port : Z;
  dc_preLaunchTask : string
}.

Record LaunchJson := mkLaunchJson {
  version : string;
  configurations : list DebugConfiguration
}.

Definition getLaunchJson (names : Names) : LaunchJson :=
  mkLaunchJson "0.2.0"
    [ mkDebugConfiguration
        (localize "azFunc.attachToJavaScriptFunc" "Attach to JavaScript Functions" [])
        "node" "attach" 5858 (hostStartTaskName names) ].

End JavaScriptProjectCreator.

Module PythonProjectCreator.

(** [NodeJS.Platform], with the members of [Platform] the sources name. *)
Inductive Platform := Windows | MacOS | Linux | OtherPlatform.

Section Commands.
(** [path.join] and [cpUtils.joinCommands] are not among the sources. *)
Variable path_join : list string -> string.
Variable joinCommands : Platform -> list string -> string.

Definition getVenvActivatePath (venvName : string) (platform : Platform) : string :=
  match platform with
  | Windows => path_join ["."; venvName; "Scripts"; "activate"]
  | _ => path_join ["."; venvName; "bin"; "activate"]
  end.

Definition getVenvActivateCommand (venvName : string) (platform : Platform) : string :=
  let venvActivatePath := getVenvActivatePath venvName platform in
  match platform with
  | Windows => venvActivatePath
  | _ => ". " ++ venvActivatePath
  end.

Definition convertToVenvCommand (venvName : string) (platform : Platform)
    (commands : list string) : string :=
  joinCommands platform (getVenvActivateCommand venvName platform :: commands).
End Commands.

End PythonProjectCreator.

(* ===================================================================== *)
(** * The task provider of [src/FuncTaskProvider.ts] *)
(* ===================================================================== *)

Module FuncTaskProvider.

Record Env := {
  (* getProjectLanguage(path, ext.ui), which is awaited and may reject;
     [Resolved None]: it resolves with undefined *)
  getProjectLanguage : string -> Completion (option ProjectLanguage);
  nodeDebugPort : string -> option Z     (* getFuncExtensionSetting('nodeDebugPort', path) *)
}.

Definition taskDefinition : TaskDefinition := mkDefinition "func" "host start" (Some 5858).

(** The execution built in each of the three [case]s. *)
Definition hostStartExecution (env : Env) (folder : WorkspaceFolder) : Execution :=
  ProcessExecution "func" ["host"; "start"]
    (Some [("languageWorkers:node:arguments",
            "--inspect=" ++ interpolate (nodeDebugPort env (fsPath folder)))]).

(** [new Task(...)] followed by [task.isBackground = true]. *)
Definition hostStartTask (folder : WorkspaceFolder) (execution : Execution) : Task :=
  mkTask taskDefinition (ScopeFolder folder) "host start" "func" execution
         ["$func-watch"] true.

(** The body of the [for] loop: [result] after the iteration, or the
    rejection of the awaited [getProjectLanguage]. *)
Definition visitFolder (env : Env) (result : list Task) (folder : WorkspaceFolder)
  : Completion (list Task) :=
  match getProjectLanguage env (fsPath folder) with
  | Resolved (Some projectLanguage) =>
      Resolved
        match projectLanguage with
        | JavaScript => (result ++ [hostStartTask folder (hostStartExecution env folder)])%list
        | Java => (result ++ [hostStartTask folder (hostStartExecution env folder)])%list
        | CSharp => (result ++ [hostStartTask folder (hostStartExecution env folder)])%list
        | _ => result                         (* continue *)
        end
  | Resolved None => Resolved result
  | Rejected e => Rejected e
  end.

(** The [for] loop from [result] on; a rejected [await] ends the call. *)
Fixpoint visitFolders (env : Env) (folders : list WorkspaceFolder) (result : list Task)
  : Completion (list Task) :=
  match folders with
  | [] => Resolved result
  | folder :: rest =>
      match visitFolder env result folder with
      | Resolved result => visitFolders env rest result
      | Rejected e => Rejected e
      end
  end.

Definition provideTasks (env : Env) (workspaceFolders : option (list WorkspaceFolder))
  : Completion (list Task) :=
  match workspaceFolders with
  | Some folders => visitFolders env folders []
  | None => Resolved []
  end.

End FuncTaskProvider.

(* ===================================================================== *)
(** * The task provider with [getHostStartTask] *)
(* ===================================================================== *)

Module FuncTaskProviderHost.
Import PythonProjectCreator.

(** The [ms-python.python] extension as [getPythonCommand] sees it. *)
Record PythonExtension := {
  isActive : bool;
  activate : option Error;            (* outcome of activate(); [None]: resolved *)
  (* exports.debug.getRemoteLauncherCommand, if exports.debug is there *)
  getRemoteLauncherCommand : option (string -> Z -> Completion (list string))
}.

Record Env := {
  names : Names;
  isFunctionProject : string -> bool;
  projectLanguage : string -> option ProjectLanguage; (* the projectLanguage setting *)
  pythonVenv : string -> option string;               (* the pythonVenv setting *)
  platform : Platform;                                (* process.platform *)
  path_join : list string -> string;
  joinCommands : Platform -> list string -> string;
  pyExtension : option PythonExtension                (* extensions.getExtension(...) *)
}.

(** [port || d] for [port : number | undefined]. *)
Definition orDefault (port : option Z) (d : Z) : Z :=
  match port with
  | Some p => if p =? 0 then d else p
  | None => d
  end.

Definition getPythonCommand (env : Env) (host : string) (port : Z) : Completion string :=
  match pyExtension env with
  | Some pyExt =>
      match (if isActive pyExt then None else activate pyExt) with
      | Some e => Rejected e
      | None =>
          match getRemoteLauncherCommand pyExt with
          | Some launcher =>
              match launcher host port with
              | Resolved parts => Resolved (String.concat " " parts)
              | Rejected e => Rejected e
              end
          | None => Rejected (PlainError "todo")
          end
      end
  | None => Rejected (PlainError "todo")
  end.

Definition newHostStartTask (env : Env) (folder : WorkspaceFolder)
    (command : string) (options : option (list (string * string))) : Task :=
  mkTask (mkDefinition func (hostStartCommand (names env)) None)
         (ScopeFolder folder) (hostStartCommand (names env)) func
         (ShellExecution command options)
         [funcWatchProblemMatcher (names env)] false.

Definition getHostStartTask (env : Env) (folder : WorkspaceFolder) : Completion Task :=
  let host := "127.0.0.1" in
  let port : option Z := None in
  let command := "func host start" in
  match projectLanguage env (fsPath folder) with
  | Some Python =>
      let port := orDefault port 9091 in
      let venvName := pythonVenv env (fsPath folder) in
      let command :=
        match venvName with
        | Some v => if truthy venvName
                    then convertToVenvCommand (path_join env) (joinCommands env)
                                              v (platform env) [command]
                    else command
        | None => command
        end in
      match getPythonCommand env host port with
      | Resolved arguments =>
          Resolved (newHostStartTask env folder command
                      (Some [("languageWorkers__python__arguments", arguments)]))
      | Rejected e => Rejected e
      end
  | Some JavaScript =>
      let port := orDefault port 5858 in
      Resolved (newHostStartTask env folder command
                  (Some [("languageWorkers__node__arguments", "--inspect=" ++ toString port)]))
  | Some Java =>
      let port := orDefault port 5005 in
      Resolved (newHostStartTask env folder command
                  (Some [("languageWorkers__java__arguments",
                          "-agentlib:jdwp=transport=dt_socket,server=y,suspend=n,address="
                            ++ toString port)]))
  | _ => Resolved (newHostStartTask env folder command None)
  end.

Definition getExtensionInstallTask (env : Env) (folder : WorkspaceFolder) : Task :=
  mkTask (mkDefinition func (extInstallCommand (names env)) None)
         (ScopeFolder folder) (extInstallCommand (names env)) func
         (ProcessExecution func ["extensions"; "install"] None)
         [] false.

(** The [for] loop of [provideTasks], from [result] on; a rejected
    [await] ends the whole call. *)
Fixpoint visitFolders (env : Env) (folders : list WorkspaceFolder) (result : list Task)
  : Completion (list Task) :=
  match folders with
  | [] => Resolved result
  | folder :: rest =>
      if isFunctionProject env (fsPath folder) then
        let result := (result ++ [getExtensionInstallTask env folder])%list in
        match getHostStartTask env folder with
        | Resolved hostStartTask => visitFolders env rest (result ++ [hostStartTask])%list
        | Rejected e => Rejected e
        end
      else visitFolders env rest result
  end.

Definition provideTasks (env : Env) (workspaceFolders : option (list WorkspaceFolder))
  : Completion (list Task) :=
  match workspaceFolders with
  | Some folders => visitFolders env folders []
  | None => Resolved []
  end.

End FuncTaskProviderHost.

(* ===================================================================== *)
(** * The entry point ([extension.ts]) *)
(* ===================================================================== *)

Module Extension.

(** The functions [extension.ts] imports and binds to commands. *)
Inductive CommandFunction :=
| pickFuncProcess | openInPortal | createFunction | createNewProject
| initProjectForVSCode | createFunctionApp | startFunctionApp | stopFunctionApp
| restartFunctionApp | deleteNode | deploy | configureDeploymentSource
| copyFunctionUrl | startStreamingLogs | stopStreamingLogs | createChildNode
| downloadAppSettings | uploadAppSettings | editAppSetting | renameAppSetting
| decryptLocalSettings | encryptLocalSettings | remoteDebugFunctionApp
| installOrUpdateFuncCoreTools | uninstallFuncCoreTools | redeployDeployment
| viewDeploymentLogs | connectToGitHub | disconnectRepo | swapSlot.

(** The tree items whose [contextValue] is passed along. *)
Inductive TreeItemClass :=
| ProductionSlotTreeItem | FunctionTreeItem | AppSettingsTreeItem
| AppSettingTreeItem | ProxyTreeItem | SlotsTreeItem.

(** The second argument of [registerCommand]. *)
Inductive Handler :=
| Direct (f : CommandFunction)            (* the imported function itself *)
| Forwarding (f : CommandFunction)        (* a closure passing [this] and its arguments to [f] *)
| OnContextValue (f : CommandFunction) (item : TreeItemClass)
                                          (* node => f(item.contextValue, node) *)
| ExecuteCommand (commandId : string)     (* vscode.commands.executeCommand(commandId) *)
| TreeRefresh                             (* ext.tree.refresh(node) *)
| TreeLoadMore.                           (* ext.tree.loadMore(node) *)

Inductive Subscription :=
| OutputChannel (channelName : string)
| Tree
| TreeDataProviderRegistration (viewId : string)
| TaskProviderRegistration (taskType : string).

(** What the editor holds for the extension. *)
Record Host := mkHost {
  commands : list (string * Handler);       (* in order of registration *)
  taskProviders : list string;              (* task types with a FuncTaskProvider *)
  treeDataProviders : list string;
  events : list string;                     (* ids given to registerEvent *)
  telemetryCalls : list string;             (* ids given to callWithTelemetryAndErrorHandling *)
  subscriptions : list Subscription;        (* context.subscriptions *)
  funcHostTaskEvents : bool                 (* registerFuncHostTaskEvents() was called *)
}.

Definition emptyHost : Host := mkHost [] [] [] [] [] [] false.

Definition registerCommand (commandId : string) (h : Handler) (host : Host) : Host :=
  mkHost (commands host ++ [(commandId, h)]) (taskProviders host)
         (treeDataProviders host) (events host) (telemetryCalls host) (subscriptions host) (funcHostTaskEvents host).

Definition registerTaskProvider (taskType : string) (host : Host) : Host :=
  mkHost (commands host) (taskProviders host ++ [taskType])
         (treeDataProviders host) (events host) (telemetryCalls host)
         (subscriptions host ++ [TaskProviderRegistration taskType])
       (funcHostTaskEvents host).

Definition registerTreeDataProvider (viewId : string) (host : Host) : Host :=
  mkHost (commands host) (taskProviders host)
         (treeDataProviders host ++ [viewId]) (events host) (telemetryCalls host)
         (subscriptions host ++ [TreeDataProviderRegistration viewId])
       (funcHostTaskEvents host).

Definition registerEvent (eventId : string) (host : Host) : Host :=
  mkHost (commands host) (taskProviders host)
         (treeDataProviders host) (events host ++ [eventId]) (telemetryCalls host)
         (subscriptions host) (funcHostTaskEvents host).

Definition callWithTelemetry (callbackId : string) (host : Host) : Host :=
  mkHost (commands host) (taskProviders host)
         (treeDataProviders host) (events host) (telemetryCalls host ++ [callbackId])
         (subscriptions host) (funcHostTaskEvents host).

Definition subscribe (s : Subscription) (host : Host) : Host :=
  mkHost (commands host) (taskProviders host)
         (treeDataProviders host) (events host) (telemetryCalls host)
         (subscriptions host ++ [s]) (funcHostTaskEvents host).

Definition registerFuncHostTaskEvents (host : Host) : Host :=
  mkHost (commands host) (taskProviders host)
         (treeDataProviders host) (events host) (telemetryCalls host)
         (subscriptions host) true.

(** The callback given to [callWithTelemetryAndErrorHandling] at line 69.
    Its calls of [validateFuncCoreToolsIsLatest] and [getTemplateProvider]
    register nothing with the host. *)
Definition activation (host : Host) : Host :=
  let host := subscribe Tree host in
  let host := registerTreeDataProvider "azureFunctionsExplorer" host in
  let validateEventId := "azureFunctions.validateFunctionProjects" in
  let host := callWithTelemetry validateEventId host in
  let host := registerEvent validateEventId host in
  let host := registerCommand "azureFunctions.selectSubscriptions"
                (ExecuteCommand "azure-account.selectSubscriptions") host in
  let host := registerCommand "azureFunctions.refresh" TreeRefresh host in
  let host := registerCommand "azureFunctions.pickProcess"
                (Direct pickFuncProcess) host in
  let host := registerCommand "azureFunctions.loadMore" TreeLoadMore host in
  let host := registerCommand "azureFunctions.openInPortal"
                (Direct openInPortal) host in
  let host := registerCommand "azureFunctions.createFunction"
                (Forwarding createFunction) host in
  let host := registerCommand "azureFunctions.createNewProject"
                (Forwarding createNewProject) host in
  let host := registerCommand "azureFunctions.initProjectForVSCode"
                (Forwarding initProjectForVSCode) host in
  let host := registerCommand "azureFunctions.createFunctionApp"
                (Direct createFunctionApp) host in
  let host := registerCommand "azureFunctions.startFunctionApp"
                (Direct startFunctionApp) host in
  let host := registerCommand "azureFunctions.stopFunctionApp"
                (Direct stopFunctionApp) host in
  let host := registerCommand "azureFunctions.restartFunctionApp"
                (Direct restartFunctionApp) host in
  let host := registerCommand "azureFunctions.deleteFunctionApp"
                (OnContextValue deleteNode ProductionSlotTreeItem) host in
  let host := registerCommand "azureFunctions.deploy"
                (Direct deploy) host in
  let host := registerCommand "azureFunctions.configureDeploymentSource"
                (Direct configureDeploymentSource) host in
  let host := registerCommand "azureFunctions.copyFunctionUrl"
                (Direct copyFunctionUrl) host in
  let host := registerCommand "azureFunctions.startStreamingLogs"
                (Direct startStreamingLogs) host in
  let host := registerCommand "azureFunctions.stopStreamingLogs"
                (Direct stopStreamingLogs) host in
  let host := registerCommand "azureFunctions.deleteFunction"
                (OnContextValue deleteNode FunctionTreeItem) host in
  let host := registerCommand "azureFunctions.appSettings.add"
                (OnContextValue createChildNode AppSettingsTreeItem) host in
  let host := registerCommand "azureFunctions.appSettings.download"
                (Direct downloadAppSettings) host in
  let host := registerCommand "azureFunctions.appSettings.upload"
                (Direct uploadAppSettings) host in
  let host := registerCommand "azureFunctions.appSettings.edit"
                (Direct editAppSetting) host in
  let host := registerCommand "azureFunctions.appSettings.rename"
                (Direct renameAppSetting) host in
  let host := registerCommand "azureFunctions.appSettings.decrypt"
                (Direct decryptLocalSettings) host in
  let host := registerCommand "azureFunctions.appSettings.encrypt"
                (Direct encryptLocalSettings) host in
  let host := registerCommand "azureFunctions.appSettings.delete"
                (OnContextValue deleteNode AppSettingTreeItem) host in
  let host := registerCommand "azureFunctions.debugFunctionAppOnAzure"
                (Direct remoteDebugFunctionApp) host in
  let host := registerCommand "azureFunctions.deleteProxy"
                (OnContextValue deleteNode ProxyTreeItem) host in
  let host := registerCommand "azureFunctions.installOrUpdateFuncCoreTools"
                (Direct installOrUpdateFuncCoreTools) host in
  let host := registerCommand "azureFunctions.uninstallFuncCoreTools"
                (Direct uninstallFuncCoreTools) host in
  let host := registerCommand "azureFunctions.redeploy"
                (Direct redeployDeployment) host in
  let host := registerCommand "azureFunctions.viewDeploymentLogs"
                (Direct viewDeploymentLogs) host in
  let host := registerCommand "azureFunctions.connectToGitHub"
                (Direct connectToGitHub) host in
  let host := registerCommand "azureFunctions.disconnectRepo"
                (Direct disconnectRepo) host in
  let host := registerCommand "azureFunctions.swapSlot"
                (Direct swapSlot) host in
  let host := registerCommand "azureFunctions.createSlot"
                (OnContextValue createChildNode SlotsTreeItem) host in
  let host := registerFuncHostTaskEvents host in
  registerTaskProvider func host.

(** The value of [createApiProvider(apis)]. *)
Inductive AzureExtensionApiProvider := ApiProvider (apis : list string).

Definition activate (host : Host) : AzureExtensionApiProvider * Host :=
  let host := subscribe (OutputChannel "Azure Functions") host in
  let host := callWithTelemetry "azureFunctions.activate" host in
  let host := activation host in
  (ApiProvider [], host).

End Extension.



(* ===================================================================== *)
(** * Computations with a trace of effects *)
(* ===================================================================== *)

Module Run.

(** How an [async] function ends. *)
Inductive Result (A : Type) :=
| Returned (a : A)
| Thrown (e : Error).
Arguments Returned {A} a.
Arguments Thrown {A} e.

Section Effects.
Context {E : Type}.

(** The result of a function together with what it did, in order. *)
Definition M (A : Type) : Type := (Result A * list E)%type.

Definition result {A} (m : M A) : Result A := fst m.
Definition trace {A} (m : M A) : list E := snd m.

Definition ret {A} (a : A) : M A := (Returned a, []).
Definition throw {A} (e : Error) : M A := (Thrown e, []).
Definition emit (e : E) : M unit := (Returned tt, [e]).

Definition bind {A B} (m : M A) (k : A -> M B) : M B :=
  match m with
  | (Returned a, done) => (result (k a), (done ++ trace (k a))%list)
  | (Thrown e, done) => (Thrown e, done)
  end.

(** [await p] *)
Definition await {A} (p : Completion A) : M A :=
  match p with
  | Resolved a => ret a
  | Rejected e => throw e
  end.

(** [await p] for a promise with no value; [None]: it resolves. *)
Definition awaitVoid (p : option Error) : M unit :=
  match p with
  | None => ret tt
  | Some e => throw e
  end.

Definition when (b : bool) (m : M unit) : M unit := if b then m else ret tt.

(** [try { body } catch (error) { handler }] *)
Definition tryCatch {A} (body : M A) (handler : Error -> M A) : M A :=
  match body with
  | (Thrown e, done) => (result (handler e), (done ++ trace (handler e))%list)
  | (Returned a, done) => (Returned a, done)
  end.

(** [for (const x of xs) { body }] *)
Fixpoint forEach {A} (xs : list A) (body : A -> M unit) : M unit :=
  match xs with
  | [] => ret tt
  | x :: rest => bind (body x) (fun _ => forEach rest body)
  end.
End Effects.

Declare Scope run_scope.
Delimit Scope run_scope with run.
Notation "x <- m ;; k" := (bind m (fun x => k))
  (at level 61, m at next level, right associativity) : run_scope.
Notation "m ;; k" := (bind m (fun _ => k))
  (at level 61, right associativity) : run_scope.

End Run.

(* ===================================================================== *)
(** * Objects used as dictionaries *)
(* ===================================================================== *)

Module Dictionary.

(** A JavaScript object with string values: its own properties in
    insertion order. *)
Definition t : Type := list (string * string).

(** [d[key]] *)
Fixpoint get (d : t) (key : string) : option string :=
  match d with
  | [] => None
  | (k, v) :: rest => if String.eqb k key then Some v else get rest key
  end.

(** [delete d[key]] *)
Definition delete (d : t) (key : string) : t :=
  List.filter (fun kv => negb (String.eqb (fst kv) key)) d.

(** [d[key] = value]: an existing property keeps its place. *)
Fixpoint set (d : t) (key value : string) : t :=
  match d with
  | [] => [(key, value)]
  | (k, v) :: rest =>
      if String.eqb k key then (key, value) :: rest else (k, v) :: set rest key value
  end.

(** [Object.keys(d)] *)
Definition keys (d : t) : list string := List.nodup string_dec (List.map fst d).

End Dictionary.

(* ===================================================================== *)
(** * The helpers of [deploy.ts] *)
(* ===================================================================== *)

Module DeployHelpers.
Import Run.
Local Open Scope run_scope.

(** [DialogResponses.*] and message items made on the spot. *)
Inductive MessageItem :=
| DialogYes
| DialogCancel
| DialogLearnMore
| DialogDontWarnAgain
| NewItem (title : LocalizedString).

(** A line for the output channel: a localized message or a template
    literal. *)
Inductive Line :=
| Localized (message : LocalizedString)
| Text (text : string).

(** A value read from the settings: a string, or something else (a
    number, a boolean, an object), of which only the truthiness matters. *)
Inductive Setting :=
| SettingString (s : string)
| SettingOther (isTruthy : bool).

Definition settingTruthy (value : option Setting) : bool :=
  match value with
  | Some (SettingString s) => truthy (Some s)
  | Some (SettingOther isTruthy) => isTruthy
  | None => false
  end.

(** [ShowWarningMessageUnawaited] is a call of [showWarningMessage] that is
    not awaited; [andThen result] is what the continuation given to [then]
    does once the warning is answered with [result]. *)
Inductive Effect :=
| SetTelemetry (key value : string)
| SuppressErrorDisplay                          (* actionContext.suppressErrorDisplay = true *)
| AppendLine (line : Line)
| OutputShow
| ShowWarningMessage (message : LocalizedString) (modal : bool) (buttons : list MessageItem)
| ShowWarningMessageUnawaited (message : LocalizedString) (buttons : list MessageItem)
                              (andThen : MessageItem -> list Effect)
| UpdateGlobalSetting (key : string) (value : bool)
| ListApplicationSettings
| UpdateApplicationSettings (properties : Dictionary.t)
| RefreshAppSettings                            (* node.appSettingsTreeItem.refresh() *)
| Opn (url : string)
| GetCliFeedAppSettings (runtime : ProjectRuntime)
| GetCachedChildren
| RefreshTree                                   (* node.treeDataProvider.refresh(functionsNode) *)
| ValidateMavenInstalled
| ExecuteMvnCommand (args : list string)
| ShowOpenDialog
| SelectWorkspaceFolder.

(** Modelled from the spec: [FunctionConfig.ts] is not among the sources;
    the only level the sources name is [anonymous]. *)
Inductive HttpAuthLevel :=
| anonymous
| otherLevel (levelName : string).

(** The tree items [listHttpTriggerUrls] tells apart with [instanceof]. *)
Inductive AzureTreeItem :=
| FunctionsTreeItem (cachedChildren : Completion (list AzureTreeItem))
| FunctionTreeItem (label triggerUrl : string) (isHttpTrigger : bool)
                   (authLevel : HttpAuthLevel)
| OtherTreeItem.

Record Env := {
  names : Names;
  deploySubpathSetting : string;                 (* constants.ts *)
  runtimeText : ProjectRuntime -> string;        (* the enum member as a string *)
  (* the site client *)
  listApplicationSettings : Completion (option Dictionary.t);  (* .properties *)
  updateApplicationSettings : Dictionary.t -> option Error;
  refreshAppSettings : option Error;
  (* ext.ui *)
  showWarningMessage : LocalizedString -> Completion MessageItem;
  showOpenDialog : Completion (list string);     (* the fsPath of each chosen uri *)
  (* runtimes *)
  convertStringToRuntime : option string -> option ProjectRuntime;
  getCliFeedAppSettings : ProjectRuntime -> Completion Dictionary.t;
  opn : string -> option Error;
  (* the tree *)
  getCachedChildren : Completion (list AzureTreeItem);  (* of the node deployed to *)
  refreshTree : option Error;
  (* the workspace *)
  workspaceFolders : option (list WorkspaceFolder);
  deploySubpathOf : string -> option Setting;    (* getFuncExtensionSetting(deploySubpathSetting, path) *)
  showDeploySubpathWarning : bool;               (* truthiness of that setting *)
  selectWorkspaceFolder : Completion string;
  isPathEqual : string -> string -> bool;
  isSubpath : string -> string -> bool;
  path_join : list string -> string;
  path_relative : string -> string -> string;
  (* Maven *)
  validateMavenInstalled : option Error;
  executeMvnCommand : list string -> option Error;
  getFunctionAppNameInPom : string -> Completion (option string);
  pathExists : string -> bool
}.

Definition runtime_eqb (a b : ProjectRuntime) : bool :=
  match a, b with
  | v1, v1 | v2, v2 => true
  | _, _ => false
  end.

Section Helpers.
Variable env : Env.

(** ** [verifyWebContentSettings] *)

Definition WEBSITE_CONTENTAZUREFILECONNECTIONSTRING : string :=
  "WEBSITE_CONTENTAZUREFILECONNECTIONSTRING".
Definition WEBSITE_CONTENTSHARE : string := "WEBSITE_CONTENTSHARE".

Definition notConfiguredForDeploy : LocalizedString :=
  localize "notConfiguredForDeploy"
    "The selected app is not configured for deployment through VS Code. Remove app settings '{0}' and '{1}'?"
    [WEBSITE_CONTENTAZUREFILECONNECTIONSTRING; WEBSITE_CONTENTSHARE].

Definition verifyWebContentSettings (node : Deploy.SlotTreeItemBase) : M unit :=
  if Deploy.isLinuxPreview node then
    emit ListApplicationSettings ;;
    applicationSettings <- await (listApplicationSettings env) ;;
    match applicationSettings with
    | Some properties =>
        if truthy (Dictionary.get properties WEBSITE_CONTENTAZUREFILECONNECTIONSTRING)
           || truthy (Dictionary.get properties WEBSITE_CONTENTSHARE)
        then
          emit (SetTelemetry "webContentSettingsRemoved" "false") ;;
          emit (ShowWarningMessage notConfiguredForDeploy true [DialogYes; DialogCancel]) ;;
          await (showWarningMessage env notConfiguredForDeploy) ;;
          let properties :=
            Dictionary.delete
              (Dictionary.delete properties WEBSITE_CONTENTAZUREFILECONNECTIONSTRING)
              WEBSITE_CONTENTSHARE in
          emit (SetTelemetry "webContentSettingsRemoved" "true") ;;
          emit (UpdateApplicationSettings properties) ;;
          awaitVoid (updateApplicationSettings env properties) ;;
          emit RefreshAppSettings ;;
          awaitVoid (refreshAppSettings env)
        else ret tt
    | None => ret tt
    end
  else ret tt.

(** ** [verifyRuntimeIsCompatible] *)

Definition incompatibleRuntime (rawAzureRuntime : option string)
    (localRuntime : ProjectRuntime) : LocalizedString :=
  localize "incompatibleRuntime"
    "The remote runtime '{0}' is not compatible with your local runtime '{1}'."
    [match rawAzureRuntime with Some raw => raw | None => "undefined" end;
     runtimeText env localRuntime].

Definition updateRemoteRuntime : MessageItem :=
  NewItem (localize "updateRemoteRuntime" "Update remote runtime" []).

Definition updateFunctionRuntime (key value : string) : LocalizedString :=
  localize "updateFunctionRuntime" "Updating '{0}' to '{1}'..." [key; value].

(** The loop over [Object.keys(newAppSettings)]: the properties after it.
    A key of [newAppSettings] always has a value there. *)
Fixpoint applyFeedSettings (newAppSettings : Dictionary.t) (keys : list string)
    (properties : Dictionary.t) : M Dictionary.t :=
  match keys with
  | [] => ret properties
  | key :: rest =>
      match Dictionary.get newAppSettings key with
      | Some value =>
          emit (AppendLine (Localized (updateFunctionRuntime key value))) ;;
          applyFeedSettings newAppSettings rest (Dictionary.set properties key value)
      | None => applyFeedSettings newAppSettings rest properties
      end
  end.

Definition verifyRuntimeIsCompatible (localRuntime : ProjectRuntime) : M unit :=
  emit ListApplicationSettings ;;
  appSettings <- await (listApplicationSettings env) ;;
  match appSettings with
  | None => throw (ExternalError "ArgumentError")
  | Some properties =>
      let rawAzureRuntime := Dictionary.get properties "FUNCTIONS_EXTENSION_VERSION" in
      match convertStringToRuntime env rawAzureRuntime with
      | Some azureRuntime =>
          if runtime_eqb azureRuntime localRuntime then ret tt
          else
            let message := incompatibleRuntime rawAzureRuntime localRuntime in
            emit (ShowWarningMessage message true
                    [updateRemoteRuntime; DialogLearnMore; DialogCancel]) ;;
            answer <- await (showWarningMessage env message) ;;
            match answer with
            | DialogLearnMore =>
                emit (Opn "https://aka.ms/azFuncRuntime") ;;
                awaitVoid (opn env "https://aka.ms/azFuncRuntime") ;;
                emit (SetTelemetry "cancelStep" "learnMoreRuntime") ;;
                throw UserCancelledError
            | _ =>
                emit (GetCliFeedAppSettings localRuntime) ;;
                newAppSettings <- await (getCliFeedAppSettings env localRuntime) ;;
                properties <- applyFeedSettings newAppSettings
                                (Dictionary.keys newAppSettings) properties ;;
                emit (UpdateApplicationSettings properties) ;;
                awaitVoid (updateApplicationSettings env properties)
            end
      | None => ret tt
      end
  end.

(** ** [listHttpTriggerUrls] *)

Definition isFunctionsTreeItem (n : AzureTreeItem) : bool :=
  match n with FunctionsTreeItem _ => true | _ => false end.

(** [f instanceof FunctionTreeItem && f.config.isHttpTrigger
     && f.config.authLevel === HttpAuthLevel.anonymous] *)
Definition isAnonymousHttpTrigger (f : AzureTreeItem) : bool :=
  match f with
  | FunctionTreeItem _ _ isHttpTrigger anonymous => isHttpTrigger
  | _ => false
  end.

(** The same with [authLevel !== HttpAuthLevel.anonymous]. *)
Definition isProtectedHttpTrigger (f : AzureTreeItem) : bool :=
  match f with
  | FunctionTreeItem _ _ isHttpTrigger (otherLevel _) => isHttpTrigger
  | _ => false
  end.

(** The line written for an anonymous function: two spaces, the label, a
    colon and the trigger url. *)
Definition urlLine (f : AzureTreeItem) : Line :=
  match f with
  | FunctionTreeItem label triggerUrl _ _ => Text ("  " ++ label ++ ": " ++ triggerUrl)
  | _ => Text "  undefined: undefined"
  end.

Definition anonymousFunctionUrls : Line :=
  Localized (localize "anonymousFunctionUrls" "HTTP Trigger Urls:" []).
Definition nonAnonymousWarning : Line :=
  Localized (localize "nonAnonymousWarning"
    "WARNING: Some http trigger urls cannot be displayed in the output window because they require an authentication token. Instead, you may copy them from the Azure Functions explorer." []).
Definition failedToList : Line :=
  Localized (localize "failedToList"
    "WARNING: Deployment succeeded, but failed to list http trigger urls." []).

Definition listHttpTriggerUrls : M unit :=
  tryCatch
    (emit GetCachedChildren ;;
     children <- await (getCachedChildren env) ;;
     let functionsNode := List.find isFunctionsTreeItem children in
     emit RefreshTree ;;
     awaitVoid (refreshTree env) ;;
     match functionsNode with
     | Some (FunctionsTreeItem cachedChildren) =>
         emit GetCachedChildren ;;
         functions <- await cachedChildren ;;
         let anonFunctions := List.filter isAnonymousHttpTrigger functions in
         when (Nat.ltb 0 (List.length anonFunctions))
           (emit (AppendLine anonymousFunctionUrls) ;;
            forEach anonFunctions (fun func => emit (AppendLine (urlLine func)))) ;;
         when (match List.find isProtectedHttpTrigger functions with
               | Some _ => true
               | None => false
               end)
           (emit (AppendLine nonAnonymousWarning))
     | _ => throw (ExternalError "TypeError")   (* functionsNode is undefined *)
     end)
    (fun error =>
       emit SuppressErrorDisplay ;;
       emit (AppendLine failedToList) ;;
       throw error).

(** ** [getDeployFsPath] and [appendDeploySubpathSetting] *)

(** [path.join(folderPath, value)] with a value from the settings:
    [path.join] throws a TypeError for an argument that is not a string. *)
Definition joinSetting (folderPath : string) (value : Setting) : M (E := Effect) string :=
  match value with
  | SettingString s => ret (path_join env [folderPath; s])
  | SettingOther _ => throw (ExternalError "TypeError")
  end.

Definition getDeployFsPath : M string :=
  let prompt :=
    emit SelectWorkspaceFolder ;; await (selectWorkspaceFolder env) in
  match workspaceFolders env with
  | Some [folder] =>
      let folderPath := fsPath folder in
      match deploySubpathOf env folderPath with
      | Some deploySubpath =>
          if settingTruthy (Some deploySubpath) then joinSetting folderPath deploySubpath
          else prompt
      | None => prompt
      end
  | _ => prompt
  end.

Definition mismatchDeployPath (deploySubPath selectedFolder : string) : LocalizedString :=
  localize "mismatchDeployPath"
    "Deploying '{0}' instead of selected folder '{1}'. Use '{2}.{3}' to change this behavior."
    [deploySubPath; selectedFolder; extensionPrefix (names env); deploySubpathSetting env].

Definition okItem : MessageItem := NewItem (localize "ok" "OK" []).

(** The continuation of lines 209-213. *)
Definition dontWarnAgain (settingKey : string) (result : MessageItem) : list Effect :=
  match result with
  | DialogDontWarnAgain => [UpdateGlobalSetting settingKey false]
  | _ => []
  end.

Definition appendDeploySubpathSetting (targetPath : string) : M string :=
  match workspaceFolders env with
  | Some folders =>
      match deploySubpathOf env targetPath with
      | Some deploySubPath =>
          if settingTruthy (Some deploySubPath) then
            if List.existsb (fun f => isPathEqual env (fsPath f) targetPath) folders
            then joinSetting targetPath deploySubPath
            else
              match List.find (fun f => isSubpath env (fsPath f) targetPath) folders with
              | Some folder =>
                  fsPathWithSetting <- joinSetting (fsPath folder) deploySubPath ;;
                  when (negb (isPathEqual env fsPathWithSetting targetPath)
                        && showDeploySubpathWarning env)
                    (let settingKey := "showDeploySubpathWarning" in
                     emit (ShowWarningMessageUnawaited
                             (mismatchDeployPath
                                (match deploySubPath with
                                 | SettingString s => s
                                 | SettingOther _ => EmptyString
                                 end)
                                (path_relative env (fsPath folder) targetPath))
                             [okItem; DialogDontWarnAgain]
                             (dontWarnAgain settingKey))) ;;
                  ret fsPathWithSetting
              | None => ret targetPath
              end
          else ret targetPath
      | None => ret targetPath
      end
  | None => ret targetPath
  end.

(** ** [getJavaFolderPath] *)

Definition cannotFindPackageFolder : LocalizedString :=
  localize "azFunc.cannotFindPackageFolder"
    "Cannot find the packaged function folder, would you like to specify the folder location?" [].

Definition getJavaFolderPath (basePath : string) : M string :=
  emit ValidateMavenInstalled ;;
  awaitVoid (validateMavenInstalled env) ;;
  emit OutputShow ;;
  emit (ExecuteMvnCommand ["clean"; "package"; "-B"]) ;;
  awaitVoid (executeMvnCommand env ["clean"; "package"; "-B"]) ;;
  let pomLocation := path_join env [basePath; "pom.xml"] in
  functionAppName <- await (getFunctionAppNameInPom env pomLocation) ;;
  let targetFolder :=
    match functionAppName with
    | Some appName =>
        if truthy functionAppName
        then path_join env [basePath; "target"; "azure-functions"; appName]
        else ""
    | None => ""
    end in
  if truthy functionAppName && pathExists env targetFolder then ret targetFolder
  else
    emit (ShowWarningMessage cannotFindPackageFolder false [DialogYes; DialogCancel]) ;;
    await (showWarningMessage env cannotFindPackageFolder) ;;
    emit ShowOpenDialog ;;
    uris <- await (showOpenDialog env) ;;
    match uris with
    | uri :: _ => ret uri
    | [] => throw (ExternalError "TypeError")   (* [0] of an empty array *)
    end.

End Helpers.

End DeployHelpers.

(* ===================================================================== *)
(** * What the project creators write for VS Code *)
(* ===================================================================== *)

Module CreatorJson.

(** An entry of [tasks] in [tasks.json]; a field the object literal does
    not have is [None].  [tj_osx], [tj_windows] and [tj_linux] hold the
    [command] of the object of that name. *)
Record TaskJson := mkTaskJson {
  tj_label : option string;
  tj_type : string;
  tj_command : option string;
  tj_problemMatcher : option string;
  tj_isBackground : option bool;
  tj_dependsOn : option string;
  tj_osx : option string;
  tj_windows : option string;
  tj_linux : option string
}.

Record TasksJson := mkTasksJson {
  tasks_version : string;
  tasks : list TaskJson
}.

(** A task of the extension's own type. *)
Definition funcTaskJson (command : string) (problemMatcher : option string)
    (isBackground : option bool) (dependsOn : option string) : TaskJson :=
  mkTaskJson None func (Some command) problemMatcher isBackground dependsOn
             None None None.

(** [JavaScriptProjectCreator.getTasksJson]: the object returned and
    [this.preDeployTask] afterwards.  [runtime] is [this.runtime] and
    [preDeployTask] is [this.preDeployTask] before the call. *)
Definition javaScriptTasksJson (names : Names) (runtime : option ProjectRuntime)
    (preDeployTask : option string) : TasksJson * option string :=
  let isV1 := match runtime with Some v1 => true | _ => false end in
  let funcTask :=
    funcTaskJson (hostStartCommand names) (Some (funcWatchProblemMatcher names))
                 (Some true)
                 (if isV1 then None else Some (extInstallTaskName names)) in
  (mkTasksJson "2.0.0" [funcTask],
   if isV1 then preDeployTask else Some (extInstallTaskName names)).

End CreatorJson.

(* ===================================================================== *)
(** * The Python project creator *)
(* ===================================================================== *)

Module PythonProject.
Import Run PythonProjectCreator CreatorJson.
Local Open Scope run_scope.

Definition pythonVenvSetting : string := "pythonVenv".
Definition fullPythonVenvSetting (names : Names) : string :=
  extensionPrefix names ++ "." ++ pythonVenvSetting.
Definition venvSettingReference (names : Names) : string :=
  "${config:" ++ fullPythonVenvSetting names ++ "}".

Definition minPythonVersion : string := "3.6.0".
Definition maxPythonVersion : string := "3.7.0".
Definition minPythonVersionLabel : string := "3.6.x".

(** The initial value of the field [preDeployTask]. *)
Definition preDeployTask (names : Names) : string := funcPackId names.

(** An entry of [configurations] in the [launch.json] of a Python project. *)
Record DebugConfiguration := mkDebugConfiguration {
  dc_name : LocalizedString;
  dc_type : string;
  dc_request : string;
  dc_port : Z;
  dc_host : string;
  dc_preLaunchTask : string
}.

Record LaunchJson := mkLaunchJson {
  version : string;
  configurations : list DebugConfiguration
}.

Definition getLaunchJson (names : Names) : LaunchJson :=
  mkLaunchJson "0.2.0"
    [ mkDebugConfiguration
        (localize "azFunc.attachToJavaScriptFunc" "Attach to Python Functions" [])
        "python" "attach" 9091 "localhost" (hostStartTaskName names) ].

(** What the methods change, run or show, in order.  Reading the disk is
    not recorded. *)
Inductive Effect :=
| WriteFile (path contents : string)
| AppendLine (line : LocalizedString)
| WriteLocalSettingsValues (path : string) (values : Dictionary.t)
| TryExecuteCommand (command : string)
| ExecuteCommand (workingDirectory command : string) (args : list string)
| ShowQuickPick (picks : list string)
| ShowInputBox (prompt : LocalizedString)
| SetOtherSetting (key value : string)
| SetDeploySubpath (value : string)
| ValidateFuncCoreToolsInstalled (message : LocalizedString).

(** [cpUtils.ICommandResult] *)
Record CommandResult := mkCommandResult {
  code : Z;
  cmdOutputIncludingStderr : string
}.

(** The text [validatePythonAlias] answers with: a localized message or the
    message of an error it caught. *)
Inductive Message :=
| Localized (message : LocalizedString)
| Caught (message : string).

(** Truthiness of a message; the texts passed to [localize] are not empty. *)
Definition isTruthy (m : option Message) : bool :=
  match m with
  | Some (Localized _) => true
  | Some (Caught s) => truthy (Some s)
  | None => false
  end.

Record Env := {
  names : Names;
  gitignoreFileName : string;                 (* constants.ts *)
  localSettingsFileName : string;
  azureWebJobsStorageKey : string;            (* LocalAppSettings.ts *)
  isWindows : bool;
  platform : Platform;                        (* process.platform *)
  EOL : string;                               (* os.EOL *)
  funcCliPath : string;                       (* ext.funcCliPath *)
  functionAppPath : string;                   (* this.functionAppPath *)
  path_join : list string -> string;
  path_basename : string -> string;
  joinCommands : Platform -> list string -> string;
  (* the disk *)
  fse_pathExists : string -> bool;
  fse_readFile : string -> Completion string; (* the buffer as a string *)
  fse_writeFile : string -> string -> option Error;
  fse_readdir : string -> Completion (list string);
  fse_stat : string -> Completion bool;       (* stat.isDirectory() *)
  (* the order in which the callbacks passed to Promise.all end *)
  completionOrder : list string -> list string;
  (* the [Values] of local.settings.json, [None] when it has none; the
     other members are written back as they were read *)
  getLocalSettings : string -> Completion (option Dictionary.t);
  writeFormattedJson : string -> Dictionary.t -> option Error;
  (* processes *)
  tryExecuteCommand : string -> Completion CommandResult;
  executeCommand : string -> string -> list string -> option Error;
  (* semver; both throw on a version that is not valid *)
  semver_lt : string -> string -> Completion bool;
  semver_gte : string -> string -> Completion bool;
  errorMessage : Error -> string;             (* parseError(error).message *)
  pythonPathSetting : option string;          (* the global python.pythonPath *)
  showQuickPick : list string -> Completion string;   (* the label picked *)
  showInputBox : LocalizedString -> Completion string;
  validateFuncCoreToolsInstalled : Completion bool
}.

Section Creator.
Variable env : Env.

(** ** [getTasksJson] *)

Definition shellTaskJson (label command : string) : TaskJson :=
  let venv := venvSettingReference (names env) in
  let forPlatform p :=
    Some (convertToVenvCommand (path_join env) (joinCommands env) venv p [command]) in
  mkTaskJson (Some label) "shell" None None None None
             (forPlatform MacOS) (forPlatform Windows) (forPlatform Linux).

Definition getTasksJson : TasksJson :=
  let funcPackCommand := "func pack" in
  let pipInstallCommand := "pip install -r requirements.txt" in
  let pipInstallLabel := "pipInstall" in
  mkTasksJson "2.0.0"
    [ funcTaskJson (hostStartCommand (names env))
                   (Some (funcWatchProblemMatcher (names env))) (Some true)
                   (Some (extInstallTaskName (names env)));
      funcTaskJson (extInstallCommand (names env)) None None (Some pipInstallLabel);
      shellTaskJson pipInstallLabel pipInstallCommand;
      shellTaskJson (funcPackId (names env)) funcPackCommand ].

(** ** [ensureGitIgnoreContents] *)

Definition gitAddNewLine (newLine : string) : LocalizedString :=
  localize "gitAddNewLine" "Adding '{0}' to .gitignore..." [newLine].

(** The nested function; [gitignoreContents] and [writeFile], the two
    variables it assigns, are passed in and handed back. *)
Definition ensureInGitIgnore (newLine : string) (state : string * bool)
  : M (string * bool) :=
  let (gitignoreContents, writeFile) := state in
  if negb (includes gitignoreContents newLine) then
    emit (AppendLine (gitAddNewLine newLine)) ;;
    ret (gitignoreContents ++ EOL env ++ newLine, true)
  else ret state.

Definition zipFileName : string := path_basename env (functionAppPath env) ++ ".zip".

Definition ensureGitIgnoreContents (venvName : string) : M unit :=
  let gitignorePath := path_join env [functionAppPath env; gitignoreFileName env] in
  if fse_pathExists env gitignorePath then
    gitignoreContents <- await (fse_readFile env gitignorePath) ;;
    state <- ensureInGitIgnore venvName (gitignoreContents, false) ;;
    state <- ensureInGitIgnore ".python_packages" state ;;
    state <- ensureInGitIgnore "__pycache__" state ;;
    state <- ensureInGitIgnore zipFileName state ;;
    let (gitignoreContents, writeFile) := state in
    when writeFile
      (emit (WriteFile gitignorePath gitignoreContents) ;;
       awaitVoid (fse_writeFile env gitignorePath gitignoreContents))
  else ret tt.

(** ** [ensureAzureWebJobsStorage] *)

Definition ensureAzureWebJobsStorage : M unit :=
  if negb (isWindows env) then
    let localSettingsPath := path_join env [functionAppPath env; localSettingsFileName env] in
    values <- await (getLocalSettings env localSettingsPath) ;;
    let values := match values with Some v => v | None => [] end in
    let values := Dictionary.set values (azureWebJobsStorageKey env) "" in
    emit (WriteLocalSettingsValues localSettingsPath values) ;;
    awaitVoid (writeFormattedJson env localSettingsPath values)
  else ret tt.

(** ** [ensureVenvInFuncIgnore] *)

Definition ensureVenvInFuncIgnore (venvName : string) : M unit :=
  let funcIgnorePath := path_join env [functionAppPath env; ".funcignore"] in
  funcIgnoreContents <-
    (if fse_pathExists env funcIgnorePath then
       funcIgnoreContents <- await (fse_readFile env funcIgnorePath) ;;
       if truthy (Some funcIgnoreContents) && negb (includes funcIgnoreContents venvName)
       then ret (Some (funcIgnoreContents ++ EOL env ++ venvName))
       else ret (Some funcIgnoreContents)
     else ret None) ;;
  let funcIgnoreContents :=
    if truthy funcIgnoreContents
    then match funcIgnoreContents with Some c => c | None => venvName end
    else venvName in
  emit (WriteFile funcIgnorePath funcIgnoreContents) ;;
  awaitVoid (fse_writeFile env funcIgnorePath funcIgnoreContents).

(** ** [validatePythonAlias] *)

(** [\s] on text of one-byte characters. *)
Definition isWhiteSpace (c : ascii) : bool :=
  let n := nat_of_ascii c in
  (Nat.leb 9 n && Nat.leb n 13) || Nat.eqb n 32 || Nat.eqb n 160.

(** The longest prefix matching [\S*]. *)
Fixpoint nonWhiteSpace (s : string) : string :=
  match s with
  | EmptyString => EmptyString
  | String c r => if isWhiteSpace c then EmptyString else String c (nonWhiteSpace r)
  end.

(** What is left of [s] after [pattern] was read from its start, letters
    compared without regard to case. *)
Fixpoint afterIgnoringCase (pattern s : string) : option string :=
  match pattern, s with
  | EmptyString, _ => Some s
  | String p pattern', String c s' =>
      if Ascii.eqb (lowerAscii p) (lowerAscii c) then afterIgnoringCase pattern' s'
      else None
  | String _ _, EmptyString => None
  end.

(** [output.match(re)] for the expression of the source: at the start of
    the text, [Python] in any case, a space, and a group [\S*].  [None]
    for [null], else [matches[1]]. *)
Definition matchPythonVersion (output : string) : option string :=
  option_map nonWhiteSpace (afterIgnoringCase "Python " output).

Definition failValidate (output : string) : Message :=
  Localized (localize "failValidate" "Failed to validate version: {0}" [output]).
Definition failedParse (output : string) : Message :=
  Localized (localize "failedParse" "Failed to parse version: {0}" [output]).
Definition tooLowVersion (pyVersion : string) : Message :=
  Localized (localize "tooLowVersion"
    "Python version '{0}' is below minimum version of '{1}'." [pyVersion; minPythonVersion]).
Definition tooHighVersion (pyVersion : string) : Message :=
  Localized (localize "tooHighVersion"
    "Python version '{0}' is greater than or equal to the maximum version of '{1}'."
    [pyVersion; maxPythonVersion]).

Definition validatePythonAlias (pyAlias : string) (validateMaxVersion : bool)
  : M (option Message) :=
  tryCatch
    (emit (TryExecuteCommand (pyAlias ++ " --version")) ;;
     result <- await (tryExecuteCommand env (pyAlias ++ " --version")) ;;
     if negb (code result =? 0) then
       ret (Some (failValidate (cmdOutputIncludingStderr result)))
     else
       match matchPythonVersion (cmdOutputIncludingStderr result) with
       | None => ret (Some (failedParse (cmdOutputIncludingStderr result)))
       | Some pyVersion =>
           if negb (truthy (Some pyVersion)) then
             ret (Some (failedParse (cmdOutputIncludingStderr result)))
           else
             below <- await (semver_lt env pyVersion minPythonVersion) ;;
             if below then ret (Some (tooLowVersion pyVersion))
             else if validateMaxVersion then
               above <- await (semver_gte env pyVersion maxPythonVersion) ;;
               if above then ret (Some (tooHighVersion pyVersion)) else ret None
             else ret None
       end)
    (fun error => ret (Some (Caught (errorMessage env error)))).

(** ** [getPythonAlias] *)

Definition aliasesToTry : list string :=
  let aliasesToTry := ["python3.6"; "py -3.6"; "python3"; "python"; "py"] in
  match pythonPathSetting env with
  | Some globalPythonPathSetting =>
      if truthy (Some globalPythonPathSetting)
      then globalPythonPathSetting :: aliasesToTry
      else aliasesToTry
  | None => aliasesToTry
  end.

Definition pyAliasPlaceholder : LocalizedString :=
  localize "pyAliasPlaceholder"
    "Enter the alias or full path of the Python '{0}' executable to use."
    [minPythonVersionLabel].

(** The [for] loop, then what follows it. *)
Fixpoint tryAliases (aliases : list string) (otherwise : M string) : M string :=
  match aliases with
  | [] => otherwise
  | alias :: rest =>
      errorMessage <- validatePythonAlias alias true ;;
      if negb (isTruthy errorMessage) then ret alias
      else tryAliases rest otherwise
  end.

Definition getPythonAlias : M string :=
  tryAliases aliasesToTry
    (emit (ShowInputBox pyAliasPlaceholder) ;;
     await (showInputBox env pyAliasPlaceholder)).

(** ** Commands run for the virtual environment *)

Definition createVirtualEnviornment (venvName functionAppPath : string) : M unit :=
  pythonAlias <- getPythonAlias ;;
  emit (ExecuteCommand functionAppPath pythonAlias ["-m"; "venv"; venvName]) ;;
  awaitVoid (executeCommand env functionAppPath pythonAlias ["-m"; "venv"; venvName]).

Definition runPythonCommandInVenv (venvName folderPath command : string) : M unit :=
  let fullCommand :=
    joinCommands env Linux
      [getVenvActivateCommand (path_join env) venvName (platform env); command] in
  emit (ExecuteCommand folderPath fullCommand []) ;;
  awaitVoid (executeCommand env folderPath fullCommand []).

Definition makeVenvDebuggable (venvName functionAppPath : string) : M unit :=
  runPythonCommandInVenv venvName functionAppPath "pip install pylint".

(** ** [ensureVenv] *)

(** The callback mapped over the entries of the folder: whether it pushes
    the entry onto [venvs]. *)
Definition holdsVenv (venvName : string) : Completion bool :=
  match fse_stat env (path_join env [functionAppPath env; venvName]) with
  | Resolved isDirectory =>
      Resolved
        (isDirectory
         && fse_pathExists env
              (path_join env [functionAppPath env;
                              getVenvActivatePath (path_join env) venvName (platform env)]))
  | Rejected e => Rejected e
  end.

(** [Promise.all] over the callbacks, taken in the order in which they
    end: [venvs] when all have ended, or the first rejection. *)
Fixpoint collectVenvs (ended : list string) (venvs : list string)
  : Completion (list string) :=
  match ended with
  | [] => Resolved venvs
  | venvName :: rest =>
      match holdsVenv venvName with
      | Resolved true => collectVenvs rest (venvs ++ [venvName])%list
      | Resolved false => collectVenvs rest venvs
      | Rejected e => Rejected e
      end
  end.

Definition ensureVenv : M string :=
  fsPaths <- await (fse_readdir env (functionAppPath env)) ;;
  venvs <- await (collectVenvs (completionOrder env fsPaths) []) ;;
  result <-
    match venvs with
    | [] =>
        createVirtualEnviornment ".env" (functionAppPath env) ;;
        ret ".env"
    | [venv] => ret venv
    | _ =>
        emit (ShowQuickPick venvs) ;;
        await (showQuickPick env venvs)
    end ;;
  emit (SetOtherSetting (fullPythonVenvSetting (names env)) result) ;;
  ret result.

(** ** [onCreateNewProject] and [onInitProjectForVSCode] *)

Definition funcCoreRequired : LocalizedString :=
  localize "funcCoreRequired"
    "Azure Functions Core Tools must be installed to create, debug, and deploy local Python Functions projects." [].

(** Both methods hand back [this._venvName]. *)
Definition onCreateNewProject : M (option string) :=
  emit (ValidateFuncCoreToolsInstalled funcCoreRequired) ;;
  installed <- await (validateFuncCoreToolsInstalled env) ;;
  if negb installed then throw UserCancelledError
  else
    venvName <- ensureVenv ;;
    runPythonCommandInVenv venvName (functionAppPath env)
      (funcCliPath env ++ " init ./ --worker-runtime python") ;;
    ret (Some venvName).

Definition onInitProjectForVSCode (_venvName : option string) : M (option string) :=
  emit (SetDeploySubpath zipFileName) ;;
  venvName <-
    (if negb (truthy _venvName) then ensureVenv
     else ret (match _venvName with Some v => v | None => "" end)) ;;
  makeVenvDebuggable venvName (functionAppPath env) ;;
  ensureVenvInFuncIgnore venvName ;;
  ensureGitIgnoreContents venvName ;;
  ensureAzureWebJobsStorage ;;
  ret (Some venvName).

End Creator.

End PythonProject.

(* ===================================================================== *)
(** * The copyFunctionUrl command *)
(* ===================================================================== *)

Module CopyFunctionUrl.
Import Run.
Local Open Scope run_scope.

(** What the command reads of a [FunctionTreeItem]. *)
Record FunctionTreeItem := {
  triggerUrl : string;
  isHttpTrigger : bool          (* config.isHttpTrigger *)
}.

Inductive Effect :=
| ShowTreeItemPicker
| ClipboardWrite (text : string).

Record Env := {
  showTreeItemPicker : Completion FunctionTreeItem;   (* ext.tree *)
  clipboardWrite : string -> option Error             (* clipboardy.write *)
}.

Definition copyFailedForNonHttp : Error :=
  NewError (localize "CopyFailedForNonHttp"
              "Function URLs can only be used for HTTP triggers." []).

Definition copyFunctionUrl (env : Env) (node : option FunctionTreeItem) : M unit :=
  node <- match node with
          | Some node => ret node
          | None => emit ShowTreeItemPicker ;; await (showTreeItemPicker env)
          end ;;
  if isHttpTrigger node then
    emit (ClipboardWrite (triggerUrl node)) ;;
    awaitVoid (clipboardWrite env (triggerUrl node))
  else throw copyFailedForNonHttp.

End CopyFunctionUrl.

(* ===================================================================== *)
(** * Sample inputs *)
(* ===================================================================== *)

Module Samples.
Import PickFuncProcess.

(** A shell that has not started the host yet, and the same shell once
    the host runs under it. *)
Definition shellOnly : IProcessTreeNode :=
  ProcessTreeNode 100 "powershell.exe" [ProcessTreeNode 101 "conhost.exe" []].
Definition shellWithHost : IProcessTreeNode :=
  ProcessTreeNode 100 "powershell.exe"
    [ProcessTreeNode 4321 "Func.exe" []; ProcessTreeNode 101 "conhost.exe" []].

(** The host shows up at the second poll; a fetch takes 20 ms. *)
Definition slowStart : IWindowsProcessTree :=
  {| getProcessTree := fun _ k => match k with
                                  | O => Some shellOnly
                                  | _ => Some shellWithHost
                                  end;
     fetchLatency := fun _ => 20%N;
     timerSlack := fun _ => 0%N |}.

Definition timedOut : Error := PlainError "timeout".

(** What ps-tree lists for an npm wrapper around the host. *)
Definition wrapperChildren : list PS :=
  [mkPS "501" "500" "node"; mkPS "502" "501" "func"].

Definition hostTask : TaskObject :=
  mkTaskObject 1
    (mkTask (mkDefinition "func" "host start" None) ScopeWorkspace
            "host start" "func" (ShellExecution "func host start" None) [] true).
Definition buildTask : TaskObject :=
  mkTaskObject 2
    (mkTask (mkDefinition "shell" "build" None) ScopeWorkspace
            "build" "Workspace" (ShellExecution "dotnet build" None) [] false).

Definition isHostTask (t : Task) : bool := String.eqb (name t) "host start".

Definition names : Names :=
  {| hostStartCommand := "host start";
     extInstallCommand := "extensions install";
     funcWatchProblemMatcher := "$func-watch";
     hostStartTaskName := "runFunctionsHost";
     publishTaskId := "publish";
     extInstallTaskName := "runFunctionsExtensionInstall";
     funcPackId := "funcPack";
     preDeployTaskSetting := "preDeployTask";
     extensionPrefix := "azureFunctions" |}.

Definition appFolder : WorkspaceFolder := mkFolder "/w/app".

Definition publishTask : TaskObject :=
  mkTaskObject 3
    (mkTask (mkDefinition "process" "publish" None) (ScopeFolder appFolder)
            "publish" "Workspace" (ProcessExecution "dotnet" ["publish"] None) [] false).

Definition site : Deploy.SlotTreeItemBase :=
  Deploy.mkNode "/subscriptions/0/sites/app" false "app".

(** A machine on which every external call succeeds and the user presses
    Deploy; the preDeployTask setting, the tasks of the workspace, the task
    events and the site's scmType vary.  Its [toLowerCase] lowers A to Z
    only, which is all the names of the samples need. *)
Definition deployEnv (setting : option string) (tasks : list TaskObject)
    (taskEvents : History) (scmType : option string) : Deploy.Env :=
  {| Deploy.names := names;
     Deploy.toLowerCase := JS.toLowerCase;
     Deploy.preDeployTaskOf := fun _ => setting;
     Deploy.isPathEqual := String.eqb;
     Deploy.isSubpath := fun _ _ => false;
     Deploy.appendDeploySubpathSetting := fun p => Resolved p;
     Deploy.getDeployFsPath := Resolved "/w/app";
     Deploy.ensureFolderIsOpen := fun p => Resolved p;
     Deploy.showTreeItemPicker := Resolved site;
     Deploy.findTreeItem := fun _ => Resolved (Some site);
     Deploy.createdNodes := [];
     Deploy.getProjectLanguage := fun _ => Resolved CSharp;
     Deploy.getProjectRuntime := fun _ _ => Resolved v2;
     Deploy.verifyWebContentSettings := fun _ => None;
     Deploy.getJavaFolderPath := fun p => Resolved p;
     Deploy.verifyRuntimeIsCompatible := fun _ => None;
     Deploy.getSiteConfig := Resolved (Deploy.mkSiteConfig 7 scmType);
     Deploy.showWarningMessage := fun _ => Resolved "Deploy";
     Deploy.fetchTasks := Resolved tasks;
     Deploy.executeTask := fun _ => None;
     Deploy.taskEvents := taskEvents;
     Deploy.clientStop := None;
     Deploy.clientStart := None;
     Deploy.appserviceDeploy := fun _ => None;
     Deploy.listHttpTriggerUrls := None |}.


(** A machine without the Python extension on which every folder is a
    function project with the given projectLanguage setting. *)
Definition hostEnv (language : option ProjectLanguage) : FuncTaskProviderHost.Env :=
  {| FuncTaskProviderHost.names := names;
     FuncTaskProviderHost.isFunctionProject := fun _ => true;
     FuncTaskProviderHost.projectLanguage := fun _ => language;
     FuncTaskProviderHost.pythonVenv := fun _ => None;
     FuncTaskProviderHost.platform := PythonProjectCreator.Linux;
     FuncTaskProviderHost.path_join := String.concat "/";
     FuncTaskProviderHost.joinCommands := fun _ => String.concat " && ";
     FuncTaskProviderHost.pyExtension := None |}.

Definition apiFolder : WorkspaceFolder := mkFolder "/w/api".

(** Two JavaScript projects with different nodeDebugPort settings. *)
Definition portEnv : FuncTaskProvider.Env :=
  {| FuncTaskProvider.getProjectLanguage := fun _ => Resolved (Some JavaScript);
     FuncTaskProvider.nodeDebugPort :=
       fun p => if String.eqb p "/w/app" then Some 5858 else Some 9229 |}.

(** A day of task events in which the publish task never reports its end. *)
Definition noEndOfPublish : History :=
  [ (3600000, DidEndTaskProcess buildTask 0);
    (86400000, DidStartTaskProcess hostTask 7) ].

End Samples.

(* ===================================================================== *)
(** * Vocabulary of the statements *)
(* ===================================================================== *)

Module Vocabulary.
Import PickFuncProcess.

(** Poll [j] of [getInnermostWindowsPid] neither returns nor throws: the
    deadline has not passed at its head, and the tree it fetches ends in a
    first-child leaf that is not the functions host. *)
Definition pollGoesOn (wpt : IWindowsProcessTree) (pid : string) (maxTime now0 : Z)
    (j : nat) : Prop :=
  clockAt wpt now0 j < maxTime /\
  exists psTree, getProcessTree wpt (Number pid) j = Some psTree /\
                 isFuncLeaf (firstChildLeaf psTree) = false.

(** [leaf] is reached from [t] by repeatedly taking the first child. *)
Inductive FirstChildPath : IProcessTreeNode -> IProcessTreeNode -> Prop :=
| path_here : forall t, FirstChildPath t t
| path_down : forall p n c cs leaf,
    FirstChildPath c leaf -> FirstChildPath (ProcessTreeNode p n (c :: cs)) leaf.

(** An event that settles [waitForStartPromise] when it is the first of its
    kind: the start of a functions-host task, or the end of any task with a
    nonzero exit code. *)
Definition settlesStart (isFuncHostTask : Task -> bool) (ev : TaskEvent) : bool :=
  match ev with
  | DidStartTaskProcess t _ => isFuncHostTask (task t)
  | DidEndTaskProcess _ exitCode => negb (exitCode =? 0)
  end.

(** Every event of [pre] comes before the timer is due and settles nothing. *)
Definition quietBefore (isFuncHostTask : Task -> bool) (delay : Z) (pre : History) : Prop :=
  Forall (fun e => fst e < delay /\ settlesStart isFuncHostTask (snd e) = false) pre.

(** The process of [preDeployTask] ended. *)
Definition endsTask (preDeployTask : TaskObject) (ev : TaskEvent) : bool :=
  match ev with
  | DidEndTaskProcess t _ => sameObject t preDeployTask
  | DidStartTaskProcess _ _ => false
  end.

(** The languages for which [src/FuncTaskProvider.ts] builds a task. *)
Definition startsHost (language : option ProjectLanguage) : bool :=
  match language with
  | Some JavaScript | Some Java | Some CSharp => true
  | _ => false
  end.

(** What a folder contributes in [src/FuncTaskProvider.ts] when the
    language of the folder is detected without a rejection. *)
Definition folderTasks (env : FuncTaskProvider.Env) (folder : WorkspaceFolder) : list Task :=
  match FuncTaskProvider.getProjectLanguage env (fsPath folder) with
  | Resolved language =>
      if startsHost language
      then [FuncTaskProvider.hostStartTask folder
              (ProcessExecution "func" ["host"; "start"]
                 (Some [("languageWorkers:node:arguments",
                         "--inspect=" ++ interpolate
                            (FuncTaskProvider.nodeDebugPort env (fsPath folder)))]))]
      else []
  | Rejected _ => []
  end.

(** What a folder contributes in the provider with [getHostStartTask], when
    that function resolves for it. *)
Definition projectTasks (env : FuncTaskProviderHost.Env) (folder : WorkspaceFolder)
  : list Task :=
  if FuncTaskProviderHost.isFunctionProject env (fsPath folder)
  then FuncTaskProviderHost.getExtensionInstallTask env folder
       :: match FuncTaskProviderHost.getHostStartTask env folder with
          | Resolved hostStartTask => [hostStartTask]
          | Rejected _ => []
          end
  else [].

(** The debug environment of the host-start task for a projectLanguage
    setting other than Python. *)
Definition debugEnvironment (language : option ProjectLanguage)
  : option (list (string * string)) :=
  match language with
  | Some JavaScript => Some [("languageWorkers__node__arguments", "--inspect=5858")]
  | Some Java =>
      Some [("languageWorkers__java__arguments",
             "-agentlib:jdwp=transport=dt_socket,server=y,suspend=n,address=5005")]
  | _ => None
  end.

(** The port of an argument [--inspect=<port>]. *)
Definition inspectPort (arguments : string) : option Z :=
  if String.prefix "--inspect=" arguments
  then Number (substring 10 (String.length arguments - 10) arguments)
  else None.

(** The handler the host holds for a command id: the first registered. *)
Definition handlerOf (host : Extension.Host) (commandId : string)
  : option Extension.Handler :=
  option_map snd
    (List.find (fun c => String.eqb (fst c) commandId) (Extension.commands host)).

(** No string occurs twice. *)
Fixpoint distinct (l : list string) : bool :=
  match l with
  | [] => true
  | x :: r => negb (existsb (String.eqb x) r) && distinct r
  end.

(** Every effect of [m] satisfies [P]. *)
Definition only (P : Deploy.Effect -> Prop) {A} (m : Deploy.M A) : Prop :=
  Forall P (Deploy.effects m).


(** An effect other than a warning prompt. *)
Definition notPrompt (e : Deploy.Effect) : Prop :=
  forall message modal buttons, e <> Deploy.ShowWarningMessage message modal buttons.

(** An effect other than an upload. *)
Definition notUpload (e : Deploy.Effect) : Prop :=
  forall deployFsPath, e <> Deploy.AppServiceDeploy deployFsPath.




(** No task of the list is accepted as the pre-deploy task [taskName]. *)
Definition noPreDeployTask (env : Deploy.Env) (taskName deployFsPath : string)
    (tasks : list TaskObject) : Prop :=
  Forall (fun t => Deploy.isPreDeployTask env taskName deployFsPath t = false) tasks.

End Vocabulary.

(* ===================================================================== *)
(** * Further vocabulary and sample inputs *)
(* ===================================================================== *)

Module MoreVocabulary.
Import Vocabulary.

(** The events that are delivered strictly before [delay]. *)
Fixpoint beforeTimer (delay : Z) (h : History) : History :=
  match h with
  | [] => []
  | (t, ev) :: rest => if t <? delay then (t, ev) :: beforeTimer delay rest else []
  end.

(** An effect by which [confirmAndDeploy] leaves a LocalGit site alone: no
    prompt, no task fetched or run, and no upload of anything but
    [workspaceFsPath]. *)
Definition localGitEffect (workspaceFsPath : string) (e : Deploy.Effect) : Prop :=
  notPrompt e
  /\ e <> Deploy.FetchTasks
  /\ (forall t, e <> Deploy.ExecuteTask t)
  /\ (forall p, e = Deploy.AppServiceDeploy p -> p = workspaceFsPath).

(** The value of a key after the CLI feed's settings were written over the
    site's. *)
Definition overriddenBy (newAppSettings properties : Dictionary.t) (key : string)
  : option string :=
  match Dictionary.get newAppSettings key with
  | Some value => Some value
  | None => Dictionary.get properties key
  end.

(** What [listHttpTriggerUrls] does once a step has failed. *)
Definition failureReport : list DeployHelpers.Effect :=
  [DeployHelpers.SuppressErrorDisplay;
   DeployHelpers.AppendLine DeployHelpers.failedToList].

(** The lines [listHttpTriggerUrls] writes for the functions of an app. *)
Definition urlReport (functions : list DeployHelpers.AzureTreeItem)
  : list DeployHelpers.Effect :=
  ((if Nat.ltb 0 (List.length (List.filter DeployHelpers.isAnonymousHttpTrigger functions))
    then DeployHelpers.AppendLine DeployHelpers.anonymousFunctionUrls
         :: map (fun f => DeployHelpers.AppendLine (DeployHelpers.urlLine f))
                (List.filter DeployHelpers.isAnonymousHttpTrigger functions)
    else [])
   ++ (match List.find DeployHelpers.isProtectedHttpTrigger functions with
       | Some _ => [DeployHelpers.AppendLine DeployHelpers.nonAnonymousWarning]
       | None => []
       end))%list.

(** The lines [ensureGitIgnoreContents] wants in [.gitignore], in the order
    in which it looks for them. *)
Definition gitignoreEntries (env : PythonProject.Env) (venvName : string) : list string :=
  [venvName; ".python_packages"; "__pycache__"; PythonProject.zipFileName env].

(** [contents] once [newLine] is made sure of. *)
Definition withLine (env : PythonProject.Env) (contents newLine : string) : string :=
  if includes contents newLine then contents
  else contents ++ PythonProject.EOL env ++ newLine.

(** Whether [ensureGitIgnoreContents] finds one of [entries] missing, and
    the lines it then writes to the output channel. *)
Fixpoint anyMissing (env : PythonProject.Env) (entries : list string) (contents : string)
  : bool :=
  match entries with
  | [] => false
  | entry :: rest =>
      negb (includes contents entry) || anyMissing env rest (withLine env contents entry)
  end.

Fixpoint announced (env : PythonProject.Env) (entries : list string) (contents : string)
  : list PythonProject.Effect :=
  match entries with
  | [] => []
  | entry :: rest =>
      ((if includes contents entry then []
        else [PythonProject.AppendLine (PythonProject.gitAddNewLine entry)])
       ++ announced env rest (withLine env contents entry))%list
  end.

Definition gitignorePath (env : PythonProject.Env) : string :=
  PythonProject.path_join env
    [PythonProject.functionAppPath env; PythonProject.gitignoreFileName env].

Definition funcIgnorePath (env : PythonProject.Env) : string :=
  PythonProject.path_join env [PythonProject.functionAppPath env; ".funcignore"].

(** The same machine with the file at [path] holding [contents]. *)
Definition afterWrite (env : PythonProject.Env) (path contents : string)
  : PythonProject.Env :=
  {| PythonProject.names := PythonProject.names env;
     PythonProject.gitignoreFileName := PythonProject.gitignoreFileName env;
     PythonProject.localSettingsFileName := PythonProject.localSettingsFileName env;
     PythonProject.azureWebJobsStorageKey := PythonProject.azureWebJobsStorageKey env;
     PythonProject.isWindows := PythonProject.isWindows env;
     PythonProject.platform := PythonProject.platform env;
     PythonProject.EOL := PythonProject.EOL env;
     PythonProject.funcCliPath := PythonProject.funcCliPath env;
     PythonProject.functionAppPath := PythonProject.functionAppPath env;
     PythonProject.path_join := PythonProject.path_join env;
     PythonProject.path_basename := PythonProject.path_basename env;
     PythonProject.joinCommands := PythonProject.joinCommands env;
     PythonProject.fse_pathExists :=
       fun p => if String.eqb p path then true else PythonProject.fse_pathExists env p;
     PythonProject.fse_readFile :=
       fun p => if String.eqb p path then Resolved contents
                else PythonProject.fse_readFile env p;
     PythonProject.fse_writeFile := PythonProject.fse_writeFile env;
     PythonProject.fse_readdir := PythonProject.fse_readdir env;
     PythonProject.fse_stat := PythonProject.fse_stat env;
     PythonProject.completionOrder := PythonProject.completionOrder env;
     PythonProject.getLocalSettings := PythonProject.getLocalSettings env;
     PythonProject.writeFormattedJson := PythonProject.writeFormattedJson env;
     PythonProject.tryExecuteCommand := PythonProject.tryExecuteCommand env;
     PythonProject.executeCommand := PythonProject.executeCommand env;
     PythonProject.semver_lt := PythonProject.semver_lt env;
     PythonProject.semver_gte := PythonProject.semver_gte env;
     PythonProject.errorMessage := PythonProject.errorMessage env;
     PythonProject.pythonPathSetting := PythonProject.pythonPathSetting env;
     PythonProject.showQuickPick := PythonProject.showQuickPick env;
     PythonProject.showInputBox := PythonProject.showInputBox env;
     PythonProject.validateFuncCoreToolsInstalled :=
       PythonProject.validateFuncCoreToolsInstalled env |}.

(** An alias whose [--version] run ends with code 0 and names a version
    that is neither below the minimum nor, when [validateMaxVersion], at or
    above the maximum. *)
Definition aliasInRange (env : PythonProject.Env) (validateMaxVersion : bool)
    (pyAlias : string) : Prop :=
  exists result pyVersion,
    PythonProject.tryExecuteCommand env (pyAlias ++ " --version") = Resolved result
    /\ PythonProject.code result = 0
    /\ PythonProject.matchPythonVersion (PythonProject.cmdOutputIncludingStderr result)
         = Some pyVersion
    /\ pyVersion <> EmptyString
    /\ PythonProject.semver_lt env pyVersion PythonProject.minPythonVersion
         = Resolved false
    /\ (validateMaxVersion = true ->
        PythonProject.semver_gte env pyVersion PythonProject.maxPythonVersion
          = Resolved false).

(** The effects by which the Python creator changes a file of the project. *)
Definition writesDisk (e : PythonProject.Effect) : Prop :=
  match e with
  | PythonProject.WriteFile _ _ | PythonProject.WriteLocalSettingsValues _ _ => True
  | _ => False
  end.

(** The command by which [makeVenvDebuggable] installs pylint. *)
Definition pylintCommand (env : PythonProject.Env) (venvName : string) : string :=
  PythonProject.joinCommands env PythonProjectCreator.Linux
    [PythonProjectCreator.getVenvActivateCommand (PythonProject.path_join env) venvName
       (PythonProject.platform env);
     "pip install pylint"].

(** A function project whose projectLanguage setting is Python. *)
Definition pythonFunctionProject (env : FuncTaskProviderHost.Env) (folder : WorkspaceFolder)
  : bool :=
  FuncTaskProviderHost.isFunctionProject env (fsPath folder)
  && match FuncTaskProviderHost.projectLanguage env (fsPath folder) with
     | Some Python => true
     | _ => false
     end.

End MoreVocabulary.

Module MoreSamples.

(** A Python project about to be deployed to a Windows app. *)
Definition pythonEnv : Deploy.Env :=
  {| Deploy.names := Samples.names;
     Deploy.toLowerCase := JS.toLowerCase;
     Deploy.preDeployTaskOf := fun _ => None;
     Deploy.isPathEqual := String.eqb;
     Deploy.isSubpath := fun _ _ => false;
     Deploy.appendDeploySubpathSetting := fun p => Resolved p;
     Deploy.getDeployFsPath := Resolved "/w/app";
     Deploy.ensureFolderIsOpen := fun p => Resolved p;
     Deploy.showTreeItemPicker := Resolved Samples.site;
     Deploy.findTreeItem := fun _ => Resolved (Some Samples.site);
     Deploy.createdNodes := [Samples.site];
     Deploy.getProjectLanguage := fun _ => Resolved Python;
     Deploy.getProjectRuntime := fun _ _ => Resolved v2;
     Deploy.verifyWebContentSettings := fun _ => None;
     Deploy.getJavaFolderPath := fun p => Resolved p;
     Deploy.verifyRuntimeIsCompatible := fun _ => None;
     Deploy.getSiteConfig := Resolved (Deploy.mkSiteConfig 7 None);
     Deploy.showWarningMessage := fun _ => Resolved "Deploy";
     Deploy.fetchTasks := Resolved [];
     Deploy.executeTask := fun _ => None;
     Deploy.taskEvents := [];
     Deploy.clientStop := None;
     Deploy.clientStart := None;
     Deploy.appserviceDeploy := fun _ => None;
     Deploy.listHttpTriggerUrls := None |}.

(** The publish task fails with exit code 1 after a build task succeeded. *)
Definition publishFails : History :=
  [ (800, DidEndTaskProcess Samples.buildTask 0);
    (2500, DidEndTaskProcess Samples.publishTask 1) ].

(** A Unix machine on which the host task starts 900 ms after a build task
    ended and ps-tree lists an npm wrapper's children. *)
Definition unixEnv : PickProcessCommand.Env :=
  {| PickProcessCommand.extensionPrefix := "azureFunctions";
     PickProcessCommand.validateFuncCoreToolsInstalled :=
       PickProcessCommand.Settled (Resolved true);
     PickProcessCommand.stopFuncHostPromise := PickProcessCommand.Settled None;
     PickProcessCommand.fetchTasks :=
       PickProcessCommand.Settled (Resolved [Samples.buildTask; Samples.hostTask]);
     PickProcessCommand.isFuncHostTask := Samples.isHostTask;
     PickProcessCommand.pickProcessTimeout := Some 60;
     PickProcessCommand.executeTask := PickProcessCommand.Settled None;
     PickProcessCommand.taskEvents :=
       [ (150, DidEndTaskProcess Samples.buildTask 0);
         (900, DidStartTaskProcess Samples.hostTask 500) ];
     PickProcessCommand.isWindows := false;
     PickProcessCommand.tryFetchNodeModule := PickProcessCommand.Settled None;
     PickProcessCommand.now := 0;
     PickProcessCommand.unixPsTree :=
       fun pid => PickProcessCommand.Settled
                    match pid with
                    | Some 500 => (None, Samples.wrapperChildren)
                    | _ => (Some (PlainError "no such process"), [])
                    end |}.

(** [unixEnv] with [vscode.tasks.fetchTasks] never settling. *)
Definition fetchPendingEnv : PickProcessCommand.Env :=
  {| PickProcessCommand.extensionPrefix := "azureFunctions";
     PickProcessCommand.validateFuncCoreToolsInstalled :=
       PickProcessCommand.Settled (Resolved true);
     PickProcessCommand.stopFuncHostPromise := PickProcessCommand.Settled None;
     PickProcessCommand.fetchTasks := PickProcessCommand.Pending;
     PickProcessCommand.isFuncHostTask := Samples.isHostTask;
     PickProcessCommand.pickProcessTimeout := Some 60;
     PickProcessCommand.executeTask := PickProcessCommand.Settled None;
     PickProcessCommand.taskEvents := [];
     PickProcessCommand.isWindows := false;
     PickProcessCommand.tryFetchNodeModule := PickProcessCommand.Settled None;
     PickProcessCommand.now := 0;
     PickProcessCommand.unixPsTree :=
       fun _ => PickProcessCommand.Settled (None, []) |}.

(** [Samples.slowStart] with a different answer from the eleventh fetch on. *)
Definition slowStartThenGone : PickFuncProcess.IWindowsProcessTree :=
  {| PickFuncProcess.getProcessTree :=
       fun rootPid k => if Nat.leb 10 k then None
                        else PickFuncProcess.getProcessTree Samples.slowStart rootPid k;
     PickFuncProcess.fetchLatency := fun _ => 20%N;
     PickFuncProcess.timerSlack := fun _ => 0%N |}.

(** A Linux preview app that still carries the two content settings, with a
    remote runtime the local project does not match. *)
Definition linuxNode : Deploy.SlotTreeItemBase :=
  Deploy.mkNode "/subscriptions/0/sites/linux" true "linux".

Definition siteSettings : Dictionary.t :=
  [ ("FUNCTIONS_EXTENSION_VERSION", "~1");
    ("WEBSITE_CONTENTSHARE", "linux0001");
    ("AzureWebJobsStorage", "UseDevelopmentStorage=true") ].

Definition helpersEnv (answer : DeployHelpers.MessageItem) : DeployHelpers.Env :=
  {| DeployHelpers.names := Samples.names;
     DeployHelpers.deploySubpathSetting := "deploySubpath";
     DeployHelpers.runtimeText := fun r => match r with v1 => "~1" | v2 => "~2" end;
     DeployHelpers.listApplicationSettings := Resolved (Some siteSettings);
     DeployHelpers.updateApplicationSettings := fun _ => None;
     DeployHelpers.refreshAppSettings := None;
     DeployHelpers.showWarningMessage := fun _ => Resolved answer;
     DeployHelpers.showOpenDialog := Resolved ["/w/java/out"];
     DeployHelpers.convertStringToRuntime :=
       fun raw => match raw with
                  | Some "~1" => Some v1
                  | Some "~2" => Some v2
                  | _ => None
                  end;
     DeployHelpers.getCliFeedAppSettings :=
       fun _ => Resolved [ ("FUNCTIONS_EXTENSION_VERSION", "~2");
                           ("WEBSITE_NODE_DEFAULT_VERSION", "8.11.1") ];
     DeployHelpers.opn := fun _ => None;
     DeployHelpers.getCachedChildren :=
       Resolved
         [ DeployHelpers.OtherTreeItem;
           DeployHelpers.FunctionsTreeItem
             (Resolved
                [ DeployHelpers.FunctionTreeItem "hello" "https://linux.example/api/hello"
                    true DeployHelpers.anonymous;
                  DeployHelpers.FunctionTreeItem "admin" "https://linux.example/api/admin"
                    true (DeployHelpers.otherLevel "function");
                  DeployHelpers.FunctionTreeItem "timer" "" false
                    DeployHelpers.anonymous ]) ];
     DeployHelpers.refreshTree := None;
     DeployHelpers.workspaceFolders := Some [Samples.appFolder];
     DeployHelpers.deploySubpathOf := fun _ => Some (DeployHelpers.SettingString "out");
     DeployHelpers.showDeploySubpathWarning := true;
     DeployHelpers.selectWorkspaceFolder := Resolved "/w/app";
     DeployHelpers.isPathEqual := String.eqb;
     DeployHelpers.isSubpath :=
       fun folder p => String.prefix folder p && negb (String.eqb folder p);
     DeployHelpers.path_join := String.concat "/";
     DeployHelpers.path_relative := fun _ p => p;
     DeployHelpers.validateMavenInstalled := None;
     DeployHelpers.executeMvnCommand := fun _ => None;
     DeployHelpers.getFunctionAppNameInPom := fun _ => Resolved (Some "javaapp");
     DeployHelpers.pathExists := fun _ => true |}.

(** A Python project on Linux: a [.gitignore] written by [func init], a
    virtual environment in [.venv], and Python 3.6.8 behind [python3]. *)
Definition pythonProject : PythonProject.Env :=
  {| PythonProject.names := Samples.names;
     PythonProject.gitignoreFileName := ".gitignore";
     PythonProject.localSettingsFileName := "local.settings.json";
     PythonProject.azureWebJobsStorageKey := "AzureWebJobsStorage";
     PythonProject.isWindows := false;
     PythonProject.platform := PythonProjectCreator.Linux;
     PythonProject.EOL := String (ascii_of_nat 10) EmptyString;
     PythonProject.funcCliPath := "func";
     PythonProject.functionAppPath := "/w/pyapp";
     PythonProject.path_join := String.concat "/";
     PythonProject.path_basename := fun _ => "pyapp";
     PythonProject.joinCommands := fun _ => String.concat " && ";
     PythonProject.fse_pathExists :=
       fun p => String.eqb p "/w/pyapp/.gitignore"
                || String.eqb p "/w/pyapp/./.venv/bin/activate";
     PythonProject.fse_readFile :=
       fun p => if String.eqb p "/w/pyapp/.gitignore"
                then Resolved "bin obj __pycache__"
                else Rejected (ExternalError "ENOENT");
     PythonProject.fse_writeFile := fun _ _ => None;
     PythonProject.fse_readdir := fun _ => Resolved ["hello"; ".venv"; "host.json"];
     PythonProject.fse_stat :=
       fun p => Resolved (negb (String.eqb p "/w/pyapp/host.json"));
     PythonProject.completionOrder := fun names => rev names;
     PythonProject.getLocalSettings :=
       fun _ => Resolved (Some [("AzureWebJobsStorage", "UseDevelopmentStorage=true");
                                ("FUNCTIONS_WORKER_RUNTIME", "python")]);
     PythonProject.writeFormattedJson := fun _ _ => None;
     PythonProject.tryExecuteCommand :=
       fun command =>
         if String.eqb command "python3 --version"
         then Resolved (PythonProject.mkCommandResult 0 "Python 3.6.8")
         else if String.eqb command "python --version"
         then Resolved (PythonProject.mkCommandResult 0 "Python 2.7.15")
         else Rejected (ExternalError "ENOENT");
     PythonProject.executeCommand := fun _ _ _ => None;
     PythonProject.semver_lt :=
       fun a _ => Resolved (String.eqb a "2.7.15");
     PythonProject.semver_gte := fun _ _ => Resolved false;
     PythonProject.errorMessage := fun _ => "spawn ENOENT";
     PythonProject.pythonPathSetting := None;
     PythonProject.showQuickPick := fun _ => Rejected UserCancelledError;
     PythonProject.showInputBox := fun _ => Rejected UserCancelledError;
     PythonProject.validateFuncCoreToolsInstalled := Resolved true |}.

(** A machine with the Python extension active, on which every folder is a
    Python function project with its virtual environment in [.venv]. *)
Definition pythonHostEnv : FuncTaskProviderHost.Env :=
  {| FuncTaskProviderHost.names := Samples.names;
     FuncTaskProviderHost.isFunctionProject := fun _ => true;
     FuncTaskProviderHost.projectLanguage := fun _ => Some Python;
     FuncTaskProviderHost.pythonVenv := fun _ => Some ".venv";
     FuncTaskProviderHost.platform := PythonProjectCreator.Linux;
     FuncTaskProviderHost.path_join := String.concat "/";
     FuncTaskProviderHost.joinCommands := fun _ => String.concat " && ";
     FuncTaskProviderHost.pyExtension :=
       Some {| FuncTaskProviderHost.isActive := true;
               FuncTaskProviderHost.activate := None;
               FuncTaskProviderHost.getRemoteLauncherCommand :=
                 Some (fun host port =>
                         Resolved ["-m"; "ptvsd"; "--host"; host;
                                   "--port"; toString port]) |} |}.

(** A tree in which the user picks a timer-triggered function. *)
Definition clipboardEnv : CopyFunctionUrl.Env :=
  {| CopyFunctionUrl.showTreeItemPicker :=
       Resolved {| CopyFunctionUrl.triggerUrl := "";
                   CopyFunctionUrl.isHttpTrigger := false |};
     CopyFunctionUrl.clipboardWrite := fun _ => None |}.

Definition helloFunction : CopyFunctionUrl.FunctionTreeItem :=
  {| CopyFunctionUrl.triggerUrl := "https://linux.example/api/hello";
     CopyFunctionUrl.isHttpTrigger := true |}.

End MoreSamples.

(* ===================================================================== *)
(** * Process discovery: properties *)
(* ===================================================================== *)

Module PickFuncProcessFacts.
Import PickFuncProcess Vocabulary.

Lemma pop_snoc {A} (l : list A) (x : A) : pop (l ++ [x]) = Some x.
Proof.
  unfold pop. rewrite map_app. simpl. apply last_last.
Qed.

Lemma pop_nil {A} : pop (@nil A) = None.
Proof. reflexivity. Qed.

(** C3: [getInnermostUnixPid] resolves with the PID of the last descendant
    that ps-tree lists, resolves with the pid it was given when the list is
    empty, and rejects exactly when ps-tree reports an error (with that
    error). *)
Theorem getInnermostUnixPid_last_descendant :
  forall (unixPsTree : option Z -> PsTreeReport) (pid : string),
    (forall children child,
        unixPsTree (parseInt pid) = (None, children ++ [child])%list ->
        getInnermostUnixPid unixPsTree pid = Resolved (PID child)) /\
    (unixPsTree (parseInt pid) = (None, []) ->
     getInnermostUnixPid unixPsTree pid = Resolved pid) /\
    (forall e, getInnermostUnixPid unixPsTree pid = Rejected e <->
               fst (unixPsTree (parseInt pid)) = Some e).
Proof.
  intros unixPsTree pid. unfold getInnermostUnixPid.
  repeat split.
  - intros children child ->. now rewrite pop_snoc.
  - intros ->. reflexivity.
  - destruct (unixPsTree (parseInt pid)) as [[err|] children]; simpl.
    + congruence.
    + destruct (pop children); discriminate.
  - destruct (unixPsTree (parseInt pid)) as [[err|] children]; simpl.
    + congruence.
    + discriminate.
Qed.

(** ** The polling loop *)

Lemma firstChildLeaf_path : forall t, FirstChildPath t (firstChildLeaf t).
Proof.
  fix IH 1. intros [p n [|c cs]]; simpl.
  - constructor.
  - constructor. apply IH.
Qed.

Lemma firstChildLeaf_childless : forall t, node_children (firstChildLeaf t) = [].
Proof.
  fix IH 1. intros [p n [|c cs]]; simpl.
  - reflexivity.
  - apply IH.
Qed.

Section Loop.
Variable wpt : IWindowsProcessTree.
Variable pid : string.
Variable maxTime : Z.
Variable timeoutError : Error.

Lemma clockAt_step (now0 : Z) (k : nat) :
  clockAt wpt now0 k + 500 <= clockAt wpt now0 (S k).
Proof. simpl. lia. Qed.

Lemma clockAt_lower (now0 : Z) (k : nat) :
  now0 + 500 * Z.of_nat k <= clockAt wpt now0 k.
Proof.
  induction k as [|k IH].
  - simpl. lia.
  - pose proof (clockAt_step now0 k). lia.
Qed.

(** Polls that go on only consume fuel. *)
Lemma pollLoop_skip (now0 : Z) :
  forall n fuel,
    (forall j, (j < n)%nat -> pollGoesOn wpt pid maxTime now0 j) ->
    pollLoop wpt pid maxTime timeoutError (n + fuel) 0 now0
    = pollLoop wpt pid maxTime timeoutError fuel n (clockAt wpt now0 n).
Proof.
  induction n as [|n IH]; intros fuel Hgo.
  - reflexivity.
  - replace (S n + fuel)%nat with (n + S fuel)%nat by lia.
    rewrite IH by (intros j Hj; apply Hgo; lia).
    destruct (Hgo n) as [Hclock [psTree [Htree Hleaf]]]; [lia|].
    cbn [pollLoop].
    apply Z.ltb_lt in Hclock. rewrite Hclock, Htree. cbv zeta.
    rewrite Hleaf. reflexivity.
Qed.

(** The loop ends within its budget. *)
Lemma pollLoop_total :
  forall fuel k now,
    maxTime - now <= 500 * Z.of_nat fuel ->
    exists c, pollLoop wpt pid maxTime timeoutError (S fuel) k now = Some c.
Proof.
  induction fuel as [|fuel IH]; intros k now Hspan.
  - cbn [pollLoop]. destruct (now <? maxTime) eqn:Hlt.
    + apply Z.ltb_lt in Hlt. lia.
    + eauto.
  - cbn [pollLoop]. fold (pollLoop wpt pid maxTime timeoutError).
    destruct (now <? maxTime) eqn:Hlt; [|eauto].
    destruct (getProcessTree wpt (Number pid) k) as [psTree|]; [|eauto].
    cbv zeta. destruct (isFuncLeaf (firstChildLeaf psTree)); [eauto|].
    apply IH. lia.
Qed.
End Loop.

Lemma pollBudget_covers (span : Z) :
  span <= 500 * Z.of_nat (Z.to_nat (span / 500 + 1)).
Proof.
  pose proof (Z.mod_pos_bound span 500 ltac:(lia)) as Hmod.
  pose proof (Z.div_mod span 500 ltac:(lia)) as Hdiv.
  lia.
Qed.

(** A poll whose head is reached before the deadline is within budget. *)
Lemma pollBudget_reaches (wpt : IWindowsProcessTree) (now0 span : Z) (k : nat) :
  (forall j, (j < k)%nat -> clockAt wpt now0 j < now0 + span) ->
  exists fuel, pollBudget span = (k + S fuel)%nat.
Proof.
  intros Hbefore. unfold pollBudget.
  destruct k as [|k].
  - exists (Z.to_nat (span / 500 + 1)). reflexivity.
  - assert (Hk : clockAt wpt now0 k < now0 + span) by (apply Hbefore; lia).
    pose proof (clockAt_lower wpt now0 k) as Hlow.
    pose proof (Z.mod_pos_bound span 500 ltac:(lia)) as Hmod.
    pose proof (Z.div_mod span 500 ltac:(lia)) as Hdiv.
    exists (Z.to_nat (span / 500 + 1) - S k)%nat.
    assert (Z.of_nat (S k) <= span / 500 + 1) by lia.
    lia.
Qed.

Lemma getInnermostWindowsPid_total tryFetch now0 pid timeoutInSeconds timeoutError :
  exists c,
    getInnermostWindowsPid tryFetch now0 pid timeoutInSeconds timeoutError = Some c.
Proof.
  unfold getInnermostWindowsPid. destruct tryFetch as [wpt|]; [|eauto].
  apply pollLoop_total.
  replace (now0 + timeoutInSeconds * 1000 - now0) with (timeoutInSeconds * 1000) by lia.
  apply pollBudget_covers.
Qed.

(** C2, as amended: when the [windows-process-tree] module cannot be
    loaded the function throws the missing-dependency error without
    polling.  Otherwise it polls the tree of its pid, successive polls
    being at least 500 ms apart; at the first poll that does not go on it
    throws the timeout error if the deadline has passed, throws
    'Functions host is no longer running' if no tree came back, and
    returns the pid of the first-child leaf, which has no children, if
    that leaf's lower-cased name contains 'func'.  It always ends. *)
Theorem getInnermostWindowsPid_polls :
  forall (tryFetch : option IWindowsProcessTree) (now0 : Z) (pid : string)
         (timeoutInSeconds : Z) (timeoutError : Error),
    let result := getInnermostWindowsPid tryFetch now0 pid timeoutInSeconds timeoutError in
    let maxTime := now0 + timeoutInSeconds * 1000 in
    (tryFetch = None -> result = Some (Rejected noWindowsProcessTree)) /\
    (forall wpt, tryFetch = Some wpt ->
       (forall k, clockAt wpt now0 k + 500 <= clockAt wpt now0 (S k)) /\
       (forall k,
          (forall j, (j < k)%nat -> pollGoesOn wpt pid maxTime now0 j) ->
          (maxTime <= clockAt wpt now0 k -> result = Some (Rejected timeoutError)) /\
          (clockAt wpt now0 k < maxTime ->
           getProcessTree wpt (Number pid) k = None ->
           result = Some (Rejected funcTaskStopped)) /\
          (forall psTree,
              clockAt wpt now0 k < maxTime ->
              getProcessTree wpt (Number pid) k = Some psTree ->
              isFuncLeaf (firstChildLeaf psTree) = true ->
              result = Some (Resolved (toString (node_pid (firstChildLeaf psTree)))) /\
              FirstChildPath psTree (firstChildLeaf psTree) /\
              node_children (firstChildLeaf psTree) = []))) /\
    (exists c, result = Some c).
Proof.
  intros tryFetch now0 pid timeoutInSeconds timeoutError result maxTime.
  subst result maxTime. unfold getInnermostWindowsPid.
  split; [intros ->; reflexivity|]. split.
  - intros wpt ->. split; [intro k; apply clockAt_step|].
    intros k Hgo.
    destruct (pollBudget_reaches wpt now0 (timeoutInSeconds * 1000) k) as [fuel Hfuel].
    { intros j Hj. apply (Hgo j Hj). }
    rewrite Hfuel, (pollLoop_skip wpt pid _ timeoutError now0 k (S fuel) Hgo).
    cbn [pollLoop]. split; [|split].
    + intros Hlate. apply Z.ltb_ge in Hlate. now rewrite Hlate.
    + intros Hearly Hnone. apply Z.ltb_lt in Hearly. now rewrite Hearly, Hnone.
    + intros psTree Hearly Htree Hleaf. apply Z.ltb_lt in Hearly.
      rewrite Hearly, Htree. cbv zeta. rewrite Hleaf.
      split; [reflexivity|].
      split; [apply firstChildLeaf_path | apply firstChildLeaf_childless].
  - destruct tryFetch as [wpt|]; [|eauto].
    apply pollLoop_total. replace (now0 + timeoutInSeconds * 1000 - now0)
      with (timeoutInSeconds * 1000) by lia.
    apply pollBudget_covers.
Qed.

Lemma getInnermostUnixPid_last_descendant_witness :
  getInnermostUnixPid (fun _ => (None, Samples.wrapperChildren)) "500" = Resolved "502".
Proof.
  destruct (getInnermostUnixPid_last_descendant
              (fun _ => (None, Samples.wrapperChildren)) "500") as [Hlast _].
  apply (Hlast [mkPS "501" "500" "node"] (mkPS "502" "501" "func")).
  reflexivity.
Defined.

(** C2, as stated, fails when the module is missing: the function neither
    polls nor throws one of the two errors the claim lists. *)
Lemma getInnermostWindowsPid_without_module :
  getInnermostWindowsPid None 1000 "100" 60 Samples.timedOut
    = Some (Rejected noWindowsProcessTree)
  /\ noWindowsProcessTree <> funcTaskStopped
  /\ noWindowsProcessTree <> Samples.timedOut.
Proof.
  split; [reflexivity|]. split; discriminate.
Qed.

Lemma getInnermostWindowsPid_polls_witness :
  pollGoesOn Samples.slowStart "100" (1000 + 5 * 1000) 1000 0
  /\ getInnermostWindowsPid (Some Samples.slowStart) 1000 "100" 5 Samples.timedOut
      = Some (Resolved "4321").
Proof.
  assert (Hgo : pollGoesOn Samples.slowStart "100" (1000 + 5 * 1000) 1000 0).
  { split; [reflexivity|]. exists Samples.shellOnly. split; reflexivity. }
  split; [exact Hgo|].
  destruct (getInnermostWindowsPid_polls (Some Samples.slowStart) 1000 "100" 5
              Samples.timedOut) as [_ [Hpoll _]].
  destruct (Hpoll Samples.slowStart eq_refl) as [_ Hat].
  destruct (Hat 1%nat) as [_ [_ Hfound]].
  - intros j Hj. destruct j as [|j]; [exact Hgo | lia].
  - refine (proj1 (Hfound Samples.shellWithHost _ _ _)); reflexivity.
Defined.

End PickFuncProcessFacts.

(* ===================================================================== *)
(** * Waiting for the functions host: properties *)
(* ===================================================================== *)

Module StartFuncTaskFacts.
Import StartFuncTask Vocabulary.

Section Race.
Variable isFuncHostTask : Task -> bool.
Variable timeoutError : Error.

Let onEvent := onEvent isFuncHostTask.
Let onTimer := onTimer timeoutError.
Let deliver := deliver isFuncHostTask timeoutError.

Lemma onEvent_quiet (w : Wait) (ev : TaskEvent) :
  settlesStart isFuncHostTask ev = false -> onEvent w ev = w.
Proof.
  destruct ev as [t processId | t exitCode]; simpl; intros Hq; rewrite Hq.
  - now rewrite andb_false_r.
  - now rewrite andb_false_r.
Qed.

Lemma onEvent_settled (w : Wait) (ev : TaskEvent) (c : Completion string) :
  promise w = Some c -> promise (onEvent w ev) = Some c.
Proof.
  intros Hp. destruct ev as [t processId | t exitCode]; simpl.
  - destruct (listener w && isFuncHostTask (task t)); simpl; [now rewrite Hp | exact Hp].
  - destruct (errorListener w && negb (exitCode =? 0)); simpl; [now rewrite Hp | exact Hp].
Qed.

Lemma onTimer_settled (w : Wait) (c : Completion string) :
  promise w = Some c -> promise (onTimer w) = Some c.
Proof. intros Hp. simpl. now rewrite Hp. Qed.

(** A settled promise keeps its outcome whatever is delivered next. *)
Lemma deliver_settled (delay : Z) (c : Completion string) :
  forall h fired w, promise w = Some c -> promise (deliver delay fired w h) = Some c.
Proof.
  induction h as [|[time ev] h IH]; intros fired w Hp; simpl.
  - destruct fired; [exact Hp | now apply onTimer_settled].
  - destruct (negb fired && (delay <=? time)).
    + apply IH. now apply onEvent_settled, onTimer_settled.
    + apply IH. now apply onEvent_settled.
Qed.

Lemma deliver_quiet (delay : Z) :
  forall pre rest w,
    quietBefore isFuncHostTask delay pre ->
    deliver delay false w (pre ++ rest)%list = deliver delay false w rest.
Proof.
  induction pre as [|[time ev] pre IH]; intros rest w Hq; simpl.
  - reflexivity.
  - inversion Hq as [|e l [Htime Hev] Hrest]; subst. simpl in Htime, Hev.
    apply Z.leb_gt in Htime. rewrite Htime. simpl.
    fold onEvent. rewrite (onEvent_quiet w ev Hev). now apply IH.
Qed.

(** The timer settles whatever is still pending. *)
Lemma deliver_settles (delay : Z) :
  forall h w, exists c, promise (deliver delay false w h) = Some c.
Proof.
  induction h as [|[time ev] h IH]; intros w; simpl.
  - destruct (promise w); simpl; eauto.
  - destruct (delay <=? time); simpl.
    + destruct (promise (onTimer w)) as [c|] eqn:Hp.
      * exists c. apply deliver_settled. now apply onEvent_settled.
      * simpl in Hp. destruct (promise w); discriminate.
    + apply IH.
Qed.

Lemma setTimeoutDelay_honoured (ms : Z) :
  1 <= ms <= TIMEOUT_MAX -> setTimeoutDelay ms = ms.
Proof.
  intros [Hlow Hhigh]. unfold setTimeoutDelay.
  apply Z.leb_le in Hlow, Hhigh. now rewrite Hlow, Hhigh.
Qed.

(** The race for every timeout, in terms of the delay the timer has. *)
Lemma startFuncTask_race_timer (timeoutInSeconds : Z) (h : History) :
  let delay := setTimeoutDelay (timeoutInSeconds * 1000) in
  let result := startFuncTask isFuncHostTask timeoutError None timeoutInSeconds h in
  (forall pre time t processId post,
      h = (pre ++ (time, DidStartTaskProcess t processId) :: post)%list ->
      quietBefore isFuncHostTask delay pre ->
      time < delay ->
      isFuncHostTask (task t) = true ->
      result = Some (Resolved (toString processId))) /\
  (forall pre time t exitCode post,
      h = (pre ++ (time, DidEndTaskProcess t exitCode) :: post)%list ->
      quietBefore isFuncHostTask delay pre ->
      time < delay ->
      exitCode <> 0 ->
      result = Some (Rejected (taskFailed t exitCode))) /\
  (forall pre post,
      h = (pre ++ post)%list ->
      quietBefore isFuncHostTask delay pre ->
      (forall e, hd_error post = Some e -> delay <= fst e) ->
      result = Some (Rejected timeoutError)) /\
  (exists c, result = Some c).
Proof.
  intros delay result. subst result.
  unfold startFuncTask, waitForStartPromise. fold delay. fold deliver.
  split; [|split; [|split]].
  - intros pre time t processId post -> Hq Htime Hhost.
    rewrite (deliver_quiet delay pre _ initial Hq). simpl.
    apply Z.leb_gt in Htime. rewrite Htime. simpl.
    apply deliver_settled. simpl. now rewrite Hhost.
  - intros pre time t exitCode post -> Hq Htime Hcode.
    rewrite (deliver_quiet delay pre _ initial Hq). simpl.
    apply Z.leb_gt in Htime. rewrite Htime. simpl.
    apply deliver_settled. simpl.
    apply Z.eqb_neq in Hcode. now rewrite Hcode.
  - intros pre post -> Hq Hlate.
    rewrite (deliver_quiet delay pre _ initial Hq).
    destruct post as [|[time ev] post]; simpl; [reflexivity|].
    assert (Hdue : delay <= time) by (apply (Hlate (time, ev)); reflexivity).
    apply Z.leb_le in Hdue. rewrite Hdue. simpl.
    apply deliver_settled. now apply onEvent_settled.
  - apply deliver_settles.
Qed.

(** C6, as amended: for a timeout whose value in milliseconds is a delay
    that [setTimeout] honours (from 1 to 2^31 - 1), and with [executeTask]
    resolved, the outcome of [startFuncTask] is decided by whichever comes
    first: a process-start event of a functions host task before the timer
    is due (resolve with its process id), a process-end event of any task
    with a nonzero exit code before the timer is due (reject with the
    task-failure error), or the timer after [timeoutInSeconds * 1000] ms
    (reject with the timeout error).  One of them always does, so the wait
    never stays pending. *)
Theorem startFuncTask_race :
  forall (timeoutInSeconds : Z) (h : History),
    1 <= timeoutInSeconds * 1000 <= TIMEOUT_MAX ->
    let delay := timeoutInSeconds * 1000 in
    let result := startFuncTask isFuncHostTask timeoutError None timeoutInSeconds h in
    (forall pre time t processId post,
        h = (pre ++ (time, DidStartTaskProcess t processId) :: post)%list ->
        quietBefore isFuncHostTask delay pre ->
        time < delay ->
        isFuncHostTask (task t) = true ->
        result = Some (Resolved (toString processId))) /\
    (forall pre time t exitCode post,
        h = (pre ++ (time, DidEndTaskProcess t exitCode) :: post)%list ->
        quietBefore isFuncHostTask delay pre ->
        time < delay ->
        exitCode <> 0 ->
        result = Some (Rejected (taskFailed t exitCode))) /\
    (forall pre post,
        h = (pre ++ post)%list ->
        quietBefore isFuncHostTask delay pre ->
        (forall e, hd_error post = Some e -> delay <= fst e) ->
        result = Some (Rejected timeoutError)) /\
    (exists c, result = Some c).
Proof.
  intros timeoutInSeconds h Hhonoured delay result.
  pose proof (startFuncTask_race_timer timeoutInSeconds h) as Hrace.
  cbv zeta in Hrace. rewrite (setTimeoutDelay_honoured _ Hhonoured) in Hrace.
  exact Hrace.
Qed.

(** When [executeTask] itself rejects, so does [startFuncTask]. *)
Lemma startFuncTask_executeTask_rejected (e : Error) (timeoutInSeconds : Z) (h : History) :
  startFuncTask isFuncHostTask timeoutError (Some e) timeoutInSeconds h = Some (Rejected e).
Proof. reflexivity. Qed.

End Race.

(** The two waits the command makes itself, for the start of the host task
    and in the polling loop, are bounded by the timer and by the timeout.
    So the command completes, whatever task events arrive, as soon as the
    calls it awaits from outside settle; and it never completes when it
    reaches one of its first four awaits and that call does not settle. *)
Theorem pickFuncProcess_completes :
  forall env : PickProcessCommand.Env,
    (PickProcessCommand.validateFuncCoreToolsInstalled env <> PickProcessCommand.Pending ->
     PickProcessCommand.stopFuncHostPromise env <> PickProcessCommand.Pending ->
     PickProcessCommand.fetchTasks env <> PickProcessCommand.Pending ->
     PickProcessCommand.executeTask env <> PickProcessCommand.Pending ->
     PickProcessCommand.tryFetchNodeModule env <> PickProcessCommand.Pending ->
     (forall pid, PickProcessCommand.unixPsTree env pid <> PickProcessCommand.Pending) ->
     exists c, PickProcessCommand.pickFuncProcess env = Some c)
    /\ (PickProcessCommand.validateFuncCoreToolsInstalled env = PickProcessCommand.Pending ->
        PickProcessCommand.pickFuncProcess env = None)
    /\ (PickProcessCommand.validateFuncCoreToolsInstalled env
          = PickProcessCommand.Settled (Resolved true) ->
        (PickProcessCommand.stopFuncHostPromise env = PickProcessCommand.Pending ->
         PickProcessCommand.pickFuncProcess env = None)
        /\ (PickProcessCommand.stopFuncHostPromise env = PickProcessCommand.Settled None ->
            (PickProcessCommand.fetchTasks env = PickProcessCommand.Pending ->
             PickProcessCommand.pickFuncProcess env = None)
            /\ (forall tasks funcTask timeoutInSeconds,
                  PickProcessCommand.fetchTasks env
                    = PickProcessCommand.Settled (Resolved tasks) ->
                  List.find (fun t => PickProcessCommand.isFuncHostTask env (task t)) tasks
                    = Some funcTask ->
                  PickProcessCommand.pickProcessTimeout env = Some timeoutInSeconds ->
                  PickProcessCommand.executeTask env = PickProcessCommand.Pending ->
                  PickProcessCommand.pickFuncProcess env = None))).
Proof.
  intros env. split.
  2: { unfold PickProcessCommand.pickFuncProcess. split; [now intros ->|].
       intros ->. split; [now intros ->|]. intros ->. split; [now intros ->|].
       intros tasks funcTask timeoutInSeconds -> -> -> ->. reflexivity. }
  intros Hvalid Hstop Hfetch Hexec Hmodule Hps.
  unfold PickProcessCommand.pickFuncProcess.
  destruct (PickProcessCommand.validateFuncCoreToolsInstalled env) as [[[|]|e]|];
    [|eauto|eauto|congruence].
  destruct (PickProcessCommand.stopFuncHostPromise env) as [[e|]|]; [eauto| |congruence].
  destruct (PickProcessCommand.fetchTasks env) as [[tasks|e]|]; [|eauto|congruence].
  destruct (find _ tasks); eauto.
  destruct (PickProcessCommand.pickProcessTimeout env) as [timeoutInSeconds|]; eauto.
  cbv zeta.
  destruct (PickProcessCommand.executeTask env) as [[e|]|]; [simpl; eauto| |congruence].
  unfold startFuncTask, waitForStartPromise.
  destruct (deliver_settles (PickProcessCommand.isFuncHostTask env)
              (PickProcessCommand.failedToFindFuncHost env timeoutInSeconds)
              (setTimeoutDelay (timeoutInSeconds * 1000))
              (PickProcessCommand.taskEvents env) initial)
    as [[pid|e] Hc]; rewrite Hc; eauto.
  destruct (PickProcessCommand.isWindows env).
  - destruct (PickProcessCommand.tryFetchNodeModule env) as [windowsProcessTree|];
      [|congruence].
    apply PickFuncProcessFacts.getInnermostWindowsPid_total.
  - specialize (Hps (parseInt pid)).
    destruct (PickProcessCommand.unixPsTree env (parseInt pid)); [eauto|congruence].
Qed.

Lemma pickFuncProcess_completes_witness :
  (exists c, PickProcessCommand.pickFuncProcess MoreSamples.unixEnv = Some c)
  /\ PickProcessCommand.pickFuncProcess MoreSamples.fetchPendingEnv = None.
Proof.
  split.
  - apply (proj1 (pickFuncProcess_completes MoreSamples.unixEnv)); discriminate.
  - exact (proj1 (proj2 (proj2 (proj2 (pickFuncProcess_completes
                                         MoreSamples.fetchPendingEnv))
                           eq_refl) eq_refl) eq_refl).
Defined.

(** C6, as stated, fails: with pickProcessTimeout at 2147484 seconds the
    delay is more than [setTimeout] honours, the timer is due after 1 ms,
    and a host task that starts after 50 ms, well within the configured
    window, finds the promise rejected with the timeout error. *)
Lemma startFuncTask_overflowing_timeout :
  quietBefore Samples.isHostTask (2147484 * 1000) []
  /\ 50 < 2147484 * 1000
  /\ Samples.isHostTask (task Samples.hostTask) = true
  /\ startFuncTask Samples.isHostTask Samples.timedOut None 2147484
       [(50, DidStartTaskProcess Samples.hostTask 4242)]
     = Some (Rejected Samples.timedOut)
  /\ startFuncTask Samples.isHostTask Samples.timedOut None 2147484
       [(50, DidStartTaskProcess Samples.hostTask 4242)]
     <> Some (Resolved "4242").
Proof.
  split; [constructor|]. split; [reflexivity|]. split; [reflexivity|].
  split; [reflexivity | discriminate].
Qed.

Lemma startFuncTask_race_witness :
  1 <= 60 * 1000 <= TIMEOUT_MAX
  /\ quietBefore Samples.isHostTask (60 * 1000) [(150, DidEndTaskProcess Samples.buildTask 0)]
  /\ 900 < 60 * 1000
  /\ Samples.isHostTask (task Samples.hostTask) = true
  /\ startFuncTask Samples.isHostTask Samples.timedOut None 60
       [(150, DidEndTaskProcess Samples.buildTask 0);
        (900, DidStartTaskProcess Samples.hostTask 4242);
        (70000, DidEndTaskProcess Samples.hostTask 1)]
     = Some (Resolved "4242").
Proof.
  assert (Hhonoured : 1 <= 60 * 1000 <= TIMEOUT_MAX) by (unfold TIMEOUT_MAX; lia).
  assert (Hq : quietBefore Samples.isHostTask (60 * 1000)
                 [(150, DidEndTaskProcess Samples.buildTask 0)]).
  { constructor; [split; reflexivity | constructor]. }
  split; [exact Hhonoured|].
  split; [exact Hq|]. split; [reflexivity|]. split; [reflexivity|].
  refine (proj1 (startFuncTask_race Samples.isHostTask Samples.timedOut 60 _ Hhonoured)
            [(150, DidEndTaskProcess Samples.buildTask 0)] 900 Samples.hostTask 4242
            [(70000, DidEndTaskProcess Samples.hostTask 1)] eq_refl Hq _ _); reflexivity.
Defined.

End StartFuncTaskFacts.

(* ===================================================================== *)
(** * The deploy command: properties *)
(* ===================================================================== *)

Module DeployFacts.
Import Deploy Vocabulary.
Local Open Scope deploy_scope.

(** ** The wait for the pre-deploy task *)

Lemma awaitTaskEnd_settled (preDeployTask : TaskObject) (c : Completion unit) :
  forall evs w, promise w = Some c ->
                promise (fold_left (onEvent preDeployTask) evs w) = Some c.
Proof.
  induction evs as [|ev evs IH]; intros w Hp; simpl; [exact Hp|].
  apply IH. destruct ev as [t processId | t exitCode]; simpl; [exact Hp|].
  destruct (listener w && sameObject t preDeployTask); simpl; [now rewrite Hp | exact Hp].
Qed.

(** C1, as amended: the wait of [runPreDeployTask] ends exactly at the first
    process-end event of the pre-deploy task, resolving on exit code 0 and
    rejecting otherwise; it has no timer, so with no such event it stays
    pending however much time passes and whatever else happens. *)
Theorem awaitTaskEnd_first_end_event :
  forall (preDeployTask : TaskObject) (h : History),
    awaitTaskEnd preDeployTask h =
      match List.find (endsTask preDeployTask) (map snd h) with
      | Some (DidEndTaskProcess t exitCode) =>
          Some (if exitCode =? 0 then Resolved tt
                else Rejected (preDeployTaskFailed t exitCode))
      | _ => None
      end
    /\ (awaitTaskEnd preDeployTask h = None <->
        Forall (fun e => endsTask preDeployTask (snd e) = false) h).
Proof.
  intros preDeployTask h. unfold awaitTaskEnd.
  assert (Hfind :
    promise (fold_left (onEvent preDeployTask) (map snd h) (mkEndWait None true)) =
      match List.find (endsTask preDeployTask) (map snd h) with
      | Some (DidEndTaskProcess t exitCode) =>
          Some (if exitCode =? 0 then Resolved tt
                else Rejected (preDeployTaskFailed t exitCode))
      | _ => None
      end).
  { induction h as [|[time ev] h IH]; simpl; [reflexivity|].
    destruct ev as [t processId | t exitCode]; simpl; [exact IH|].
    destruct (sameObject t preDeployTask); simpl; [|exact IH].
    now apply awaitTaskEnd_settled. }
  split; [exact Hfind|].
  rewrite Hfind. clear Hfind.
  induction h as [|[time ev] h IH]; simpl.
  - split; [constructor | reflexivity].
  - destruct (endsTask preDeployTask ev) eqn:Hends.
    + destruct ev as [t processId | t exitCode]; [discriminate|].
      split; [discriminate|]. intros Hall. inversion Hall; subst. simpl in *. congruence.
    + rewrite IH. split.
      * intros Hall. constructor; assumption.
      * intros Hall. now inversion Hall.
Qed.

(** C1, as stated, fails: the publish task is found and executed, a day of
    other task events goes by, and the wait is still pending, so the command
    never gets past it. *)
Lemma runPreDeployTask_waits_without_timer :
  awaitTaskEnd Samples.publishTask Samples.noEndOfPublish = None
  /\ runPreDeployTask
       (Samples.deployEnv None [Samples.publishTask] Samples.noEndOfPublish None)
       "/w/app" CSharp true v2
     = (Hung, [ SetTelemetry "preDeployTask" "publish"; FetchTasks;
                SetTelemetry "foundPreDeployTask" "true";
                ExecuteTask Samples.publishTask ]).
Proof. split; reflexivity. Qed.

(** Once the pre-deploy task is found and started, [runPreDeployTask] ends
    as its wait does. *)
Lemma runPreDeployTask_found (env : Env) deployFsPath language runtime
    tasks taskName preDeployTask :
  (if truthy (preDeployTaskOf env deployFsPath)
   then preDeployTaskOf env deployFsPath
   else inferredTaskName env language runtime) = Some taskName ->
  fetchTasks env = Resolved tasks ->
  List.find (isPreDeployTask env taskName deployFsPath) tasks = Some preDeployTask ->
  executeTask env preDeployTask = None ->
  outcome (runPreDeployTask env deployFsPath language true runtime) =
    match awaitTaskEnd preDeployTask (taskEvents env) with
    | Some (Resolved _) => Done tt
    | Some (Rejected e) => Threw e
    | None => Hung
    end.
Proof.
  intros Hname Hfetch Hfind Hexec. unfold runPreDeployTask. simpl negb. cbv iota zeta.
  rewrite Hname, Hfetch. simpl. rewrite Hfind. simpl. rewrite Hexec. simpl.
  destruct (awaitTaskEnd preDeployTask (taskEvents env)) as [[[]|e]|]; reflexivity.
Qed.

(** ** Computations *)

Lemma outcome_bind {A B} (m : M A) (k : A -> M B) :
  outcome (bind m k) =
    match outcome m with
    | Done a => outcome (k a)
    | Threw e => Threw e
    | Hung => Hung
    end.
Proof. destruct m as [[a|e|] done]; reflexivity. Qed.

Lemma effects_bind {A B} (m : M A) (k : A -> M B) :
  effects (bind m k) =
    (effects m ++ match outcome m with
                  | Done a => effects (k a)
                  | _ => []
                  end)%list.
Proof.
  destruct m as [[a|e|] done]; simpl; try reflexivity; now rewrite app_nil_r.
Qed.

Lemma effects_tryFinally {A} (body : M A) (fin : M unit) :
  effects (tryFinally body fin) =
    (effects body ++ match outcome body with
                     | Hung => []
                     | _ => effects fin
                     end)%list.
Proof.
  destruct body as [[a|e|] done], fin as [[u|e'|] more]; simpl;
    try reflexivity; now rewrite app_nil_r.
Qed.

Section Only.
Variable P : Effect -> Prop.

Lemma only_ret {A} (a : A) : only P (ret a).
Proof. constructor. Qed.

Lemma only_throw {A} (e : Error) : only P (@throw A e).
Proof. constructor. Qed.

Lemma only_emit (e : Effect) : P e -> only P (emit e).
Proof. intros He. repeat constructor. exact He. Qed.

Lemma only_await {A} (p : Completion A) : only P (await p).
Proof. destruct p; constructor. Qed.

Lemma only_awaitVoid (p : option Error) : only P (awaitVoid p).
Proof. destruct p; constructor. Qed.

Lemma only_awaitMaybe {A} (p : option (Completion A)) : only P (awaitMaybe p).
Proof. destruct p as [[a|e]|]; constructor. Qed.

Lemma only_bind {A B} (m : M A) (k : A -> M B) :
  only P m -> (forall a, only P (k a)) -> only P (bind m k).
Proof.
  unfold only. intros Hm Hk. rewrite effects_bind. apply Forall_app. split; [exact Hm|].
  destruct (outcome m); [apply Hk | constructor | constructor].
Qed.

Lemma only_when (b : bool) (m : M unit) : only P m -> only P (when b m).
Proof. destruct b; [auto | intros _; constructor]. Qed.

Lemma only_tryFinally {A} (body : M A) (fin : M unit) :
  only P body -> only P fin -> only P (tryFinally body fin).
Proof.
  unfold only. intros Hb Hf. rewrite effects_tryFinally. apply Forall_app.
  split; [exact Hb|]. destruct (outcome body); [exact Hf | exact Hf | constructor].
Qed.
End Only.

(** ** Stopping and starting the app *)

Lemma only_runPreDeployTask (P : Effect -> Prop) (env : Env) deployFsPath language zip runtime :
  (forall key value, P (SetTelemetry key value)) ->
  (forall lines, P (AppendLine lines)) ->
  P OutputShow -> P FetchTasks -> (forall t, P (ExecuteTask t)) ->
  only P (runPreDeployTask env deployFsPath language zip runtime).
Proof.
  intros Htel Hline Hshow Hfetch Hexec. unfold runPreDeployTask.
  destruct (negb zip).
  - destruct (preDeployTaskOf env deployFsPath); [|apply only_ret].
    apply only_when, only_emit, Hline.
  - destruct (if truthy (preDeployTaskOf env deployFsPath)
              then preDeployTaskOf env deployFsPath
              else inferredTaskName env language runtime) as [taskName|];
      [|apply only_ret].
    apply only_bind; [apply only_emit, Htel | intros _].
    apply only_bind; [apply only_emit, Hfetch | intros _].
    apply only_bind; [apply only_await | intros tasks].
    destruct (find (isPreDeployTask env taskName deployFsPath) tasks) as [preDeployTask|].
    + apply only_bind; [apply only_emit, Htel | intros _].
      apply only_bind; [apply only_emit, Hexec | intros _].
      apply only_bind; [apply only_awaitVoid | intros _].
      apply only_awaitMaybe.
    + apply only_bind; [apply only_emit, Htel | intros _].
      destruct (truthy (preDeployTaskOf env deployFsPath)); [apply only_throw|].
      apply only_bind; [apply only_emit, Hshow | intros _].
      apply only_emit, Hline.
Qed.

Lemma deploying_not_java (env : Env) node language deployFsPath :
  language <> Java ->
  deploying env node language deployFsPath =
    (match appserviceDeploy env deployFsPath with
     | None => Done tt
     | Some e => Threw e
     end, [AppServiceDeploy deployFsPath]).
Proof.
  intros Hlang. unfold deploying.
  assert (Hjava : isJava language = false) by (destruct language; simpl; congruence).
  rewrite Hjava. simpl.
  destruct (appserviceDeploy env deployFsPath); reflexivity.
Qed.


Ltac only_step :=
  first [ apply only_ret | apply only_throw | apply only_await | apply only_awaitVoid
        | apply only_awaitMaybe
        | apply only_emit; first [ split; discriminate | intros ?; discriminate ]
        | apply only_when
        | apply only_bind; [|intros ?] ].


Lemma only_bind_done (P : Effect -> Prop) {A B} (m : M A) (k : A -> M B) :
  only P m -> (forall a, outcome m = Done a -> only P (k a)) -> only P (bind m k).
Proof.
  unfold only. intros Hm Hk. rewrite effects_bind. apply Forall_app. split; [exact Hm|].
  destruct (outcome m) as [a|e|]; [now apply Hk | constructor | constructor].
Qed.









(** ** The confirmation prompt *)

(** The second test of line 94 compares the site configuration itself, an
    object, with a string, and never fails. *)
Lemma isZipDeploy_unless_LocalGit (siteConfig : SiteConfigResource) :
  isZipDeploy siteConfig =
    negb (strictEquals (valueOfField (scmType siteConfig)) (VString ScmType.LocalGit)).
Proof. unfold isZipDeploy. simpl. apply andb_true_r. Qed.

(** C5, on a site whose scmType is GitHub: the deployment counts as a zip
    deploy and the confirmation prompt is shown. *)
Theorem confirmAndDeploy_prompts_on_GitHub_site :
  forall (env : Env) (node : SlotTreeItemBase) (language : ProjectLanguage)
         (runtime : ProjectRuntime) (deployFsPath workspaceFsPath : string)
         (siteConfig : SiteConfigResource),
    getSiteConfig env = Resolved siteConfig ->
    scmType siteConfig = Some ScmType.GitHub ->
    isZipDeploy siteConfig = true
    /\ In (ShowWarningMessage (confirmDeploy node) true ["Deploy"; "Cancel"])
          (effects (confirmAndDeploy env node true language runtime
                                     deployFsPath workspaceFsPath)).
Proof.
  intros env node language runtime deployFsPath workspaceFsPath siteConfig Hsite Hscm.
  assert (Hzip : isZipDeploy siteConfig = true).
  { rewrite isZipDeploy_unless_LocalGit, Hscm. reflexivity. }
  split; [exact Hzip|].
  unfold confirmAndDeploy. rewrite Hsite.
  rewrite !effects_bind. simpl outcome. cbv iota beta.
  rewrite effects_bind. simpl outcome. cbv iota beta.
  rewrite Hzip. simpl andb. unfold when.
  rewrite !effects_bind. simpl.
  right. right. left. reflexivity.
Qed.

Lemma confirmAndDeploy_prompts_on_GitHub_site_witness :
  getSiteConfig (Samples.deployEnv None [] [] (Some "GitHub"))
    = Resolved (mkSiteConfig 7 (Some "GitHub"))
  /\ scmType (mkSiteConfig 7 (Some "GitHub")) = Some ScmType.GitHub
  /\ isZipDeploy (mkSiteConfig 7 (Some "GitHub")) = true
  /\ In (ShowWarningMessage (confirmDeploy Samples.site) true ["Deploy"; "Cancel"])
        (effects (confirmAndDeploy (Samples.deployEnv None [] [] (Some "GitHub"))
                                   Samples.site true CSharp v2 "/w/app" "/w")).
Proof.
  split; [reflexivity|]. split; [reflexivity|].
  exact (confirmAndDeploy_prompts_on_GitHub_site
           (Samples.deployEnv None [] [] (Some "GitHub")) Samples.site CSharp v2
           "/w/app" "/w" (mkSiteConfig 7 (Some "GitHub")) eq_refl eq_refl).
Defined.

(** ** A pre-deploy task that cannot be found *)

Lemma find_none {A} (f : A -> bool) (l : list A) :
  Forall (fun x => f x = false) l -> List.find f l = None.
Proof.
  induction 1 as [|x l Hx _ IH]; simpl; [reflexivity|]. now rewrite Hx.
Qed.

Lemma truthy_nonempty (s : string) : s <> "" -> truthy (Some s) = true.
Proof. destruct s; [congruence | reflexivity]. Qed.

Lemma runPreDeployTask_missing_configured (env : Env) deployFsPath language runtime
    tasks taskName :
  preDeployTaskOf env deployFsPath = Some taskName ->
  taskName <> "" ->
  fetchTasks env = Resolved tasks ->
  noPreDeployTask env taskName deployFsPath tasks ->
  runPreDeployTask env deployFsPath language true runtime =
    (Threw (NewErrorLines (messageLines env true taskName)),
     [ SetTelemetry "preDeployTask" taskName; FetchTasks;
       SetTelemetry "foundPreDeployTask" "false" ]).
Proof.
  intros Hset Hne Hfetch Hnone. unfold runPreDeployTask.
  rewrite Hset, (truthy_nonempty taskName Hne), Hfetch. simpl.
  rewrite (find_none _ _ Hnone). reflexivity.
Qed.

Lemma runPreDeployTask_missing_inferred (env : Env) deployFsPath language runtime
    tasks taskName :
  truthy (preDeployTaskOf env deployFsPath) = false ->
  inferredTaskName env language runtime = Some taskName ->
  fetchTasks env = Resolved tasks ->
  noPreDeployTask env taskName deployFsPath tasks ->
  runPreDeployTask env deployFsPath language true runtime =
    (Done tt,
     [ SetTelemetry "preDeployTask" taskName; FetchTasks;
       SetTelemetry "foundPreDeployTask" "false";
       OutputShow; AppendLine (messageLines env false taskName) ]).
Proof.
  intros Hset Hinf Hfetch Hnone. unfold runPreDeployTask.
  rewrite Hset, Hinf, Hfetch. simpl.
  rewrite (find_none _ _ Hnone). reflexivity.
Qed.

Lemma inferredTaskName_not_java (env : Env) language runtime taskName :
  inferredTaskName env language runtime = Some taskName -> language <> Java.
Proof. intros Hinf ->. discriminate. Qed.

(** The steps of [confirmAndDeploy] up to [runPreDeployTask], when the site
    configuration arrives and the prompt, if shown, is confirmed. *)
Lemma confirmAndDeploy_confirmed (env : Env) node confirm language runtime
    deployFsPath workspaceFsPath siteConfig :
  getSiteConfig env = Resolved siteConfig ->
  (confirm && isZipDeploy siteConfig = true ->
   exists button, showWarningMessage env (confirmDeploy node) = Resolved button) ->
  exists shown,
    confirmAndDeploy env node confirm language runtime deployFsPath workspaceFsPath =
      bind (Done tt, shown)
        (fun _ =>
           runPreDeployTask env deployFsPath language (isZipDeploy siteConfig) runtime ;;
           deploying env node language
             (if strictEquals (valueOfField (scmType siteConfig)) (VString ScmType.LocalGit)
              then workspaceFsPath else deployFsPath) ;;
           emit (AppendLine [localize "deployComplete" "Deployment to '{0}' completed."
                                      [client_fullName node]]) ;;
           emit (ShowInformationMessage
                   (localize "deployComplete" "Deployment to '{0}' completed."
                             [client_fullName node])) ;;
           emit ListHttpTriggerUrls ;;
           awaitVoid (listHttpTriggerUrls env)).
Proof.
  intros Hsite Hanswer. unfold confirmAndDeploy, when. rewrite Hsite. simpl.
  destruct (confirm && isZipDeploy siteConfig) eqn:Hprompt.
  - destruct (Hanswer eq_refl) as [button Hbutton].
    exists [ GetSiteConfig; SetTelemetry "cancelStep" "confirmDestructiveDeployment";
             ShowWarningMessage (confirmDeploy node) true ["Deploy"; "Cancel"];
             SetTelemetry "cancelStep" "" ].
    rewrite Hbutton. simpl. reflexivity.
  - exists [GetSiteConfig]. simpl. reflexivity.
Qed.

Lemma await_done {A} (p : Completion A) (a : A) :
  outcome (await p) = Done a -> p = Resolved a.
Proof. destruct p; simpl; congruence. Qed.

(** Nothing is uploaded when [runPreDeployTask] does not return. *)
Lemma confirmAndDeploy_stops_before_upload (env : Env) node confirm language runtime
    deployFsPath workspaceFsPath :
  (forall siteConfig a,
      getSiteConfig env = Resolved siteConfig ->
      outcome (runPreDeployTask env deployFsPath language (isZipDeploy siteConfig) runtime)
        <> Done a) ->
  only notUpload
       (confirmAndDeploy env node confirm language runtime deployFsPath workspaceFsPath).
Proof.
  intros Hstop. unfold confirmAndDeploy.
  apply only_bind; [only_step | intros _].
  apply only_bind_done; [only_step | intros siteConfig Hsite].
  apply await_done in Hsite.
  apply only_bind; [apply only_when; repeat only_step | intros _].
  apply only_bind_done.
  - apply only_runPreDeployTask; intros; intros p; discriminate.
  - intros a Hdone. exfalso. exact (Hstop siteConfig a Hsite Hdone).
Qed.

(** C8: on a zip deploy in which no task is accepted as the pre-deploy task,
    a task name taken from the preDeployTask setting makes
    [runPreDeployTask], and with it the deployment, throw with nothing
    uploaded; a task name inferred from the project language only puts the
    warning on the output channel, after which the folder is uploaded. *)
Theorem missing_preDeployTask_blocks_only_when_configured :
  forall (env : Env) (node : SlotTreeItemBase) (confirm : bool)
         (language : ProjectLanguage) (runtime : ProjectRuntime)
         (deployFsPath workspaceFsPath : string)
         (siteConfig : SiteConfigResource) (tasks : list TaskObject) (taskName : string),
    getSiteConfig env = Resolved siteConfig ->
    isZipDeploy siteConfig = true ->
    (confirm = true ->
     exists button, showWarningMessage env (confirmDeploy node) = Resolved button) ->
    fetchTasks env = Resolved tasks ->
    noPreDeployTask env taskName deployFsPath tasks ->
    let run := runPreDeployTask env deployFsPath language true runtime in
    let all := confirmAndDeploy env node confirm language runtime
                                deployFsPath workspaceFsPath in
    (preDeployTaskOf env deployFsPath = Some taskName ->
     taskName <> "" ->
     outcome run = Threw (NewErrorLines (messageLines env true taskName))
     /\ outcome all = Threw (NewErrorLines (messageLines env true taskName))
     /\ only notUpload all)
    /\ (truthy (preDeployTaskOf env deployFsPath) = false ->
        inferredTaskName env language runtime = Some taskName ->
        run = (Done tt,
               [ SetTelemetry "preDeployTask" taskName; FetchTasks;
                 SetTelemetry "foundPreDeployTask" "false";
                 OutputShow; AppendLine (messageLines env false taskName) ])
        /\ In (AppServiceDeploy deployFsPath) (effects all)).
Proof.
  intros env node confirm language runtime deployFsPath workspaceFsPath
         siteConfig tasks taskName Hsite Hzip Hanswer Hfetch Hnone run all.
  destruct (confirmAndDeploy_confirmed env node confirm language runtime
              deployFsPath workspaceFsPath siteConfig Hsite) as [shown Hall].
  { intros Hprompt. apply Hanswer. now destruct confirm. }
  rewrite Hzip in Hall.
  assert (Hgit : strictEquals (valueOfField (scmType siteConfig))
                              (VString ScmType.LocalGit) = false).
  { rewrite isZipDeploy_unless_LocalGit in Hzip. now apply negb_true_iff in Hzip. }
  rewrite Hgit in Hall.
  split.
  - intros Hset Hne.
    pose proof (runPreDeployTask_missing_configured env deployFsPath language runtime
                  tasks taskName Hset Hne Hfetch Hnone) as Hrun.
    fold run in Hrun. split; [now rewrite Hrun|]. split.
    + subst all. rewrite Hall. fold run. rewrite Hrun. reflexivity.
    + apply confirmAndDeploy_stops_before_upload.
      intros siteConfig' a Hsite'.
      assert (siteConfig' = siteConfig) by congruence. subst siteConfig'.
      rewrite Hzip. fold run. rewrite Hrun. discriminate.
  - intros Hset Hinf.
    pose proof (runPreDeployTask_missing_inferred env deployFsPath language runtime
                  tasks taskName Hset Hinf Hfetch Hnone) as Hrun.
    fold run in Hrun. split; [exact Hrun|].
    subst all. rewrite Hall. fold run. rewrite Hrun.
    rewrite effects_bind. apply in_or_app. right. simpl outcome. cbv iota beta.
    rewrite effects_bind. simpl outcome. cbv iota beta.
    apply in_or_app. right.
    rewrite effects_bind.
    rewrite (deploying_not_java env node language deployFsPath
               (inferredTaskName_not_java env language runtime taskName Hinf)).
    apply in_or_app. left. left. reflexivity.
Qed.

Lemma missing_preDeployTask_blocks_only_when_configured_witness :
  (let env := Samples.deployEnv (Some "publish") [Samples.buildTask] [] None in
   noPreDeployTask env "publish" "/w/app" [Samples.buildTask]
   /\ outcome (confirmAndDeploy env Samples.site true CSharp v2 "/w/app" "/w")
      = Threw (NewErrorLines (messageLines env true "publish")))
  /\ (let env := Samples.deployEnv None [Samples.buildTask] [] None in
      noPreDeployTask env "publish" "/w/app" [Samples.buildTask]
      /\ In (AppServiceDeploy "/w/app")
            (effects (confirmAndDeploy env Samples.site true CSharp v2 "/w/app" "/w"))).
Proof.
  split.
  - intros env.
    assert (Hnone : noPreDeployTask env "publish" "/w/app" [Samples.buildTask]).
    { repeat constructor. }
    split; [exact Hnone|].
    refine (proj1 (proj2 (proj1
      (missing_preDeployTask_blocks_only_when_configured
         env Samples.site true CSharp v2 "/w/app" "/w" (mkSiteConfig 7 None)
         [Samples.buildTask] "publish" eq_refl eq_refl _ eq_refl Hnone) eq_refl _))).
    + intros _. exists "Deploy". reflexivity.
    + discriminate.
  - intros env.
    assert (Hnone : noPreDeployTask env "publish" "/w/app" [Samples.buildTask]).
    { repeat constructor. }
    split; [exact Hnone|].
    refine (proj2 (proj2
      (missing_preDeployTask_blocks_only_when_configured
         env Samples.site true CSharp v2 "/w/app" "/w" (mkSiteConfig 7 None)
         [Samples.buildTask] "publish" eq_refl eq_refl _ eq_refl Hnone) eq_refl eq_refl)).
    intros _. exists "Deploy". reflexivity.
Defined.

(** The whole command on a GitHub site, with the target node given: the
    prompt is shown, the publish task is run as for a zip deploy, and the
    folder is uploaded. *)
Example deploy_to_GitHub_site :
  deploy (Samples.deployEnv None [Samples.publishTask]
            [(2500, DidEndTaskProcess Samples.publishTask 0)] (Some "GitHub"))
         (TargetNode (Some Samples.site)) None
  = (Done tt,
     [ SetProjectLanguage CSharp; SetProjectRuntime v2; GetSiteConfig;
       SetTelemetry "cancelStep" "confirmDestructiveDeployment";
       ShowWarningMessage (confirmDeploy Samples.site) true ["Deploy"; "Cancel"];
       SetTelemetry "cancelStep" "";
       SetTelemetry "preDeployTask" "publish"; FetchTasks;
       SetTelemetry "foundPreDeployTask" "true";
       ExecuteTask Samples.publishTask;
       AppServiceDeploy "/w/app";
       AppendLine [localize "deployComplete" "Deployment to '{0}' completed." ["app"]];
       ShowInformationMessage
         (localize "deployComplete" "Deployment to '{0}' completed." ["app"]);
       ListHttpTriggerUrls ]).
Proof. reflexivity. Qed.

(** ** When the prompt is shown, and what a refusal does *)

Lemma only_deploying (P : Effect -> Prop) (env : Env) node language deployFsPath :
  (forall lines, P (AppendLine lines)) -> P ClientStop -> P ClientStart ->
  P (AppServiceDeploy deployFsPath) ->
  only P (deploying env node language deployFsPath).
Proof.
  intros Hline Hstop Hstart Hup. unfold deploying. apply only_tryFinally.
  - apply only_bind.
    + apply only_when. apply only_bind; [apply only_emit, Hline | intros _].
      apply only_bind; [apply only_emit, Hstop | intros _]. apply only_awaitVoid.
    + intros _. apply only_bind; [apply only_emit, Hup | intros _]. apply only_awaitVoid.
  - apply only_when. apply only_bind; [apply only_emit, Hline | intros _].
    apply only_bind; [apply only_emit, Hstart | intros _]. apply only_awaitVoid.
Qed.

Lemma isZipDeploy_iff (siteConfig : SiteConfigResource) :
  isZipDeploy siteConfig = true <-> scmType siteConfig <> Some ScmType.LocalGit.
Proof.
  rewrite isZipDeploy_unless_LocalGit, negb_true_iff.
  destruct (scmType siteConfig) as [scm|]; simpl.
  - rewrite String.eqb_neq. split; congruence.
  - split; [discriminate | reflexivity].
Qed.

(** The prompt is shown exactly when the site configuration arrives, the
    target node was not created during the pick, and scmType is not
    LocalGit. *)
Lemma confirmAndDeploy_prompt_iff (env : Env) node confirm language runtime
    deployFsPath workspaceFsPath :
  In (ShowWarningMessage (confirmDeploy node) true ["Deploy"; "Cancel"])
     (effects (confirmAndDeploy env node confirm language runtime
                                deployFsPath workspaceFsPath))
  <-> exists siteConfig,
        getSiteConfig env = Resolved siteConfig
        /\ confirm = true
        /\ scmType siteConfig <> Some ScmType.LocalGit.
Proof.
  split.
  - intros Hin.
    destruct (getSiteConfig env) as [siteConfig|e] eqn:Hsite.
    + exists siteConfig. split; [reflexivity|].
      destruct (confirm && isZipDeploy siteConfig) eqn:Hprompt.
      * apply andb_true_iff in Hprompt as [-> Hzip]. split; [reflexivity|].
        now apply isZipDeploy_iff.
      * exfalso.
        assert (Hnever : only notPrompt
                  (confirmAndDeploy env node confirm language runtime
                                    deployFsPath workspaceFsPath)).
        { unfold confirmAndDeploy.
          apply only_bind; [only_step | intros _].
          apply only_bind_done; [only_step | intros siteConfig' Hdone].
          apply await_done in Hdone.
          assert (siteConfig' = siteConfig) by congruence. subst siteConfig'.
          rewrite Hprompt.
          apply only_bind; [only_step | intros _].
          apply only_bind;
            [apply only_runPreDeployTask; intros; intros ? ? ?; discriminate | intros _].
          apply only_bind;
            [apply only_deploying; intros; intros ? ? ?; discriminate | intros _].
          repeat only_step. }
        unfold only in Hnever. rewrite Forall_forall in Hnever.
        exact (Hnever _ Hin _ _ _ eq_refl).
    + exfalso. revert Hin. unfold confirmAndDeploy. rewrite Hsite. simpl.
      intros [Habs|[]]. discriminate.
  - intros [siteConfig [Hsite [-> Hscm]]]. apply isZipDeploy_iff in Hscm.
    unfold confirmAndDeploy. rewrite Hsite.
    rewrite !effects_bind. simpl outcome. cbv iota beta.
    rewrite effects_bind. simpl outcome. cbv iota beta.
    rewrite Hscm. simpl andb. unfold when.
    rewrite !effects_bind. simpl.
    right. right. left. reflexivity.
Qed.

(** A refused prompt ends the command with nothing uploaded. *)
Lemma confirmAndDeploy_refused (env : Env) node language runtime
    deployFsPath workspaceFsPath siteConfig e :
  getSiteConfig env = Resolved siteConfig ->
  isZipDeploy siteConfig = true ->
  showWarningMessage env (confirmDeploy node) = Rejected e ->
  confirmAndDeploy env node true language runtime deployFsPath workspaceFsPath =
    (Threw e,
     [ GetSiteConfig; SetTelemetry "cancelStep" "confirmDestructiveDeployment";
       ShowWarningMessage (confirmDeploy node) true ["Deploy"; "Cancel"] ]).
Proof.
  intros Hsite Hzip Hrefused. unfold confirmAndDeploy, when.
  rewrite Hsite. simpl. rewrite Hzip, Hrefused. reflexivity.
Qed.

End DeployFacts.

(* ===================================================================== *)
(** * Task providers: properties *)
(* ===================================================================== *)

Module TaskProviderFacts.
Import Vocabulary.

(** ** [src/FuncTaskProvider.ts] *)

Lemma visitFolder_appends (env : FuncTaskProvider.Env) (result : list Task)
    (folder : WorkspaceFolder) :
  FuncTaskProvider.visitFolder env result folder =
    match FuncTaskProvider.getProjectLanguage env (fsPath folder) with
    | Resolved _ => Resolved (result ++ folderTasks env folder)%list
    | Rejected e => Rejected e
    end.
Proof.
  unfold FuncTaskProvider.visitFolder, folderTasks.
  destruct (FuncTaskProvider.getProjectLanguage env (fsPath folder))
    as [[[| | | |other]|]|e];
    simpl; try reflexivity; now rewrite app_nil_r.
Qed.

Lemma provideTasks_flat_map (env : FuncTaskProvider.Env) :
  forall (folders : list WorkspaceFolder) (result tasks : list Task),
    FuncTaskProvider.visitFolders env folders result = Resolved tasks ->
    tasks = (result ++ flat_map (folderTasks env) folders)%list.
Proof.
  induction folders as [|folder folders IH]; intros result tasks Hrun; simpl in Hrun.
  - injection Hrun as <-. simpl. now rewrite app_nil_r.
  - rewrite visitFolder_appends in Hrun.
    destruct (FuncTaskProvider.getProjectLanguage env (fsPath folder)) as [language|e];
      [|discriminate].
    rewrite (IH _ _ Hrun). simpl. now rewrite <- app_assoc.
Qed.

Lemma provideTasks_first_rejection (env : FuncTaskProvider.Env) :
  forall (folders : list WorkspaceFolder) (result : list Task) (e : Error),
    FuncTaskProvider.visitFolders env folders result = Rejected e ->
    exists folder,
      In folder folders
      /\ FuncTaskProvider.getProjectLanguage env (fsPath folder) = Rejected e.
Proof.
  induction folders as [|folder folders IH]; intros result e Hrun; simpl in Hrun.
  - discriminate.
  - rewrite visitFolder_appends in Hrun.
    destruct (FuncTaskProvider.getProjectLanguage env (fsPath folder))
      as [language|e'] eqn:Hlanguage.
    + destruct (IH _ _ Hrun) as [f [Hf Hrejected]]. exists f. simpl. auto.
    + injection Hrun as ->. exists folder. simpl. auto.
Qed.

Lemma provideTasks_detected (env : FuncTaskProvider.Env) :
  forall (folders : list WorkspaceFolder) (result : list Task),
    (forall folder, In folder folders ->
                    exists language,
                      FuncTaskProvider.getProjectLanguage env (fsPath folder)
                        = Resolved language) ->
    exists tasks, FuncTaskProvider.visitFolders env folders result = Resolved tasks.
Proof.
  induction folders as [|folder folders IH]; intros result Hall; simpl; [eauto|].
  rewrite visitFolder_appends.
  destruct (Hall folder (or_introl eq_refl)) as [language ->].
  apply IH. intros f Hf. apply Hall. right. exact Hf.
Qed.

(** ** The provider with [getHostStartTask] *)

Import FuncTaskProviderHost.

Lemma visitFolders_resolved (env : Env) :
  forall folders result tasks,
    visitFolders env folders result = Resolved tasks ->
    tasks = (result ++ flat_map (projectTasks env) folders)%list.
Proof.
  induction folders as [|folder folders IH]; intros result tasks Hrun; simpl in Hrun.
  - injection Hrun as <-. simpl. now rewrite app_nil_r.
  - simpl. unfold projectTasks at 1.
    destruct (isFunctionProject env (fsPath folder)).
    + destruct (getHostStartTask env folder) as [hostStartTask|e]; [|discriminate].
      rewrite (IH _ _ Hrun), <- !app_assoc. reflexivity.
    + exact (IH _ _ Hrun).
Qed.

Lemma visitFolders_rejected (env : Env) :
  forall folders result e,
    visitFolders env folders result = Rejected e ->
    exists folder,
      In folder folders
      /\ isFunctionProject env (fsPath folder) = true
      /\ getHostStartTask env folder = Rejected e.
Proof.
  induction folders as [|folder folders IH]; intros result e Hrun; simpl in Hrun.
  - discriminate.
  - destruct (isFunctionProject env (fsPath folder)) eqn:Hproject.
    + destruct (getHostStartTask env folder) as [hostStartTask|e'] eqn:Hhost.
      * destruct (IH _ _ Hrun) as [f [Hf Hrest]]. exists f. simpl. auto.
      * injection Hrun as ->. exists folder. simpl. auto.
    + destruct (IH _ _ Hrun) as [f [Hf Hrest]]. exists f. simpl. auto.
Qed.

Lemma getHostStartTask_by_language (env : Env) (folder : WorkspaceFolder) :
  projectLanguage env (fsPath folder) <> Some Python ->
  getHostStartTask env folder =
    Resolved (newHostStartTask env folder "func host start"
                (debugEnvironment (projectLanguage env (fsPath folder)))).
Proof.
  intros Hlang. unfold getHostStartTask.
  destruct (projectLanguage env (fsPath folder)) as [[| | | |other]|];
    try reflexivity. congruence.
Qed.

(** C4, as stated, fails.  With [getHostStartTask], a function project
    whose projectLanguage setting is absent still contributes the install
    task and the host-start task.  In [src/FuncTaskProvider.ts], two
    JavaScript folders get different executions because their nodeDebugPort
    settings differ, and no folder gets an install task. *)
Lemma provideTasks_not_by_language_alone :
  (projectLanguage (Samples.hostEnv None) (fsPath Samples.appFolder) = None
   /\ provideTasks (Samples.hostEnv None) (Some [Samples.appFolder]) =
        Resolved
          [ mkTask (mkDefinition "func" "extensions install" None)
                   (ScopeFolder Samples.appFolder) "extensions install" "func"
                   (ProcessExecution "func" ["extensions"; "install"] None) [] false;
            mkTask (mkDefinition "func" "host start" None)
                   (ScopeFolder Samples.appFolder) "host start" "func"
                   (ShellExecution "func host start" None) ["$func-watch"] false ])
  /\ (FuncTaskProvider.getProjectLanguage Samples.portEnv (fsPath Samples.appFolder)
      = FuncTaskProvider.getProjectLanguage Samples.portEnv (fsPath Samples.apiFolder)
      /\ exists tasks,
           FuncTaskProvider.provideTasks Samples.portEnv
             (Some [Samples.appFolder; Samples.apiFolder]) = Resolved tasks
           /\ map execution tasks =
                [ ProcessExecution "func" ["host"; "start"]
                    (Some [("languageWorkers:node:arguments", "--inspect=5858")]);
                  ProcessExecution "func" ["host"; "start"]
                    (Some [("languageWorkers:node:arguments", "--inspect=9229")]) ]).
Proof.
  split; [split; reflexivity|]. split; [reflexivity|].
  eexists. split; reflexivity.
Qed.

(** C4, as amended.  In [src/FuncTaskProvider.ts], when [provideTasks]
    resolves, a folder contributes a task only when a language is detected
    for it, and at most one, the host-start task, whose execution carries
    the folder's nodeDebugPort setting; [provideTasks] rejects only when
    the detection rejects for some folder, and resolves when it rejects for
    none.  With [getHostStartTask], when [provideTasks] resolves, a folder
    contributes tasks exactly when it is a function project: the install
    task, whose execution is the same for every language, and the
    host-start task, whose command and debug environment are fixed by the
    projectLanguage setting when that is not Python; [provideTasks] rejects
    only when [getHostStartTask] does for some function project. *)
Theorem provideTasks_per_folder :
  (forall (env : FuncTaskProvider.Env) (folders : list WorkspaceFolder) (tasks : list Task),
      FuncTaskProvider.provideTasks env (Some folders) = Resolved tasks ->
      tasks = flat_map (folderTasks env) folders)
  /\ (forall (env : FuncTaskProvider.Env) (folders : list WorkspaceFolder) (e : Error),
        FuncTaskProvider.provideTasks env (Some folders) = Rejected e ->
        exists folder,
          In folder folders
          /\ FuncTaskProvider.getProjectLanguage env (fsPath folder) = Rejected e)
  /\ (forall (env : FuncTaskProvider.Env) (folders : list WorkspaceFolder),
        (forall folder, In folder folders ->
                        exists language,
                          FuncTaskProvider.getProjectLanguage env (fsPath folder)
                            = Resolved language) ->
        exists tasks, FuncTaskProvider.provideTasks env (Some folders) = Resolved tasks)
  /\ (forall (env : FuncTaskProvider.Env) (folder : WorkspaceFolder),
        (length (folderTasks env folder) <= 1)%nat
        /\ (FuncTaskProvider.getProjectLanguage env (fsPath folder) = Resolved None ->
            folderTasks env folder = [])
        /\ (FuncTaskProvider.getProjectLanguage env (fsPath folder)
              = Resolved (Some JavaScript) ->
            folderTasks env folder =
              [mkTask (mkDefinition "func" "host start" (Some 5858))
                      (ScopeFolder folder) "host start" "func"
                      (ProcessExecution "func" ["host"; "start"]
                         (Some [("languageWorkers:node:arguments",
                                 "--inspect=" ++ interpolate
                                    (FuncTaskProvider.nodeDebugPort env (fsPath folder)))]))
                      ["$func-watch"] true]))
  /\ (forall (env : Env) (folders : list WorkspaceFolder) (tasks : list Task),
        provideTasks env (Some folders) = Resolved tasks ->
        tasks = flat_map (projectTasks env) folders)
  /\ (forall (env : Env) (folders : list WorkspaceFolder) (e : Error),
        provideTasks env (Some folders) = Rejected e ->
        exists folder,
          In folder folders
          /\ isFunctionProject env (fsPath folder) = true
          /\ getHostStartTask env folder = Rejected e)
  /\ (forall (env : Env) (folder : WorkspaceFolder),
        execution (getExtensionInstallTask env folder)
          = ProcessExecution func ["extensions"; "install"] None)
  /\ (forall (env : Env) (folder : WorkspaceFolder),
        projectLanguage env (fsPath folder) <> Some Python ->
        getHostStartTask env folder =
          Resolved (newHostStartTask env folder "func host start"
                      (debugEnvironment (projectLanguage env (fsPath folder)))))
  /\ (forall env, FuncTaskProvider.provideTasks env None = Resolved [])
  /\ (forall env, provideTasks env None = Resolved []).
Proof.
  split; [|split; [|split; [|split; [|split; [|split; [|split; [|split; [|split]]]]]]]].
  - intros env folders tasks Hrun.
    exact (provideTasks_flat_map env folders [] tasks Hrun).
  - intros env folders e Hrun.
    exact (provideTasks_first_rejection env folders [] e Hrun).
  - intros env folders Hall. exact (provideTasks_detected env folders [] Hall).
  - intros env folder. unfold folderTasks. split; [|split].
    + destruct (FuncTaskProvider.getProjectLanguage env (fsPath folder)) as [language|e];
        [destruct (startsHost language)|]; simpl; lia.
    + intros ->. reflexivity.
    + intros ->. reflexivity.
  - intros env folders tasks Hrun.
    exact (visitFolders_resolved env folders [] tasks Hrun).
  - intros env folders e Hrun. exact (visitFolders_rejected env folders [] e Hrun).
  - reflexivity.
  - intros env folder. apply getHostStartTask_by_language.
  - reflexivity.
  - reflexivity.
Qed.

Lemma provideTasks_per_folder_witness :
  (exists tasks,
      FuncTaskProvider.provideTasks Samples.portEnv
        (Some [Samples.appFolder; Samples.apiFolder]) = Resolved tasks
      /\ tasks = flat_map (folderTasks Samples.portEnv)
                          [Samples.appFolder; Samples.apiFolder])
  /\ projectLanguage (Samples.hostEnv (Some Java)) (fsPath Samples.appFolder) <> Some Python
  /\ getHostStartTask (Samples.hostEnv (Some Java)) Samples.appFolder =
       Resolved
         (mkTask (mkDefinition "func" "host start" None)
                 (ScopeFolder Samples.appFolder) "host start" "func"
                 (ShellExecution "func host start"
                    (Some [("languageWorkers__java__arguments",
                            "-agentlib:jdwp=transport=dt_socket,server=y,suspend=n,address=5005")]))
                 ["$func-watch"] false).
Proof.
  assert (Hlang : projectLanguage (Samples.hostEnv (Some Java)) (fsPath Samples.appFolder)
                  <> Some Python) by discriminate.
  split.
  - eexists. split; [reflexivity|].
    exact (proj1 provideTasks_per_folder Samples.portEnv
             [Samples.appFolder; Samples.apiFolder] _ eq_refl).
  - split; [exact Hlang|].
    exact (proj1 (proj2 (proj2 (proj2 (proj2 (proj2 (proj2 (proj2
             provideTasks_per_folder)))))))
             (Samples.hostEnv (Some Java)) Samples.appFolder Hlang).
Defined.

(** ** The node debug port *)

(** C10: the attach configuration of [getLaunchJson] uses port 5858, the
    port of [funcNodeDebugArgs], and [getHostStartTask] sets exactly
    [funcNodeDebugArgs], under the variable [funcNodeDebugEnvVar], in the
    environment of the host-start task of a JavaScript project. *)
Theorem node_debug_port_agrees :
  forall (names : Names) (configuration : JavaScriptProjectCreator.DebugConfiguration),
    In configuration
       (JavaScriptProjectCreator.configurations
          (JavaScriptProjectCreator.getLaunchJson names)) ->
    JavaScriptProjectCreator.dc_port configuration = 5858
    /\ inspectPort JavaScriptProjectCreator.funcNodeDebugArgs
         = Some (JavaScriptProjectCreator.dc_port configuration)
    /\ forall (env : Env) (folder : WorkspaceFolder),
         projectLanguage env (fsPath folder) = Some JavaScript ->
         exists t arguments,
           getHostStartTask env folder = Resolved t
           /\ execution t =
                ShellExecution "func host start"
                  (Some [(JavaScriptProjectCreator.funcNodeDebugEnvVar, arguments)])
           /\ arguments = JavaScriptProjectCreator.funcNodeDebugArgs
           /\ inspectPort arguments
                = Some (JavaScriptProjectCreator.dc_port configuration).
Proof.
  intros names configuration [<-|[]]. simpl.
  split; [reflexivity|]. split; [reflexivity|].
  intros env folder Hlang. unfold getHostStartTask. rewrite Hlang.
  eexists. eexists. split; [reflexivity|]. simpl. repeat split.
Qed.

Lemma node_debug_port_agrees_witness :
  In (JavaScriptProjectCreator.mkDebugConfiguration
        (localize "azFunc.attachToJavaScriptFunc" "Attach to JavaScript Functions" [])
        "node" "attach" 5858 "runFunctionsHost")
     (JavaScriptProjectCreator.configurations
        (JavaScriptProjectCreator.getLaunchJson Samples.names))
  /\ inspectPort JavaScriptProjectCreator.funcNodeDebugArgs = Some 5858
  /\ (projectLanguage (Samples.hostEnv (Some JavaScript)) (fsPath Samples.appFolder)
        = Some JavaScript
      /\ exists t arguments,
           getHostStartTask (Samples.hostEnv (Some JavaScript)) Samples.appFolder
             = Resolved t
           /\ execution t =
                ShellExecution "func host start"
                  (Some [(JavaScriptProjectCreator.funcNodeDebugEnvVar, arguments)])
           /\ arguments = JavaScriptProjectCreator.funcNodeDebugArgs
           /\ inspectPort arguments = Some 5858).
Proof.
  assert (Hin : In (JavaScriptProjectCreator.mkDebugConfiguration
                      (localize "azFunc.attachToJavaScriptFunc"
                                "Attach to JavaScript Functions" [])
                      "node" "attach" 5858 "runFunctionsHost")
                   (JavaScriptProjectCreator.configurations
                      (JavaScriptProjectCreator.getLaunchJson Samples.names)))
    by (left; reflexivity).
  split; [exact Hin|].
  split; [exact (proj1 (proj2 (node_debug_port_agrees Samples.names _ Hin)))|].
  split; [reflexivity|].
  exact (proj2 (proj2 (node_debug_port_agrees Samples.names _ Hin))
           (Samples.hostEnv (Some JavaScript)) Samples.appFolder eq_refl).
Defined.

End TaskProviderFacts.

(* ===================================================================== *)
(** * The entry point: properties *)
(* ===================================================================== *)

Module ExtensionFacts.
Import Extension Vocabulary.

Lemma distinct_NoDup (l : list string) : distinct l = true -> NoDup l.
Proof.
  induction l as [|x r IH]; simpl; intros Hd; constructor.
  - apply andb_true_iff in Hd as [Hx _]. apply negb_true_iff in Hx.
    intros Hin. assert (existsb (String.eqb x) r = true); [|congruence].
    apply existsb_exists. exists x. split; [exact Hin | apply String.eqb_refl].
  - apply IH. now apply andb_true_iff in Hd as [_ Hr].
Qed.

(** C7: [activate] registers with the host, in the order of
    [extension.ts], a handler for each of the 37 [azureFunctions.*] command
    ids, which are pairwise distinct, so that on a fresh host each id is
    bound to the handler written beside it; it registers the tree data
    provider of the view 'azureFunctionsExplorer' and a task provider for
    the task type 'func', keeps both registrations, the output channel and
    the tree among the subscriptions, and returns the API provider made from
    the empty list. *)
Theorem activate_registers_commands_and_provider :
  forall host : Host,
    let registered :=
      [ ("azureFunctions.selectSubscriptions", ExecuteCommand "azure-account.selectSubscriptions");
        ("azureFunctions.refresh", TreeRefresh);
        ("azureFunctions.pickProcess", Direct pickFuncProcess);
        ("azureFunctions.loadMore", TreeLoadMore);
        ("azureFunctions.openInPortal", Direct openInPortal);
        ("azureFunctions.createFunction", Forwarding createFunction);
        ("azureFunctions.createNewProject", Forwarding createNewProject);
        ("azureFunctions.initProjectForVSCode", Forwarding initProjectForVSCode);
        ("azureFunctions.createFunctionApp", Direct createFunctionApp);
        ("azureFunctions.startFunctionApp", Direct startFunctionApp);
        ("azureFunctions.stopFunctionApp", Direct stopFunctionApp);
        ("azureFunctions.restartFunctionApp", Direct restartFunctionApp);
        ("azureFunctions.deleteFunctionApp", OnContextValue deleteNode ProductionSlotTreeItem);
        ("azureFunctions.deploy", Direct deploy);
        ("azureFunctions.configureDeploymentSource", Direct configureDeploymentSource);
        ("azureFunctions.copyFunctionUrl", Direct copyFunctionUrl);
        ("azureFunctions.startStreamingLogs", Direct startStreamingLogs);
        ("azureFunctions.stopStreamingLogs", Direct stopStreamingLogs);
        ("azureFunctions.deleteFunction", OnContextValue deleteNode FunctionTreeItem);
        ("azureFunctions.appSettings.add", OnContextValue createChildNode AppSettingsTreeItem);
        ("azureFunctions.appSettings.download", Direct downloadAppSettings);
        ("azureFunctions.appSettings.upload", Direct uploadAppSettings);
        ("azureFunctions.appSettings.edit", Direct editAppSetting);
        ("azureFunctions.appSettings.rename", Direct renameAppSetting);
        ("azureFunctions.appSettings.decrypt", Direct decryptLocalSettings);
        ("azureFunctions.appSettings.encrypt", Direct encryptLocalSettings);
        ("azureFunctions.appSettings.delete", OnContextValue deleteNode AppSettingTreeItem);
        ("azureFunctions.debugFunctionAppOnAzure", Direct remoteDebugFunctionApp);
        ("azureFunctions.deleteProxy", OnContextValue deleteNode ProxyTreeItem);
        ("azureFunctions.installOrUpdateFuncCoreTools", Direct installOrUpdateFuncCoreTools);
        ("azureFunctions.uninstallFuncCoreTools", Direct uninstallFuncCoreTools);
        ("azureFunctions.redeploy", Direct redeployDeployment);
        ("azureFunctions.viewDeploymentLogs", Direct viewDeploymentLogs);
        ("azureFunctions.connectToGitHub", Direct connectToGitHub);
        ("azureFunctions.disconnectRepo", Direct disconnectRepo);
        ("azureFunctions.swapSlot", Direct swapSlot);
        ("azureFunctions.createSlot", OnContextValue createChildNode SlotsTreeItem) ] in
    fst (activate host) = ApiProvider []
    /\ commands (snd (activate host)) = (commands host ++ registered)%list
    /\ NoDup (map fst registered)
    /\ length registered = 37%nat
    /\ Forall (fun c => String.prefix "azureFunctions." (fst c) = true) registered
    /\ Forall (fun c => handlerOf (snd (activate emptyHost)) (fst c) = Some (snd c))
              registered
    /\ handlerOf (snd (activate emptyHost)) "azureFunctions.deploy" = Some (Direct deploy)
    /\ handlerOf (snd (activate emptyHost)) "azureFunctions.pickProcess"
         = Some (Direct pickFuncProcess)
    /\ handlerOf (snd (activate emptyHost)) "azureFunctions.copyFunctionUrl"
         = Some (Direct copyFunctionUrl)
    /\ taskProviders (snd (activate host)) = (taskProviders host ++ ["func"])%list
    /\ treeDataProviders (snd (activate host))
         = (treeDataProviders host ++ ["azureFunctionsExplorer"])%list
    /\ subscriptions (snd (activate host))
         = (subscriptions host
            ++ [ OutputChannel "Azure Functions"; Tree;
                 TreeDataProviderRegistration "azureFunctionsExplorer";
                 TaskProviderRegistration "func" ])%list.
Proof.
  intros host registered. subst registered.
  split; [reflexivity|].
  split; [unfold activate, activation; cbn; repeat rewrite <- app_assoc; reflexivity|].
  split; [apply distinct_NoDup; vm_compute; reflexivity|].
  split; [reflexivity|].
  split; [repeat constructor|].
  split; [repeat constructor|].
  split; [reflexivity|]. split; [reflexivity|]. split; [reflexivity|].
  split; [reflexivity|]. split; [reflexivity|].
  unfold activate, activation. cbn. repeat rewrite <- app_assoc. reflexivity.
Qed.

End ExtensionFacts.

(* ===================================================================== *)
(** * The deploy command: further properties *)
(* ===================================================================== *)

Module DeployMoreFacts.
Import Deploy Vocabulary MoreVocabulary DeployFacts.
Local Open Scope deploy_scope.

(** ** Refusals before the site is contacted *)




(** ** A site deployed through LocalGit *)

Lemma only_weaken (P Q : Effect -> Prop) {A} (m : M A) :
  (forall e, P e -> Q e) -> only P m -> only Q m.
Proof. unfold only. intros Himp. apply Forall_impl. exact Himp. Qed.

(** From the fetch of the site configuration on (line 93 of [deploy.ts],
    after the checks of lines 86 to 91, which may warn and ask for any
    site), the command, for a LocalGit site, asks nothing, fetches and runs
    no task (a configured preDeployTask only earns a warning line), and what
    it uploads is the workspace folder, not the deploy folder. *)
Theorem confirmAndDeploy_LocalGit :
  forall (env : Env) (node : SlotTreeItemBase) (confirm : bool)
         (language : ProjectLanguage) (runtime : ProjectRuntime)
         (deployFsPath workspaceFsPath : string) (siteConfig : SiteConfigResource),
    getSiteConfig env = Resolved siteConfig ->
    scmType siteConfig = Some ScmType.LocalGit ->
    only (localGitEffect workspaceFsPath)
         (confirmAndDeploy env node confirm language runtime deployFsPath workspaceFsPath)
    /\ (language <> Java ->
        In (AppServiceDeploy workspaceFsPath)
           (effects (confirmAndDeploy env node confirm language runtime
                                      deployFsPath workspaceFsPath))).
Proof.
  intros env node confirm language runtime deployFsPath workspaceFsPath siteConfig
         Hsite Hscm.
  assert (Hgit : strictEquals (valueOfField (scmType siteConfig))
                              (VString ScmType.LocalGit) = true)
    by (rewrite Hscm; reflexivity).
  assert (Hzip : isZipDeploy siteConfig = false)
    by (rewrite isZipDeploy_unless_LocalGit, Hgit; reflexivity).
  assert (Hpre : forall e,
             In e (effects (runPreDeployTask env deployFsPath language false runtime)) ->
             exists lines, e = AppendLine lines).
  { unfold runPreDeployTask. simpl negb. cbv iota.
    destruct (preDeployTaskOf env deployFsPath) as [taskName|]; [|intros e []].
    destruct (truthy (Some taskName)); simpl; [|intros e []].
    intros e [<-|[]]. eauto. }
  assert (Hrun : outcome (runPreDeployTask env deployFsPath language false runtime) = Done tt).
  { unfold runPreDeployTask. simpl negb. cbv iota.
    destruct (preDeployTaskOf env deployFsPath) as [taskName|]; [|reflexivity].
    destruct (truthy (Some taskName)); reflexivity. }
  split.
  - unfold confirmAndDeploy.
    apply only_bind; [apply only_emit; repeat split; intros; discriminate | intros _].
    apply only_bind_done; [apply only_await | intros siteConfig' Hdone].
    apply await_done in Hdone.
    assert (siteConfig' = siteConfig) by congruence. subst siteConfig'.
    rewrite Hzip, andb_false_r, Hgit.
    apply only_bind; [apply only_ret | intros _].
    apply only_bind.
    { unfold only. apply Forall_forall. intros e Hin.
      destruct (Hpre e Hin) as [lines ->]. repeat split; intros; discriminate. }
    intros _. apply only_bind.
    { apply only_deploying; repeat split; intros; try discriminate. congruence. }
    intros _.
    apply only_bind; [apply only_emit; repeat split; intros; discriminate | intros _].
    apply only_bind; [apply only_emit; repeat split; intros; discriminate | intros _].
    apply only_bind; [apply only_emit; repeat split; intros; discriminate | intros _].
    apply only_awaitVoid.
  - intros Hlang.
    destruct (confirmAndDeploy_confirmed env node confirm language runtime
                deployFsPath workspaceFsPath siteConfig Hsite) as [shown Hall].
    { rewrite Hzip, andb_false_r. discriminate. }
    rewrite Hall, Hzip, Hgit.
    rewrite effects_bind. apply in_or_app. right. simpl outcome. cbv iota beta.
    rewrite effects_bind. apply in_or_app. right. rewrite Hrun.
    rewrite effects_bind. apply in_or_app. left.
    rewrite (deploying_not_java env node language workspaceFsPath Hlang).
    left. reflexivity.
Qed.

Lemma confirmAndDeploy_LocalGit_witness :
  getSiteConfig (Samples.deployEnv (Some "publish") [Samples.publishTask] []
                   (Some "LocalGit"))
    = Resolved (mkSiteConfig 7 (Some "LocalGit"))
  /\ CSharp <> Java
  /\ In (AppServiceDeploy "/w")
        (effects (confirmAndDeploy
                    (Samples.deployEnv (Some "publish") [Samples.publishTask] []
                       (Some "LocalGit"))
                    Samples.site true CSharp v2 "/w/app" "/w")).
Proof.
  assert (Hlang : CSharp <> Java) by discriminate.
  split; [reflexivity|]. split; [exact Hlang|].
  exact (proj2 (confirmAndDeploy_LocalGit
                  (Samples.deployEnv (Some "publish") [Samples.publishTask] []
                     (Some "LocalGit"))
                  Samples.site true CSharp v2 "/w/app" "/w"
                  (mkSiteConfig 7 (Some "LocalGit")) eq_refl eq_refl) Hlang).
Defined.

(** ** A pre-deploy task that fails *)

Lemma awaitTaskEnd_at_first_end (preDeployTask t : TaskObject) (exitCode time : Z)
    (pre post : History) :
  Forall (fun e => endsTask preDeployTask (snd e) = false) pre ->
  sameObject t preDeployTask = true ->
  awaitTaskEnd preDeployTask (pre ++ (time, DidEndTaskProcess t exitCode) :: post)%list =
    Some (if exitCode =? 0 then Resolved tt else Rejected (preDeployTaskFailed t exitCode)).
Proof.
  intros Hpre Hsame. unfold awaitTaskEnd.
  rewrite map_app, fold_left_app.
  assert (Hquiet : fold_left (onEvent preDeployTask) (map snd pre) (mkEndWait None true)
                   = mkEndWait None true).
  { induction Hpre as [|[time' ev] pre Hev _ IH]; simpl; [reflexivity|].
    destruct ev as [t' processId | t' exitCode']; simpl in *; [exact IH|].
    rewrite Hev. exact IH. }
  rewrite Hquiet. simpl. rewrite Hsame. simpl.
  now apply awaitTaskEnd_settled.
Qed.

(** When the pre-deploy task was found and started and the first report of
    its end carries a nonzero exit code, [runPreDeployTask] throws the
    task-failure error and the command uploads nothing. *)
Theorem failed_preDeployTask_blocks_upload :
  forall (env : Env) (node : SlotTreeItemBase) (confirm : bool)
         (language : ProjectLanguage) (runtime : ProjectRuntime)
         (deployFsPath workspaceFsPath : string) (siteConfig : SiteConfigResource)
         (tasks : list TaskObject) (taskName : string) (preDeployTask t : TaskObject)
         (pre post : History) (time exitCode : Z),
    getSiteConfig env = Resolved siteConfig ->
    isZipDeploy siteConfig = true ->
    (if truthy (preDeployTaskOf env deployFsPath)
     then preDeployTaskOf env deployFsPath
     else inferredTaskName env language runtime) = Some taskName ->
    fetchTasks env = Resolved tasks ->
    List.find (isPreDeployTask env taskName deployFsPath) tasks = Some preDeployTask ->
    executeTask env preDeployTask = None ->
    taskEvents env = (pre ++ (time, DidEndTaskProcess t exitCode) :: post)%list ->
    Forall (fun e => endsTask preDeployTask (snd e) = false) pre ->
    sameObject t preDeployTask = true ->
    exitCode <> 0 ->
    outcome (runPreDeployTask env deployFsPath language true runtime)
      = Threw (preDeployTaskFailed t exitCode)
    /\ only notUpload
            (confirmAndDeploy env node confirm language runtime
                              deployFsPath workspaceFsPath).
Proof.
  intros env node confirm language runtime deployFsPath workspaceFsPath siteConfig
         tasks taskName preDeployTask t pre post time exitCode
         Hsite Hzip Hname Hfetch Hfind Hexec Hevents Hpre Hsame Hcode.
  assert (Hrun : outcome (runPreDeployTask env deployFsPath language true runtime)
                 = Threw (preDeployTaskFailed t exitCode)).
  { rewrite (runPreDeployTask_found env deployFsPath language runtime tasks taskName
               preDeployTask Hname Hfetch Hfind Hexec).
    rewrite Hevents, (awaitTaskEnd_at_first_end _ _ _ _ _ _ Hpre Hsame).
    apply Z.eqb_neq in Hcode. now rewrite Hcode. }
  split; [exact Hrun|].
  apply confirmAndDeploy_stops_before_upload.
  intros siteConfig' a Hsite'.
  assert (siteConfig' = siteConfig) by congruence. subst siteConfig'.
  rewrite Hzip, Hrun. discriminate.
Qed.

Lemma failed_preDeployTask_blocks_upload_witness :
  let env := Samples.deployEnv None [Samples.buildTask; Samples.publishTask]
               MoreSamples.publishFails None in
  Forall (fun e => endsTask Samples.publishTask (snd e) = false)
         [(800, DidEndTaskProcess Samples.buildTask 0)]
  /\ outcome (runPreDeployTask env "/w/app" CSharp true v2)
       = Threw (preDeployTaskFailed Samples.publishTask 1)
  /\ only notUpload (confirmAndDeploy env Samples.site true CSharp v2 "/w/app" "/w").
Proof.
  intros env.
  assert (Hpre : Forall (fun e => endsTask Samples.publishTask (snd e) = false)
                        [(800, DidEndTaskProcess Samples.buildTask 0)])
    by (repeat constructor).
  split; [exact Hpre|].
  refine (failed_preDeployTask_blocks_upload env Samples.site true CSharp v2
            "/w/app" "/w" (mkSiteConfig 7 None)
            [Samples.buildTask; Samples.publishTask] "publish" Samples.publishTask
            Samples.publishTask [(800, DidEndTaskProcess Samples.buildTask 0)] []
            2500 1 eq_refl eq_refl eq_refl eq_refl eq_refl eq_refl eq_refl Hpre eq_refl _).
  discriminate.
Defined.

(** ** Which node is deployed to without asking *)

(** The confirmation is stifled only for a node that was created while this
    command was choosing it: never for a node passed to the command, and
    never unless one of the created nodes has the chosen node's id. *)
Theorem confirmation_stifled_only_for_created_node :
  forall (env : Env) (target : Target) (functionAppId : option string)
         (deployFsPath workspaceFsPath : string) (node : SlotTreeItemBase)
         (newNodes : list SlotTreeItemBase),
    outcome (chooseTarget env target functionAppId)
      = Done (deployFsPath, workspaceFsPath, node, newNodes) ->
    confirmDeployment newNodes (Some node) = false ->
    (forall given, target <> TargetNode (Some given))
    /\ exists created, In created (createdNodes env) /\ fullId created = fullId node.
Proof.
  intros env target functionAppId deployFsPath workspaceFsPath node newNodes
         Hchosen Hstifled.
  unfold confirmDeployment in Hstifled. apply negb_false_iff in Hstifled.
  apply existsb_exists in Hstifled as [created [Hin Hid]].
  apply String.eqb_eq in Hid.
  assert (Hnew : newNodes = createdNodes env /\ forall given, target <> TargetNode (Some given)).
  { revert Hchosen. unfold chooseTarget.
    rewrite !outcome_bind.
    destruct (outcome (await _)) as [p| |]; try discriminate.
    rewrite outcome_bind.
    destruct (outcome (await (ensureFolderIsOpen env p))) as [w| |]; try discriminate.
    assert (Hpick :
      outcome (if negb (truthy functionAppId)
               then n <- await (showTreeItemPicker env) ;;
                    ret (p, w, n, createdNodes env)
               else functionAppNode <- await (findTreeItem env
                                        (match functionAppId with Some i => i | None => "" end)) ;;
                    match functionAppNode with
                    | Some n => ret (p, w, n, createdNodes env)
                    | None =>
                        throw (NewError (localize "noMatchingFunctionApp"
                                 "Failed to find a function app matching id '{0}'."
                                 [match functionAppId with Some i => i | None => "" end]))
                    end)
        = Done (deployFsPath, workspaceFsPath, node, newNodes) ->
      newNodes = createdNodes env).
    { destruct (negb (truthy functionAppId)); rewrite outcome_bind.
      - destruct (outcome (await (showTreeItemPicker env))); simpl; congruence.
      - destruct (outcome (await (findTreeItem env _))) as [[n|]| |]; simpl; congruence. }
    destruct target as [u | u | [given|]]; intros Hdone.
    - split; [now apply Hpick | discriminate].
    - split; [now apply Hpick | discriminate].
    - simpl in Hdone. injection Hdone as _ _ _ <-. destruct Hin.
    - split; [now apply Hpick | discriminate]. }
  destruct Hnew as [-> Htarget]. split; [exact Htarget|]. eauto.
Qed.

Lemma confirmation_stifled_only_for_created_node_witness :
  outcome (chooseTarget MoreSamples.pythonEnv (TargetString "/w/app") None)
    = Done ("/w/app", "/w/app", Samples.site, [Samples.site])
  /\ confirmDeployment [Samples.site] (Some Samples.site) = false
  /\ exists created,
       In created (createdNodes MoreSamples.pythonEnv)
       /\ fullId created = fullId Samples.site.
Proof.
  split; [reflexivity|]. split; [reflexivity|].
  exact (proj2 (confirmation_stifled_only_for_created_node MoreSamples.pythonEnv
                  (TargetString "/w/app") None "/w/app" "/w/app" Samples.site
                  [Samples.site] eq_refl eq_refl)).
Defined.

(** ** The error a Java deployment reports *)

(** For a Java project the callback reports the error of [client.start] if
    it throws, whatever happened before; otherwise the error of
    [client.stop], in which case nothing was uploaded; otherwise the error
    of the upload. *)
Theorem deploying_java_reports :
  forall (env : Env) (node : SlotTreeItemBase) (deployFsPath : string),
    outcome (deploying env node Java deployFsPath) =
      match clientStart env, clientStop env, appserviceDeploy env deployFsPath with
      | Some e, _, _ => Threw e
      | None, Some e, _ => Threw e
      | None, None, Some e => Threw e
      | None, None, None => Done tt
      end.
Proof.
  intros env node deployFsPath. unfold deploying. simpl.
  destruct (clientStop env), (appserviceDeploy env deployFsPath), (clientStart env);
    reflexivity.
Qed.

End DeployMoreFacts.

(* ===================================================================== *)
(** * The pickProcess command: further properties *)
(* ===================================================================== *)

Module PickProcessMoreFacts.
Import PickFuncProcess StartFuncTask Vocabulary MoreVocabulary.

(** ** Process ids as strings *)

Lemma Number_toString (n : Z) : Number (toString n) = Some n.
Proof.
  unfold Number, toString.
  rewrite NilZero.isi.
  - simpl. now rewrite DecimalZ.of_to.
  - destruct n; simpl; try discriminate.
    intros H. injection H as H. exact (DecimalPos.Unsigned.to_uint_nonnil _ H).
  - destruct n; simpl; try discriminate.
    intros H. injection H as H. exact (DecimalPos.Unsigned.to_uint_nonnil _ H).
Qed.

(** ** Events after the timer *)

Lemma deliver_before_timer (isFuncHostTask : Task -> bool) (timeoutError : Error)
    (delay cut : Z) :
  delay <= cut ->
  forall h w,
    promise (deliver isFuncHostTask timeoutError delay false w h) =
    promise (deliver isFuncHostTask timeoutError delay false w (beforeTimer cut h)).
Proof.
  intros Hcut. induction h as [|[time ev] h IH]; intros w; [reflexivity|].
  assert (Hfired : forall rest rest',
    promise (deliver isFuncHostTask timeoutError delay true
               (onEvent isFuncHostTask
                  (onTimer timeoutError w) ev) rest) =
    promise (deliver isFuncHostTask timeoutError delay true
               (onEvent isFuncHostTask
                  (onTimer timeoutError w) ev) rest')).
  { intros rest rest'.
    assert (Hsettled : exists c, promise (onTimer timeoutError w) = Some c)
      by (simpl; destruct (promise w); simpl; eauto).
    destruct Hsettled as [c Hc].
    rewrite !(StartFuncTaskFacts.deliver_settled isFuncHostTask timeoutError _ c);
      try reflexivity;
      now apply StartFuncTaskFacts.onEvent_settled. }
  cbn [beforeTimer].
  destruct (Z.ltb_spec time cut) as [Hearly|Hlate].
  - cbn [deliver negb andb].
    destruct (delay <=? time); [apply Hfired | apply IH].
  - cbn [deliver negb andb].
    assert (Hdue : (delay <=? time) = true) by (apply Z.leb_le; lia).
    rewrite Hdue.
    assert (Hsettled : exists c, promise (onTimer timeoutError w) = Some c)
      by (simpl; destruct (promise w); simpl; eauto).
    destruct Hsettled as [c Hc].
    rewrite (StartFuncTaskFacts.deliver_settled isFuncHostTask timeoutError _ c);
      [symmetry; exact Hc | now apply StartFuncTaskFacts.onEvent_settled].
Qed.

(** What is delivered once the timer is due has no influence on
    [startFuncTask]: its outcome is that of the events delivered before the
    delay the timer has; and for a timeout of at least 1 ms, the events
    from [timeoutInSeconds * 1000] ms on have no influence either. *)
Theorem startFuncTask_ignores_late_events :
  forall (isFuncHostTask : Task -> bool) (timeoutError : Error)
         (executeTask : option Error) (timeoutInSeconds : Z) (h : History),
    startFuncTask isFuncHostTask timeoutError executeTask timeoutInSeconds h =
    startFuncTask isFuncHostTask timeoutError executeTask timeoutInSeconds
                  (beforeTimer (setTimeoutDelay (timeoutInSeconds * 1000)) h)
    /\ (1 <= timeoutInSeconds * 1000 ->
        startFuncTask isFuncHostTask timeoutError executeTask timeoutInSeconds h =
        startFuncTask isFuncHostTask timeoutError executeTask timeoutInSeconds
                      (beforeTimer (timeoutInSeconds * 1000) h)).
Proof.
  intros isFuncHostTask timeoutError executeTask timeoutInSeconds h.
  unfold startFuncTask, waitForStartPromise.
  destruct executeTask; [split; reflexivity|]. split.
  - apply deliver_before_timer. lia.
  - intros Hlow. apply deliver_before_timer.
    unfold setTimeoutDelay.
    destruct ((1 <=? timeoutInSeconds * 1000)
              && (timeoutInSeconds * 1000 <=? TIMEOUT_MAX)); lia.
Qed.

(** ** How often the process tree is fetched *)

Lemma pollLoop_agree (wpt wpt' : IWindowsProcessTree) (pid : string)
    (now0 span : Z) (timeoutError : Error) :
  (forall k, 500 * Z.of_nat k < span ->
             getProcessTree wpt (Number pid) k = getProcessTree wpt' (Number pid) k) ->
  (forall k, fetchLatency wpt k = fetchLatency wpt' k) ->
  (forall k, timerSlack wpt k = timerSlack wpt' k) ->
  forall fuel k now,
    now0 + 500 * Z.of_nat k <= now ->
    pollLoop wpt pid (now0 + span) timeoutError fuel k now =
    pollLoop wpt' pid (now0 + span) timeoutError fuel k now.
Proof.
  intros Htree Hlat Hslack.
  induction fuel as [|fuel IH]; intros k now Hnow; simpl; [reflexivity|].
  destruct (Z.ltb_spec now (now0 + span)) as [Hearly|Hlate]; [|reflexivity].
  rewrite <- Htree by lia.
  destruct (getProcessTree wpt (Number pid) k) as [psTree|]; [|reflexivity].
  destruct (isFuncLeaf (firstChildLeaf psTree)); [reflexivity|].
  rewrite <- Hlat, <- Hslack. apply IH. lia.
Qed.

(** The tree is fetched at most once per 500 ms of the timeout: the result
    does not depend on what a fetch numbered [k] with
    [500 * k >= timeoutInSeconds * 1000] would answer. *)
Theorem getInnermostWindowsPid_fetches_within_timeout :
  forall (wpt wpt' : IWindowsProcessTree) (now0 : Z) (pid : string)
         (timeoutInSeconds : Z) (timeoutError : Error),
    (forall k, 500 * Z.of_nat k < timeoutInSeconds * 1000 ->
               getProcessTree wpt (Number pid) k = getProcessTree wpt' (Number pid) k) ->
    (forall k, fetchLatency wpt k = fetchLatency wpt' k) ->
    (forall k, timerSlack wpt k = timerSlack wpt' k) ->
    getInnermostWindowsPid (Some wpt) now0 pid timeoutInSeconds timeoutError =
    getInnermostWindowsPid (Some wpt') now0 pid timeoutInSeconds timeoutError.
Proof.
  intros wpt wpt' now0 pid timeoutInSeconds timeoutError Htree Hlat Hslack.
  unfold getInnermostWindowsPid.
  apply pollLoop_agree; try assumption. simpl. lia.
Qed.

Lemma getInnermostWindowsPid_fetches_within_timeout_witness :
  (forall k, 500 * Z.of_nat k < 5 * 1000 ->
             getProcessTree Samples.slowStart (Number "100") k
             = getProcessTree MoreSamples.slowStartThenGone (Number "100") k)
  /\ getInnermostWindowsPid (Some Samples.slowStart) 0 "100" 5 Samples.timedOut =
     getInnermostWindowsPid (Some MoreSamples.slowStartThenGone) 0 "100" 5
                            Samples.timedOut.
Proof.
  assert (Htree : forall k, 500 * Z.of_nat k < 5 * 1000 ->
             getProcessTree Samples.slowStart (Number "100") k
             = getProcessTree MoreSamples.slowStartThenGone (Number "100") k).
  { intros k Hk. do 10 (destruct k as [|k]; [reflexivity|]). lia. }
  split; [exact Htree|].
  apply (getInnermostWindowsPid_fetches_within_timeout
           Samples.slowStart MoreSamples.slowStartThenGone 0 "100" 5 Samples.timedOut
           Htree); intros k; reflexivity.
Defined.

(** ** The command on Unix, end to end *)

(** On a machine that is not Windows, when the core tools are there, a
    functions-host task exists, the timeout setting is a number and the host
    task reports its start before the timer of [startFuncTask] is due
    with no failure before it, the command asks ps-tree about exactly the process id of that start
    event and answers the PID of the last descendant listed, or that process
    id itself when none is listed. *)
Theorem pickFuncProcess_on_unix :
  forall (env : PickProcessCommand.Env) (tasks : list TaskObject) (funcTask t : TaskObject)
         (timeoutInSeconds time processId : Z) (pre post : History),
    PickProcessCommand.validateFuncCoreToolsInstalled env
      = PickProcessCommand.Settled (Resolved true) ->
    PickProcessCommand.stopFuncHostPromise env = PickProcessCommand.Settled None ->
    PickProcessCommand.fetchTasks env = PickProcessCommand.Settled (Resolved tasks) ->
    List.find (fun t => PickProcessCommand.isFuncHostTask env (task t)) tasks
      = Some funcTask ->
    PickProcessCommand.pickProcessTimeout env = Some timeoutInSeconds ->
    PickProcessCommand.executeTask env = PickProcessCommand.Settled None ->
    PickProcessCommand.taskEvents env
      = (pre ++ (time, DidStartTaskProcess t processId) :: post)%list ->
    quietBefore (PickProcessCommand.isFuncHostTask env)
                (setTimeoutDelay (timeoutInSeconds * 1000)) pre ->
    time < setTimeoutDelay (timeoutInSeconds * 1000) ->
    PickProcessCommand.isFuncHostTask env (task t) = true ->
    PickProcessCommand.isWindows env = false ->
    match PickProcessCommand.unixPsTree env (Some processId) with
    | PickProcessCommand.Settled (Some e, _) =>
        PickProcessCommand.pickFuncProcess env = Some (Rejected e)
    | PickProcessCommand.Settled (None, children) =>
        PickProcessCommand.pickFuncProcess env
          = Some (Resolved (List.last (map PID children) (toString processId)))
    | PickProcessCommand.Pending =>
        PickProcessCommand.pickFuncProcess env = None
    end.
Proof.
  intros env tasks funcTask t timeoutInSeconds time processId pre post
         Hvalid Hstop Hfetch Hfind Htimeout Hexec Hevents Hquiet Htime Hhost Hunix.
  unfold PickProcessCommand.pickFuncProcess.
  rewrite Hvalid, Hstop, Hfetch, Hfind, Htimeout, Hexec, Hevents, Hunix. cbv zeta.
  unfold startFuncTask, waitForStartPromise.
  rewrite (StartFuncTaskFacts.deliver_quiet _ _ _ pre _ initial Hquiet). simpl deliver.
  apply Z.leb_gt in Htime. rewrite Htime. simpl negb. simpl andb. cbv iota.
  rewrite (StartFuncTaskFacts.deliver_settled _ _ _ (Resolved (toString processId))).
  - unfold getInnermostUnixPid, parseInt. rewrite Number_toString.
    destruct (PickProcessCommand.unixPsTree env (Some processId))
      as [[[e|] children]|]; [reflexivity| |reflexivity].
    f_equal. unfold pop.
    induction children as [|c [|c' children] IH]; try reflexivity.
    change (last (map Some (c :: c' :: children)) None)
      with (last (map Some (c' :: children)) None).
    change (last (map PID (c :: c' :: children)) (toString processId))
      with (last (map PID (c' :: children)) (toString processId)).
    exact IH.
  - simpl. now rewrite Hhost.
Qed.

Lemma pickFuncProcess_on_unix_witness :
  quietBefore (PickProcessCommand.isFuncHostTask MoreSamples.unixEnv)
              (setTimeoutDelay (60 * 1000))
              [(150, DidEndTaskProcess Samples.buildTask 0)]
  /\ 900 < setTimeoutDelay (60 * 1000)
  /\ PickProcessCommand.pickFuncProcess MoreSamples.unixEnv = Some (Resolved "502").
Proof.
  assert (Hq : quietBefore (PickProcessCommand.isFuncHostTask MoreSamples.unixEnv)
                 (setTimeoutDelay (60 * 1000))
                 [(150, DidEndTaskProcess Samples.buildTask 0)]).
  { constructor; [split; reflexivity | constructor]. }
  split; [exact Hq|]. split; [reflexivity|].
  exact (pickFuncProcess_on_unix MoreSamples.unixEnv
           [Samples.buildTask; Samples.hostTask] Samples.hostTask Samples.hostTask
           60 900 500 [(150, DidEndTaskProcess Samples.buildTask 0)] []
           eq_refl eq_refl eq_refl eq_refl eq_refl eq_refl eq_refl Hq eq_refl
           eq_refl eq_refl).
Defined.

End PickProcessMoreFacts.

(* ===================================================================== *)
(** * Traces and dictionaries: lemmas *)
(* ===================================================================== *)

Module RunFacts.
Import Run.
Local Open Scope run_scope.

Section Effects.
Context {E : Type}.

Lemma result_bind {A B} (m : @M E A) (k : A -> M B) :
  result (bind m k) =
    match result m with
    | Returned a => result (k a)
    | Thrown e => Thrown e
    end.
Proof. destruct m as [[a|e] done]; reflexivity. Qed.

Lemma trace_bind {A B} (m : @M E A) (k : A -> M B) :
  trace (bind m k) =
    (trace m ++ match result m with
                | Returned a => trace (k a)
                | Thrown _ => []
                end)%list.
Proof.
  destruct m as [[a|e] done]; simpl; [reflexivity | now rewrite app_nil_r].
Qed.

(** An effect of [bind m k] is an effect of [m], or of [k] run on what [m]
    returned. *)
Lemma in_trace_bind {A B} (m : @M E A) (k : A -> M B) (x : E) :
  In x (trace (bind m k)) <->
  In x (trace m) \/ exists a, result m = Returned a /\ In x (trace (k a)).
Proof.
  rewrite trace_bind, in_app_iff. split.
  - intros [Hm|Hk]; [now left|]. right.
    destruct (result m) as [a|e]; [eauto | destruct Hk].
  - intros [Hm|[a [Hr Hk]]]; [now left|]. right. now rewrite Hr.
Qed.

Lemma await_returned {A} (p : Completion A) (a : A) :
  result (@await E A p) = Returned a -> p = Resolved a.
Proof. destruct p; simpl; congruence. Qed.

Lemma trace_await {A} (p : Completion A) : trace (@await E A p) = [].
Proof. destruct p; reflexivity. Qed.

Lemma trace_awaitVoid (p : option Error) : trace (@awaitVoid E p) = [].
Proof. destruct p; reflexivity. Qed.

Lemma awaitVoid_returned (p : option Error) (u : unit) :
  result (@awaitVoid E p) = Returned u -> p = None.
Proof. destruct p; simpl; congruence. Qed.

Lemma trace_forEach_emit {A} (xs : list A) (f : A -> E) :
  forEach xs (fun x => emit (f x)) = (Returned tt, map f xs).
Proof.
  induction xs as [|x xs IH]; simpl; [reflexivity|]. now rewrite IH.
Qed.
End Effects.

End RunFacts.

Module DictionaryFacts.
Import Dictionary.

Lemma get_delete_same (d : t) (key : string) : get (delete d key) key = None.
Proof.
  induction d as [|[k v] d IH]; simpl; [reflexivity|].
  destruct (String.eqb_spec k key) as [->|Hne]; simpl; [exact IH|].
  apply String.eqb_neq in Hne. now rewrite Hne.
Qed.

Lemma get_delete_other (d : t) (key other : string) :
  other <> key -> get (delete d key) other = get d other.
Proof.
  intros Hne. induction d as [|[k v] d IH]; simpl; [reflexivity|].
  destruct (String.eqb_spec k key) as [->|Hk]; simpl.
  - destruct (String.eqb_spec key other) as [->|_]; [congruence | exact IH].
  - now rewrite IH.
Qed.

Lemma get_set_same (d : t) (key value : string) : get (set d key value) key = Some value.
Proof.
  induction d as [|[k v] d IH]; simpl.
  - now rewrite String.eqb_refl.
  - destruct (String.eqb_spec k key) as [->|Hne]; simpl.
    + now rewrite String.eqb_refl.
    + apply String.eqb_neq in Hne. now rewrite Hne.
Qed.

Lemma get_set_other (d : t) (key value other : string) :
  other <> key -> get (set d key value) other = get d other.
Proof.
  intros Hne. induction d as [|[k v] d IH]; simpl.
  - destruct (String.eqb_spec key other) as [->|_]; [congruence | reflexivity].
  - destruct (String.eqb_spec k key) as [->|Hk]; simpl.
    + destruct (String.eqb_spec key other) as [->|_]; [congruence | reflexivity].
    + now rewrite IH.
Qed.

Lemma get_in_keys (d : t) (key : string) :
  In key (keys d) <-> get d key <> None.
Proof.
  unfold keys. rewrite nodup_In.
  induction d as [|[k v] d IH]; simpl.
  - split; [intros [] | congruence].
  - destruct (String.eqb_spec k key) as [->|Hne].
    + split; [discriminate | now left].
    + rewrite <- IH. split; [intros [Heq|Hin]; [congruence | exact Hin] | now right].
Qed.

End DictionaryFacts.

(* ===================================================================== *)
(** * The helpers of [deploy.ts]: properties *)
(* ===================================================================== *)

Module DeployHelpersFacts.
Import Run DeployHelpers RunFacts DictionaryFacts MoreVocabulary.
Local Open Scope run_scope.

(** ** [verifyWebContentSettings] *)

(** The app settings are written back only for a Linux preview app, only
    after the warning was answered, and then without the two content
    settings and with every other setting as it was listed. *)
Theorem verifyWebContentSettings_removes_only_content_settings :
  forall (env : Env) (node : Deploy.SlotTreeItemBase) (written : Dictionary.t),
    In (UpdateApplicationSettings written) (trace (verifyWebContentSettings env node)) ->
    Deploy.isLinuxPreview node = true
    /\ exists listed answer,
         listApplicationSettings env = Resolved (Some listed)
         /\ showWarningMessage env notConfiguredForDeploy = Resolved answer
         /\ Dictionary.get written WEBSITE_CONTENTAZUREFILECONNECTIONSTRING = None
         /\ Dictionary.get written WEBSITE_CONTENTSHARE = None
         /\ forall key,
              key <> WEBSITE_CONTENTAZUREFILECONNECTIONSTRING ->
              key <> WEBSITE_CONTENTSHARE ->
              Dictionary.get written key = Dictionary.get listed key.
Proof.
  intros env node written. unfold verifyWebContentSettings.
  destruct (Deploy.isLinuxPreview node); [|intros []].
  destruct (listApplicationSettings env) as [[listed|]|e]; simpl;
    try (intros [H|[]]; discriminate).
  destruct (truthy (Dictionary.get listed WEBSITE_CONTENTAZUREFILECONNECTIONSTRING)
            || truthy (Dictionary.get listed WEBSITE_CONTENTSHARE)); simpl;
    try (intros [H|[]]; discriminate).
  destruct (showWarningMessage env notConfiguredForDeploy) as [answer|e]; simpl.
  - intros Hin. split; [reflexivity|]. exists listed, answer.
    split; [reflexivity|]. split; [reflexivity|].
    assert (Hw : written =
              Dictionary.delete
                (Dictionary.delete listed WEBSITE_CONTENTAZUREFILECONNECTIONSTRING)
                WEBSITE_CONTENTSHARE).
    { destruct (updateApplicationSettings env _); simpl in Hin;
        [|destruct (refreshAppSettings env); simpl in Hin];
        repeat (destruct Hin as [Hin|Hin]; try discriminate; try (injection Hin as <-);
                try reflexivity); destruct Hin. }
    subst written. split; [|split].
    + rewrite get_delete_other by discriminate. apply get_delete_same.
    + apply get_delete_same.
    + intros key Hk1 Hk2. now rewrite !get_delete_other.
  - intros Hin. repeat (destruct Hin as [Hin|Hin]; try discriminate). destruct Hin.
Qed.

Lemma verifyWebContentSettings_removes_only_content_settings_witness :
  In (UpdateApplicationSettings
        [ ("FUNCTIONS_EXTENSION_VERSION", "~1");
          ("AzureWebJobsStorage", "UseDevelopmentStorage=true") ])
     (trace (verifyWebContentSettings (MoreSamples.helpersEnv DialogYes)
               MoreSamples.linuxNode))
  /\ Deploy.isLinuxPreview MoreSamples.linuxNode = true.
Proof.
  assert (Hin : In (UpdateApplicationSettings
                      [ ("FUNCTIONS_EXTENSION_VERSION", "~1");
                        ("AzureWebJobsStorage", "UseDevelopmentStorage=true") ])
                   (trace (verifyWebContentSettings (MoreSamples.helpersEnv DialogYes)
                             MoreSamples.linuxNode))).
  { simpl. right. right. right. right. left. reflexivity. }
  split; [exact Hin|].
  exact (proj1 (verifyWebContentSettings_removes_only_content_settings
                  (MoreSamples.helpersEnv DialogYes) MoreSamples.linuxNode _ Hin)).
Defined.

(** ** [verifyRuntimeIsCompatible] *)

Lemma runtime_eqb_eq (a b : ProjectRuntime) : runtime_eqb a b = true <-> a = b.
Proof. destruct a, b; simpl; split; congruence. Qed.

(** The loop over the feed's keys returns, writes only progress lines, and
    leaves each of the keys it visits with its value in the feed. *)
Lemma applyFeedSettings_spec (feed : Dictionary.t) :
  forall keys properties,
  exists after,
    result (applyFeedSettings feed keys properties) = Returned after
    /\ (forall x, In x (trace (applyFeedSettings feed keys properties)) ->
                  exists line, x = AppendLine line)
    /\ forall key,
         Dictionary.get after key =
           if existsb (String.eqb key) keys
           then overriddenBy feed properties key
           else Dictionary.get properties key.
Proof.
  induction keys as [|key0 keys IH]; intros properties; cbn [applyFeedSettings existsb].
  - exists properties. split; [reflexivity|]. split; [intros x []|reflexivity].
  - destruct (Dictionary.get feed key0) as [value|] eqn:Hfeed.
    + destruct (IH (Dictionary.set properties key0 value)) as [after [Hres [Hlines Hget]]].
      exists after. rewrite result_bind. cbn [emit result fst].
      split; [exact Hres|]. split.
      * intros x Hin. apply in_trace_bind in Hin as [Hin|[u [_ Hin]]].
        -- destruct Hin as [<-|[]]. eauto.
        -- now apply Hlines.
      * intros key. rewrite Hget. unfold overriddenBy.
        destruct (String.eqb_spec key key0) as [->|Hne]; simpl.
        -- rewrite Hfeed, get_set_same. now destruct (existsb _ keys).
        -- rewrite get_set_other by exact Hne. reflexivity.
    + destruct (IH properties) as [after [Hres [Hlines Hget]]].
      exists after. split; [exact Hres|]. split; [exact Hlines|].
      intros key. rewrite Hget. unfold overriddenBy.
      destruct (String.eqb_spec key key0) as [->|Hne]; simpl; [|reflexivity].
      rewrite Hfeed. now destruct (existsb _ keys).
Qed.

(** The app settings are written back only when the remote runtime is
    recognised and differs from the local one and the prompt was answered
    with something other than Learn More; what is written then is the listed
    settings with every setting of the CLI feed written over them. *)
Theorem verifyRuntimeIsCompatible_writes_feed_over_site :
  forall (env : Env) (localRuntime : ProjectRuntime) (written : Dictionary.t),
    In (UpdateApplicationSettings written)
       (trace (verifyRuntimeIsCompatible env localRuntime)) ->
    exists listed remote answer feed,
      listApplicationSettings env = Resolved (Some listed)
      /\ convertStringToRuntime env (Dictionary.get listed "FUNCTIONS_EXTENSION_VERSION")
           = Some remote
      /\ remote <> localRuntime
      /\ showWarningMessage env
           (incompatibleRuntime env (Dictionary.get listed "FUNCTIONS_EXTENSION_VERSION")
                                localRuntime)
           = Resolved answer
      /\ answer <> DialogLearnMore
      /\ getCliFeedAppSettings env localRuntime = Resolved feed
      /\ forall key, Dictionary.get written key = overriddenBy feed listed key.
Proof.
  intros env localRuntime written. unfold verifyRuntimeIsCompatible.
  destruct (listApplicationSettings env) as [[listed|]|e]; simpl;
    try (intros [H|[]]; discriminate).
  destruct (convertStringToRuntime env _) as [remote|] eqn:Hremote; simpl;
    try (intros [H|[]]; discriminate).
  destruct (runtime_eqb remote localRuntime) eqn:Hsame; simpl;
    try (intros [H|[]]; discriminate).
  destruct (showWarningMessage env _) as [answer|e] eqn:Hanswer; simpl;
    try (intros [H|[H|[]]]; discriminate).
  assert (Hfeed : answer <> DialogLearnMore ->
            In (UpdateApplicationSettings written)
               (trace (emit (GetCliFeedAppSettings localRuntime) ;;
                       newAppSettings <- await (getCliFeedAppSettings env localRuntime) ;;
                       properties <- applyFeedSettings newAppSettings
                                       (Dictionary.keys newAppSettings) listed ;;
                       emit (UpdateApplicationSettings properties) ;;
                       awaitVoid (updateApplicationSettings env properties))) ->
            exists feed,
              getCliFeedAppSettings env localRuntime = Resolved feed
              /\ forall key, Dictionary.get written key = overriddenBy feed listed key).
  { intros _ Hin.
    apply in_trace_bind in Hin as [[H|[]]|[_ [_ Hin]]]; [discriminate|].
    apply in_trace_bind in Hin as [Hin|[feed [Hfeed Hin]]];
      [rewrite trace_await in Hin; destruct Hin|].
    apply await_returned in Hfeed. exists feed. split; [exact Hfeed|].
    destruct (applyFeedSettings_spec feed (Dictionary.keys feed) listed)
      as [after [Hres [Hlines Hget]]].
    apply in_trace_bind in Hin as [Hin|[after' [Hres' Hin]]].
    - destruct (Hlines _ Hin) as [line Hline]. discriminate.
    - assert (after' = after) by congruence. subst after'.
      apply in_trace_bind in Hin as [[Hin|[]]|[_ [_ Hin]]].
      + injection Hin as <-. intros key. rewrite Hget. unfold overriddenBy.
        destruct (existsb (String.eqb key) (Dictionary.keys feed)) eqn:Hin; [reflexivity|].
        destruct (Dictionary.get feed key) as [value|] eqn:Hkey; [|reflexivity].
        assert (Hk : In key (Dictionary.keys feed))
          by (apply get_in_keys; congruence).
        assert (existsb (String.eqb key) (Dictionary.keys feed) = true); [|congruence].
        apply existsb_exists. exists key. split; [exact Hk | apply String.eqb_refl].
      + rewrite trace_awaitVoid in Hin. destruct Hin. }
  intros Hin.
  assert (Hne : remote <> localRuntime).
  { intros Heq. apply runtime_eqb_eq in Heq. congruence. }
  assert (Hanswered : answer <> DialogLearnMore
                      /\ exists feed,
                           getCliFeedAppSettings env localRuntime = Resolved feed
                           /\ forall key,
                                Dictionary.get written key = overriddenBy feed listed key).
  { destruct Hin as [H|[H|Hin]]; try discriminate.
    destruct answer; try (split; [discriminate | apply Hfeed; [discriminate | exact Hin]]).
    exfalso. destruct (opn env _); simpl in Hin;
      repeat (destruct Hin as [Hin|Hin]; try discriminate); destruct Hin. }
  destruct Hanswered as [Hnot [feed [Hfeed' Hget]]].
  exists listed, remote, answer, feed. repeat split; assumption.
Qed.

Lemma verifyRuntimeIsCompatible_writes_feed_over_site_witness :
  In (UpdateApplicationSettings
        [ ("FUNCTIONS_EXTENSION_VERSION", "~2");
          ("WEBSITE_CONTENTSHARE", "linux0001");
          ("AzureWebJobsStorage", "UseDevelopmentStorage=true");
          ("WEBSITE_NODE_DEFAULT_VERSION", "8.11.1") ])
     (trace (verifyRuntimeIsCompatible
               (MoreSamples.helpersEnv updateRemoteRuntime) v2))
  /\ exists listed remote answer feed,
       listApplicationSettings (MoreSamples.helpersEnv updateRemoteRuntime)
         = Resolved (Some listed)
       /\ convertStringToRuntime (MoreSamples.helpersEnv updateRemoteRuntime)
            (Dictionary.get listed "FUNCTIONS_EXTENSION_VERSION") = Some remote
       /\ remote <> v2
       /\ showWarningMessage (MoreSamples.helpersEnv updateRemoteRuntime)
            (incompatibleRuntime (MoreSamples.helpersEnv updateRemoteRuntime)
               (Dictionary.get listed "FUNCTIONS_EXTENSION_VERSION") v2)
            = Resolved answer
       /\ answer <> DialogLearnMore
       /\ getCliFeedAppSettings (MoreSamples.helpersEnv updateRemoteRuntime) v2
            = Resolved feed
       /\ forall key,
            Dictionary.get
              [ ("FUNCTIONS_EXTENSION_VERSION", "~2");
                ("WEBSITE_CONTENTSHARE", "linux0001");
                ("AzureWebJobsStorage", "UseDevelopmentStorage=true");
                ("WEBSITE_NODE_DEFAULT_VERSION", "8.11.1") ] key
            = overriddenBy feed listed key.
Proof.
  assert (Hin : In (UpdateApplicationSettings
                      [ ("FUNCTIONS_EXTENSION_VERSION", "~2");
                        ("WEBSITE_CONTENTSHARE", "linux0001");
                        ("AzureWebJobsStorage", "UseDevelopmentStorage=true");
                        ("WEBSITE_NODE_DEFAULT_VERSION", "8.11.1") ])
                   (trace (verifyRuntimeIsCompatible
                             (MoreSamples.helpersEnv updateRemoteRuntime) v2))).
  { simpl. do 5 right. left. reflexivity. }
  split; [exact Hin|].
  exact (verifyRuntimeIsCompatible_writes_feed_over_site
           (MoreSamples.helpersEnv updateRemoteRuntime) v2 _ Hin).
Defined.

(** ** [listHttpTriggerUrls] *)

(** The whole of [listHttpTriggerUrls], case by case. *)
Lemma listHttpTriggerUrls_cases (env : Env) :
  listHttpTriggerUrls env =
    match getCachedChildren env with
    | Rejected e => (Thrown e, GetCachedChildren :: failureReport)
    | Resolved children =>
        match refreshTree env with
        | Some e => (Thrown e, GetCachedChildren :: RefreshTree :: failureReport)
        | None =>
            match List.find isFunctionsTreeItem children with
            | Some (FunctionsTreeItem (Resolved functions)) =>
                (Returned tt,
                 GetCachedChildren :: RefreshTree :: GetCachedChildren
                   :: urlReport functions)
            | Some (FunctionsTreeItem (Rejected e)) =>
                (Thrown e,
                 GetCachedChildren :: RefreshTree :: GetCachedChildren :: failureReport)
            | _ =>
                (Thrown (ExternalError "TypeError"),
                 GetCachedChildren :: RefreshTree :: failureReport)
            end
        end
    end.
Proof.
  unfold listHttpTriggerUrls.
  destruct (getCachedChildren env) as [children|e]; [|reflexivity].
  cbn [bind emit await ret result trace fst snd app].
  destruct (refreshTree env) as [e|]; [reflexivity|].
  destruct (List.find isFunctionsTreeItem children)
    as [[[functions|e] | label0 url0 http0 level0 |]|]; try reflexivity.
  unfold when, urlReport.
  cbn [bind emit await awaitVoid ret result trace fst snd app].
  rewrite (trace_forEach_emit (List.filter isAnonymousHttpTrigger functions)
             (fun f => AppendLine (urlLine f))).
  destruct (Nat.ltb 0 (List.length (List.filter isAnonymousHttpTrigger functions)));
    destruct (List.find isProtectedHttpTrigger functions); simpl;
    rewrite ?app_nil_r; reflexivity.
Qed.

Lemma in_urlReport (functions : list AzureTreeItem) (x : Effect) :
  In x (urlReport functions) ->
  x = AppendLine anonymousFunctionUrls
  \/ x = AppendLine nonAnonymousWarning
  \/ exists f, In f functions /\ isAnonymousHttpTrigger f = true
                /\ x = AppendLine (urlLine f).
Proof.
  unfold urlReport. intros Hin. apply in_app_iff in Hin as [Hin|Hin].
  - destruct (Nat.ltb 0 _); [|destruct Hin].
    destruct Hin as [Hin|Hin]; [auto|].
    apply in_map_iff in Hin as [f [Hline Hf]].
    apply filter_In in Hf as [Hf Hanon]. eauto 10.
  - destruct (List.find isProtectedHttpTrigger functions); [|destruct Hin].
    destruct Hin as [Hin|[]]. auto.
Qed.

Lemma isAnonymousHttpTrigger_inv (f : AzureTreeItem) :
  isAnonymousHttpTrigger f = true ->
  exists label triggerUrl, f = FunctionTreeItem label triggerUrl true anonymous.
Proof.
  destruct f as [cached | label triggerUrl [|] [|level] |]; simpl; try discriminate.
  intros _. eauto.
Qed.

(** A url is written to the output channel only for an HTTP trigger with
    anonymous access, and when every step succeeds it is written for each
    of them, under the heading. *)
Theorem listHttpTriggerUrls_lists_anonymous_only :
  forall env : Env,
    (forall text,
        In (AppendLine (Text text)) (trace (listHttpTriggerUrls env)) ->
        exists children functions label triggerUrl,
          getCachedChildren env = Resolved children
          /\ List.find isFunctionsTreeItem children
               = Some (FunctionsTreeItem (Resolved functions))
          /\ In (FunctionTreeItem label triggerUrl true anonymous) functions
          /\ text = "  " ++ label ++ ": " ++ triggerUrl)
    /\ (forall children functions label triggerUrl,
          getCachedChildren env = Resolved children ->
          refreshTree env = None ->
          List.find isFunctionsTreeItem children
            = Some (FunctionsTreeItem (Resolved functions)) ->
          In (FunctionTreeItem label triggerUrl true anonymous) functions ->
          In (AppendLine anonymousFunctionUrls) (trace (listHttpTriggerUrls env))
          /\ In (AppendLine (Text ("  " ++ label ++ ": " ++ triggerUrl)))
                (trace (listHttpTriggerUrls env))).
Proof.
  intros env. split.
  - intros text. rewrite (listHttpTriggerUrls_cases env).
    destruct (getCachedChildren env) as [children|e];
      [|simpl; intros Hin;
        repeat (destruct Hin as [Hin|Hin]; try discriminate); destruct Hin].
    destruct (refreshTree env) as [e|];
      [simpl; intros Hin;
       repeat (destruct Hin as [Hin|Hin]; try discriminate); destruct Hin|].
    destruct (List.find isFunctionsTreeItem children)
      as [[[functions|e] | label0 url0 http0 level0 |]|] eqn:Hnode;
      try (simpl; intros Hin;
           repeat (destruct Hin as [Hin|Hin]; try discriminate); destruct Hin).
    unfold trace, snd. intros Hin.
    do 3 (destruct Hin as [Hin|Hin]; [discriminate|]).
    apply in_urlReport in Hin as [Hin|[Hin|[f [Hf [Hanon Hline]]]]];
      try discriminate.
    destruct (isAnonymousHttpTrigger_inv f Hanon) as [label [triggerUrl ->]].
    simpl in Hline. injection Hline as ->.
    exists children, functions, label, triggerUrl. repeat split; auto.
  - intros children functions label triggerUrl Hchildren Hrefresh Hnode Hf.
    rewrite (listHttpTriggerUrls_cases env), Hchildren, Hrefresh, Hnode.
    assert (Hanon : In (FunctionTreeItem label triggerUrl true anonymous)
                       (List.filter isAnonymousHttpTrigger functions))
      by (apply filter_In; split; [exact Hf | reflexivity]).
    assert (Hlen : Nat.ltb 0 (List.length (List.filter isAnonymousHttpTrigger functions))
                   = true).
    { apply Nat.ltb_lt. destruct (List.filter isAnonymousHttpTrigger functions);
        [destruct Hanon | simpl; lia]. }
    unfold trace, snd, urlReport. rewrite Hlen. split.
    + do 3 right. left. reflexivity.
    + do 3 right. apply in_or_app. left. right.
      apply in_map_iff. exists (FunctionTreeItem label triggerUrl true anonymous).
      split; [reflexivity | exact Hanon].
Qed.

Lemma listHttpTriggerUrls_lists_anonymous_only_witness :
  In (AppendLine (Text "  hello: https://linux.example/api/hello"))
     (trace (listHttpTriggerUrls (MoreSamples.helpersEnv DialogYes)))
  /\ ~ In (AppendLine (Text "  admin: https://linux.example/api/admin"))
          (trace (listHttpTriggerUrls (MoreSamples.helpersEnv DialogYes))).
Proof.
  split.
  - refine (proj2 (proj2 (listHttpTriggerUrls_lists_anonymous_only
                            (MoreSamples.helpersEnv DialogYes))
                     _ _ "hello" "https://linux.example/api/hello"
                     eq_refl eq_refl eq_refl _)).
    left. reflexivity.
  - intros Hin.
    destruct (proj1 (listHttpTriggerUrls_lists_anonymous_only
                       (MoreSamples.helpersEnv DialogYes)) _ Hin)
      as [children [functions [label [triggerUrl [Hc [Hn [Hf Htext]]]]]]].
    injection Hc as <-. injection Hn as <-.
    simpl in Hf. destruct Hf as [Hf|[Hf|[Hf|[]]]]; try discriminate.
    injection Hf as <- <-. discriminate.
Defined.

(** A failure of any step is never silent and is passed on as it is: the
    error display is suppressed, the warning about the failed listing is
    written, and the error thrown is the one that step raised; when nothing
    fails that warning is not written. *)
Theorem listHttpTriggerUrls_failure_is_reported :
  forall env : Env,
    (forall e,
        result (listHttpTriggerUrls env) = Thrown e ->
        In SuppressErrorDisplay (trace (listHttpTriggerUrls env))
        /\ In (AppendLine failedToList) (trace (listHttpTriggerUrls env))
        /\ (getCachedChildren env = Rejected e
            \/ refreshTree env = Some e
            \/ e = ExternalError "TypeError"
            \/ exists children,
                 getCachedChildren env = Resolved children
                 /\ List.find isFunctionsTreeItem children
                      = Some (FunctionsTreeItem (Rejected e))))
    /\ (result (listHttpTriggerUrls env) = Returned tt ->
        ~ In (AppendLine failedToList) (trace (listHttpTriggerUrls env))
        /\ ~ In SuppressErrorDisplay (trace (listHttpTriggerUrls env))).
Proof.
  intros env. rewrite (listHttpTriggerUrls_cases env).
  destruct (getCachedChildren env) as [children|e0].
  2: { simpl. split; [|discriminate]. intros e He. injection He as <-. auto 10. }
  destruct (refreshTree env) as [e0|].
  { simpl. split; [|discriminate]. intros e He. injection He as <-. auto 10. }
  destruct (List.find isFunctionsTreeItem children)
    as [[[functions|e0] | label0 url0 http0 level0 |]|] eqn:Hnode;
    try (simpl; split;
         [intros e He; injection He as <-;
          split; [intuition | split; [intuition |]];
          first [ do 2 right; left; reflexivity
                | do 3 right; eexists; split; [reflexivity | eassumption] ]
         | discriminate]).
  split; [discriminate|]. intros _. unfold trace, snd. split.
  - intros Hin. do 3 (destruct Hin as [Hin|Hin]; [discriminate|]).
    apply in_urlReport in Hin as [Hin|[Hin|[f [_ [_ Hline]]]]]; try discriminate.
    destruct f; discriminate.
  - intros Hin. do 3 (destruct Hin as [Hin|Hin]; [discriminate|]).
    apply in_urlReport in Hin as [Hin|[Hin|[f [_ [_ Hline]]]]]; discriminate.
Qed.

(** ** [appendDeploySubpathSetting] *)

(** The function gives the target itself, or the non-empty deploy subpath
    joined to the target or to a workspace folder that contains the target.
    It fails only with the TypeError of [path.join], when the deploy subpath
    setting is a truthy value that is not a string and the target is, or
    lies in, a workspace folder.  All it may do besides is show one warning
    it does not wait for, and only when it gives a path, the warning setting
    is on and the path given is not the target; answering that warning with
    [DialogDontWarnAgain] sets [showDeploySubpathWarning] to false, and any
    other answer does nothing. *)
Theorem appendDeploySubpathSetting_result :
  forall (env : Env) (targetPath : string),
    (result (appendDeploySubpathSetting env targetPath) = Returned targetPath
     \/ (exists folders sub base,
           workspaceFolders env = Some folders
           /\ deploySubpathOf env targetPath = Some (SettingString sub)
           /\ sub <> EmptyString
           /\ result (appendDeploySubpathSetting env targetPath)
                = Returned (path_join env [base; sub])
           /\ (base = targetPath
                  /\ (exists folder, In folder folders
                        /\ isPathEqual env (fsPath folder) targetPath = true)
               \/ exists folder, In folder folders /\ base = fsPath folder
                    /\ isSubpath env base targetPath = true))
     \/ (exists folders folder,
           workspaceFolders env = Some folders
           /\ deploySubpathOf env targetPath = Some (SettingOther true)
           /\ result (appendDeploySubpathSetting env targetPath)
                = Thrown (ExternalError "TypeError")
           /\ In folder folders
           /\ (isPathEqual env (fsPath folder) targetPath = true
               \/ isSubpath env (fsPath folder) targetPath = true)))
    /\ (trace (appendDeploySubpathSetting env targetPath) = []
        \/ exists message andThen p,
             trace (appendDeploySubpathSetting env targetPath)
               = [ShowWarningMessageUnawaited message [okItem; DialogDontWarnAgain] andThen]
             /\ result (appendDeploySubpathSetting env targetPath) = Returned p
             /\ showDeploySubpathWarning env = true
             /\ isPathEqual env p targetPath = false
             /\ andThen DialogDontWarnAgain
                  = [UpdateGlobalSetting "showDeploySubpathWarning" false]
             /\ (forall answer, answer <> DialogDontWarnAgain -> andThen answer = [])).
Proof.
  intros env targetPath. unfold appendDeploySubpathSetting.
  destruct (workspaceFolders env) as [folders|] eqn:Hfolders; [|simpl; auto].
  destruct (deploySubpathOf env targetPath) as [[sub|[|]]|] eqn:Hsub;
    try (simpl; auto; fail).
  - destruct (settingTruthy (Some (SettingString sub))) eqn:Htruthy; [|simpl; auto].
    assert (Hne : sub <> EmptyString) by (intros ->; discriminate).
    destruct (List.existsb (fun f => isPathEqual env (fsPath f) targetPath) folders)
      eqn:Heq.
    { simpl. apply existsb_exists in Heq as [folder [Hin Hpe]].
      split; [|auto]. right; left. exists folders, sub, targetPath. eauto 10. }
    destruct (List.find (fun f => isSubpath env (fsPath f) targetPath) folders)
      as [folder|] eqn:Hfind; [|simpl; auto].
    apply find_some in Hfind as [Hin Hunder].
    assert (Horigin :
      exists folders0 sub0 base,
        Some folders = Some folders0
        /\ Some (SettingString sub) = Some (SettingString sub0)
        /\ sub0 <> EmptyString
        /\ Returned (A := string) (path_join env [fsPath folder; sub])
             = Returned (path_join env [base; sub0])
        /\ (base = targetPath
               /\ (exists folder0, In folder0 folders0
                     /\ isPathEqual env (fsPath folder0) targetPath = true)
            \/ exists folder0, In folder0 folders0 /\ base = fsPath folder0
                 /\ isSubpath env base targetPath = true)).
    { exists folders, sub, (fsPath folder). repeat split; auto.
      right. exists folder. auto. }
    cbn [joinSetting bind ret app].
    destruct (isPathEqual env (path_join env [fsPath folder; sub]) targetPath) eqn:Hsame;
      [simpl; auto|].
    destruct (showDeploySubpathWarning env) eqn:Hshow; simpl; [|auto].
    split; [auto|]. right.
    eexists _, _, _. split; [reflexivity|]. split; [reflexivity|].
    split; [reflexivity|]. split; [exact Hsame|]. split; [reflexivity|].
    intros [| | | |title] Hanswer; try reflexivity; now destruct Hanswer.
  - cbn [settingTruthy].
    destruct (List.existsb (fun f => isPathEqual env (fsPath f) targetPath) folders)
      eqn:Heq.
    { simpl. apply existsb_exists in Heq as [folder [Hin Hpe]].
      split; [|auto]. do 2 right. exists folders, folder. auto 10. }
    destruct (List.find (fun f => isSubpath env (fsPath f) targetPath) folders)
      as [folder|] eqn:Hfind; [|simpl; auto].
    apply find_some in Hfind as [Hin Hunder]. simpl.
    split; [|auto]. do 2 right. exists folders, folder. auto 10.
Qed.

(** ** [getJavaFolderPath] *)

(** A folder is given only after Maven was found and [mvn clean package -B]
    succeeded.  It is then either the existing folder
    [target/azure-functions/<name>] under the base path, for the non-empty
    app name of the pom, given without asking; or the first folder the user
    chose after the warning was answered. *)
Theorem getJavaFolderPath_packages_first :
  forall (env : Env) (basePath folder : string),
    result (getJavaFolderPath env basePath) = Returned folder ->
    validateMavenInstalled env = None
    /\ executeMvnCommand env ["clean"; "package"; "-B"] = None
    /\ In (ExecuteMvnCommand ["clean"; "package"; "-B"])
          (trace (getJavaFolderPath env basePath))
    /\ ((exists appName,
            getFunctionAppNameInPom env (path_join env [basePath; "pom.xml"])
              = Resolved (Some appName)
            /\ appName <> EmptyString
            /\ folder = path_join env [basePath; "target"; "azure-functions"; appName]
            /\ pathExists env folder = true
            /\ ~ In ShowOpenDialog (trace (getJavaFolderPath env basePath)))
        \/ (exists answer rest,
              showWarningMessage env cannotFindPackageFolder = Resolved answer
              /\ showOpenDialog env = Resolved (folder :: rest)
              /\ In (ShowWarningMessage cannotFindPackageFolder false
                       [DialogYes; DialogCancel])
                    (trace (getJavaFolderPath env basePath)))).
Proof.
  intros env basePath folder. unfold getJavaFolderPath.
  destruct (validateMavenInstalled env) as [e|]; [discriminate|].
  cbn [bind emit awaitVoid ret result trace fst snd app].
  destruct (executeMvnCommand env ["clean"; "package"; "-B"]) as [e|];
    [discriminate|].
  cbn [bind emit awaitVoid ret result trace fst snd app].
  destruct (getFunctionAppNameInPom env (path_join env [basePath; "pom.xml"]))
    as [functionAppName|e]; [|discriminate].
  cbn [bind emit await ret result trace fst snd app].
  assert (Hprompt :
    forall done,
      result (bind (emit (ShowWarningMessage cannotFindPackageFolder false
                            [DialogYes; DialogCancel]))
                (fun _ => bind (await (showWarningMessage env cannotFindPackageFolder))
                  (fun _ => bind (emit ShowOpenDialog)
                    (fun _ => bind (await (showOpenDialog env))
                      (fun uris => match uris with
                                   | uri :: _ => ret uri
                                   | [] => throw (ExternalError "TypeError")
                                   end)))))
        = Returned folder ->
      exists answer rest,
        showWarningMessage env cannotFindPackageFolder = Resolved answer
        /\ showOpenDialog env = Resolved (folder :: rest)
        /\ In (ShowWarningMessage cannotFindPackageFolder false [DialogYes; DialogCancel])
              (done ++
               trace (bind (emit (ShowWarningMessage cannotFindPackageFolder false
                            [DialogYes; DialogCancel]))
                (fun _ => bind (await (showWarningMessage env cannotFindPackageFolder))
                  (fun _ => bind (emit ShowOpenDialog)
                    (fun _ => bind (await (showOpenDialog env))
                      (fun uris => match uris with
                                   | uri :: _ => ret uri
                                   | [] => throw (ExternalError "TypeError")
                                   end))))))%list).
  { intros done.
    destruct (showWarningMessage env cannotFindPackageFolder) as [answer|e];
      [|discriminate].
    destruct (showOpenDialog env) as [[|uri rest]|e]; try discriminate.
    simpl. intros H. injection H as ->. exists answer, rest.
    repeat split. apply in_or_app. right. left. reflexivity. }
  destruct functionAppName as [appName|].
  - destruct (truthy (Some appName)) eqn:Htruthy.
    + cbn [andb].
      destruct (pathExists env
                  (path_join env [basePath; "target"; "azure-functions"; appName]))
        eqn:Hexists.
      * simpl. intros H. injection H as <-.
        repeat split; auto. left. exists appName. repeat split; auto.
        -- intros ->. discriminate.
        -- intros Hin. repeat (destruct Hin as [Hin|Hin]; try discriminate).
           destruct Hin.
      * intros H.
        destruct (Hprompt [ValidateMavenInstalled; OutputShow;
                           ExecuteMvnCommand ["clean"; "package"; "-B"]] H)
          as [answer [rest [Hw [Hd Hin]]]].
        repeat split; auto.
        -- simpl. auto.
        -- right. exists answer, rest. repeat split; auto.
    + cbn [andb]. intros H.
      destruct (Hprompt [ValidateMavenInstalled; OutputShow;
                         ExecuteMvnCommand ["clean"; "package"; "-B"]] H)
        as [answer [rest [Hw [Hd Hin]]]].
      repeat split; auto.
      * simpl. auto.
      * right. exists answer, rest. repeat split; auto.
  - cbn [truthy andb]. intros H.
    destruct (Hprompt [ValidateMavenInstalled; OutputShow;
                       ExecuteMvnCommand ["clean"; "package"; "-B"]] H)
      as [answer [rest [Hw [Hd Hin]]]].
    repeat split; auto.
    + simpl. auto.
    + right. exists answer, rest. repeat split; auto.
Qed.

Lemma getJavaFolderPath_packages_first_witness :
  result (getJavaFolderPath (MoreSamples.helpersEnv DialogYes) "/w/java")
    = Returned "/w/java/target/azure-functions/javaapp"
  /\ In (ExecuteMvnCommand ["clean"; "package"; "-B"])
        (trace (getJavaFolderPath (MoreSamples.helpersEnv DialogYes) "/w/java")).
Proof.
  split; [reflexivity|].
  exact (proj1 (proj2 (proj2
           (getJavaFolderPath_packages_first (MoreSamples.helpersEnv DialogYes)
              "/w/java" "/w/java/target/azure-functions/javaapp" eq_refl)))).
Defined.

(** ** The folder deployed with and without a target *)

(** In a workspace of one folder whose deploy subpath is a string that is
    not empty, deploying with no
    target and deploying with that folder as the target come to the same
    path, the subpath under the folder, and neither asks or warns. *)
Theorem deploy_path_of_single_folder :
  forall (env : Env) (folder : WorkspaceFolder) (deploySubpath : string),
    workspaceFolders env = Some [folder] ->
    deploySubpathOf env (fsPath folder) = Some (SettingString deploySubpath) ->
    deploySubpath <> EmptyString ->
    isPathEqual env (fsPath folder) (fsPath folder) = true ->
    getDeployFsPath env = (Returned (path_join env [fsPath folder; deploySubpath]), [])
    /\ appendDeploySubpathSetting env (fsPath folder) = getDeployFsPath env.
Proof.
  intros env folder deploySubpath Hfolders Hsub Hne Hequal.
  assert (Htruthy : settingTruthy (Some (SettingString deploySubpath)) = true)
    by (destruct deploySubpath; [congruence | reflexivity]).
  assert (Hget : getDeployFsPath env
                 = (Returned (path_join env [fsPath folder; deploySubpath]), [])).
  { unfold getDeployFsPath. rewrite Hfolders. cbv zeta. rewrite Hsub, Htruthy.
    reflexivity. }
  split; [exact Hget|]. rewrite Hget.
  unfold appendDeploySubpathSetting. rewrite Hfolders, Hsub, Htruthy.
  cbn [existsb]. rewrite Hequal. reflexivity.
Qed.

Lemma deploy_path_of_single_folder_witness :
  getDeployFsPath (MoreSamples.helpersEnv DialogYes) = (Returned "/w/app/out", [])
  /\ appendDeploySubpathSetting (MoreSamples.helpersEnv DialogYes) "/w/app"
       = getDeployFsPath (MoreSamples.helpersEnv DialogYes).
Proof.
  refine (deploy_path_of_single_folder (MoreSamples.helpersEnv DialogYes)
            Samples.appFolder "out" eq_refl eq_refl _ eq_refl).
  discriminate.
Defined.

Lemma listHttpTriggerUrls_failure_is_reported_witness :
  result (listHttpTriggerUrls (MoreSamples.helpersEnv DialogYes)) = Returned tt
  /\ ~ In (AppendLine failedToList)
          (trace (listHttpTriggerUrls (MoreSamples.helpersEnv DialogYes))).
Proof.
  split; [reflexivity|].
  exact (proj1 (proj2 (listHttpTriggerUrls_failure_is_reported
                         (MoreSamples.helpersEnv DialogYes)) eq_refl)).
Defined.

End DeployHelpersFacts.

(* ===================================================================== *)
(** * The Python project creator: properties *)
(* ===================================================================== *)

Module PythonProjectFacts.
Import Run PythonProject RunFacts MoreVocabulary.

(** ** Substrings *)

Lemma prefix_nil (s : string) : String.prefix EmptyString s = true.
Proof. destruct s; reflexivity. Qed.

Lemma prefix_cons (c d : ascii) (s t : string) :
  String.prefix (String c s) (String d t) = (Ascii.eqb c d && String.prefix s t)%bool.
Proof.
  simpl. destruct (ascii_dec c d) as [->|Hne].
  - now rewrite Ascii.eqb_refl.
  - apply Ascii.eqb_neq in Hne. now rewrite Hne.
Qed.

Lemma prefix_refl (s : string) : String.prefix s s = true.
Proof.
  induction s as [|c s IH]; [reflexivity|].
  now rewrite prefix_cons, Ascii.eqb_refl, IH.
Qed.

Lemma prefix_app (s t : string) : String.prefix s (s ++ t) = true.
Proof.
  induction s as [|c s IH]; [apply prefix_nil|].
  change (String c s ++ t) with (String c (s ++ t)).
  now rewrite prefix_cons, Ascii.eqb_refl, IH.
Qed.

Lemma prefix_app_r (sub s t : string) :
  String.prefix sub s = true -> String.prefix sub (s ++ t) = true.
Proof.
  revert s. induction sub as [|c sub IH]; intros s; [intros _; apply prefix_nil|].
  destruct s as [|d s]; [discriminate|].
  change (String d s ++ t) with (String d (s ++ t)).
  rewrite !prefix_cons. intros H. apply andb_true_iff in H as [-> H].
  now rewrite (IH _ H).
Qed.

Lemma prefix_empty (sub : string) :
  String.prefix sub EmptyString = true -> sub = EmptyString.
Proof. destruct sub; [reflexivity | discriminate]. Qed.

Lemma includes_unfold (s sub : string) :
  includes s sub =
    if String.prefix sub s then true
    else match s with
         | EmptyString => false
         | String _ r => includes r sub
         end.
Proof. destruct s; reflexivity. Qed.

Lemma includes_refl (s : string) : includes s s = true.
Proof. now rewrite includes_unfold, prefix_refl. Qed.

Lemma includes_app_l (s t sub : string) :
  includes s sub = true -> includes (s ++ t) sub = true.
Proof.
  induction s as [|c s IH]; intros H.
  - rewrite includes_unfold in H.
    destruct (String.prefix sub EmptyString) eqn:Hp; [|discriminate].
    apply prefix_empty in Hp. subst sub.
    now rewrite includes_unfold, prefix_nil.
  - rewrite includes_unfold in H.
    change (String c s ++ t) with (String c (s ++ t)).
    rewrite includes_unfold.
    destruct (String.prefix sub (String c s)) eqn:Hp.
    + change (String c (s ++ t)) with (String c s ++ t).
      now rewrite (prefix_app_r _ _ t Hp).
    + destruct (String.prefix sub (String c (s ++ t))); [reflexivity | exact (IH H)].
Qed.

Lemma includes_app_r (s t sub : string) :
  includes t sub = true -> includes (s ++ t) sub = true.
Proof.
  intros H. induction s as [|c s IH]; [exact H|].
  change (String c s ++ t) with (String c (s ++ t)).
  rewrite includes_unfold.
  destruct (String.prefix sub (String c (s ++ t))); [reflexivity | exact IH].
Qed.

(** ** [ensureGitIgnoreContents] *)

Lemma includes_withLine (env : Env) (contents newLine : string) :
  includes (withLine env contents newLine) newLine = true.
Proof.
  unfold withLine. destruct (includes contents newLine) eqn:Hin; [exact Hin|].
  apply includes_app_r, includes_app_r, includes_refl.
Qed.

Lemma withLine_keeps (env : Env) (contents newLine sub : string) :
  includes contents sub = true -> includes (withLine env contents newLine) sub = true.
Proof.
  unfold withLine. intros H. destruct (includes contents newLine); [exact H|].
  now apply includes_app_l.
Qed.

Lemma prefix_trans (a b c : string) :
  String.prefix a b = true -> String.prefix b c = true -> String.prefix a c = true.
Proof.
  revert b c. induction a as [|x a IH]; intros b c Hab Hbc; [apply prefix_nil|].
  destruct b as [|y b]; [discriminate|]. destruct c as [|z c]; [discriminate|].
  rewrite prefix_cons in *.
  apply andb_true_iff in Hab as [Hxy Hab]. apply andb_true_iff in Hbc as [Hyz Hbc].
  apply Ascii.eqb_eq in Hxy, Hyz. subst.
  now rewrite Ascii.eqb_refl, (IH _ _ Hab Hbc).
Qed.

Lemma prefix_withLine (env : Env) (contents newLine : string) :
  String.prefix contents (withLine env contents newLine) = true.
Proof.
  unfold withLine. destruct (includes contents newLine);
    [apply prefix_refl | apply prefix_app].
Qed.

Lemma withLine_fixed (env : Env) (contents newLine : string) :
  includes contents newLine = true -> withLine env contents newLine = contents.
Proof. unfold withLine. now intros ->. Qed.

Lemma ensureInGitIgnore_run (env : Env) (newLine contents : string) (writeFile : bool) :
  ensureInGitIgnore env newLine (contents, writeFile) =
    (Returned (withLine env contents newLine,
               (writeFile || negb (includes contents newLine))%bool),
     if includes contents newLine then []
     else [AppendLine (gitAddNewLine newLine)]).
Proof.
  unfold ensureInGitIgnore, withLine.
  destruct (includes contents newLine); simpl.
  - now rewrite orb_false_r.
  - now rewrite orb_true_r.
Qed.

(** [ensureGitIgnoreContents] on a file that is there and can be read. *)
Lemma ensureGitIgnoreContents_run (env : Env) (venvName old : string) :
  fse_pathExists env (gitignorePath env) = true ->
  fse_readFile env (gitignorePath env) = Resolved old ->
  ensureGitIgnoreContents env venvName =
    let entries := gitignoreEntries env venvName in
    let final := fold_left (withLine env) entries old in
    if anyMissing env entries old
    then (match fse_writeFile env (gitignorePath env) final with
          | None => Returned tt
          | Some e => Thrown e
          end,
          (announced env entries old ++ [WriteFile (gitignorePath env) final])%list)
    else (Returned tt, announced env entries old).
Proof.
  intros Hexists Hread. unfold ensureGitIgnoreContents.
  fold (gitignorePath env). rewrite Hexists, Hread.
  cbn [bind await ret result trace fst snd app].
  rewrite !ensureInGitIgnore_run.
  cbn [bind await ret result trace fst snd app orb].
  rewrite !ensureInGitIgnore_run.
  cbn [bind await ret result trace fst snd app orb].
  rewrite !ensureInGitIgnore_run.
  cbn [bind await ret result trace fst snd app orb].
  rewrite !ensureInGitIgnore_run.
  cbn [bind await ret result trace fst snd app orb].
  unfold gitignoreEntries. cbn [fold_left anyMissing announced].
  set (c1 := withLine env old venvName).
  set (c2 := withLine env c1 ".python_packages").
  set (c3 := withLine env c2 "__pycache__").
  set (c4 := withLine env c3 (zipFileName env)).
  unfold when.
  destruct (includes old venvName), (includes c1 ".python_packages"),
    (includes c2 "__pycache__"), (includes c3 (zipFileName env));
    cbn [negb orb bind emit awaitVoid ret result trace fst snd app];
    try reflexivity;
    destruct (fse_writeFile env (gitignorePath env) c4); reflexivity.
Qed.

Lemma announced_lines (env : Env) (entries : list string) :
  forall contents e,
    In e (announced env entries contents) -> exists line, e = AppendLine line.
Proof.
  induction entries as [|entry rest IH]; intros contents e Hin; [destruct Hin|].
  simpl in Hin. apply in_app_iff in Hin as [Hin|Hin]; [|exact (IH _ _ Hin)].
  destruct (includes contents entry); [destruct Hin|].
  destruct Hin as [<-|[]]. eauto.
Qed.

Lemma fold_withLine_includes (env : Env) (entries : list string) :
  forall contents sub,
    includes contents sub = true \/ In sub entries ->
    includes (fold_left (withLine env) entries contents) sub = true.
Proof.
  induction entries as [|entry rest IH]; intros contents sub H; simpl.
  - destruct H as [H|[]]. exact H.
  - apply IH. destruct H as [H|[<-|H]].
    + left. now apply withLine_keeps.
    + left. apply includes_withLine.
    + right. exact H.
Qed.

Lemma fold_withLine_prefix (env : Env) (entries : list string) :
  forall contents,
    String.prefix contents (fold_left (withLine env) entries contents) = true.
Proof.
  induction entries as [|entry rest IH]; intros contents; simpl; [apply prefix_refl|].
  exact (prefix_trans _ _ _ (prefix_withLine env contents entry) (IH _)).
Qed.

Lemma nothing_missing (env : Env) (entries : list string) :
  forall contents,
    (forall entry, In entry entries -> includes contents entry = true) ->
    anyMissing env entries contents = false
    /\ announced env entries contents = [].
Proof.
  induction entries as [|entry rest IH]; intros contents Hall; simpl; [auto|].
  assert (Hentry : includes contents entry = true) by (apply Hall; left; reflexivity).
  rewrite (withLine_fixed env _ _ Hentry), Hentry. simpl.
  apply IH. intros e He. apply Hall. right. exact He.
Qed.

Lemma anyMissing_found (env : Env) (entries : list string) :
  forall contents,
    anyMissing env entries contents = true ->
    exists entry, In entry entries /\ includes contents entry = false.
Proof.
  induction entries as [|entry rest IH]; intros contents H; simpl in H; [discriminate|].
  destruct (includes contents entry) eqn:Hentry.
  - rewrite (withLine_fixed env _ _ Hentry) in H. simpl in H.
    destruct (IH _ H) as [e [He Hmiss]]. exists e. simpl. auto.
  - exists entry. simpl. auto.
Qed.

(** What [ensureGitIgnoreContents] writes is the [.gitignore] it read with
    lines added at its end: nothing of the old contents is lost, each of the
    four entries is in the new contents, and the file is written only when
    one of them was missing. *)
Theorem ensureGitIgnoreContents_adds_missing_entries :
  forall (env : Env) (venvName path contents : string),
    In (WriteFile path contents) (trace (ensureGitIgnoreContents env venvName)) ->
    path = gitignorePath env
    /\ exists old,
         fse_readFile env path = Resolved old
         /\ String.prefix old contents = true
         /\ (forall entry, In entry (gitignoreEntries env venvName) ->
                           includes contents entry = true)
         /\ (exists entry, In entry (gitignoreEntries env venvName)
                           /\ includes old entry = false).
Proof.
  intros env venvName path contents Hin.
  destruct (fse_pathExists env (gitignorePath env)) eqn:Hexists.
  2: { unfold ensureGitIgnoreContents in Hin. fold (gitignorePath env) in Hin.
       rewrite Hexists in Hin. destruct Hin. }
  destruct (fse_readFile env (gitignorePath env)) as [old|e] eqn:Hread.
  2: { unfold ensureGitIgnoreContents in Hin. fold (gitignorePath env) in Hin.
       rewrite Hexists, Hread in Hin. destruct Hin. }
  rewrite (ensureGitIgnoreContents_run env venvName old Hexists Hread) in Hin.
  cbv zeta in Hin.
  destruct (anyMissing env (gitignoreEntries env venvName) old) eqn:Hmissing.
  - unfold trace, snd in Hin. apply in_app_iff in Hin as [Hin|Hin].
    + apply announced_lines in Hin as [line Hline]. discriminate.
    + destruct Hin as [Hin|[]]. injection Hin as <- <-.
      split; [reflexivity|]. exists old. split; [exact Hread|].
      split; [exact (fold_withLine_prefix env (gitignoreEntries env venvName) old)|].
      split; [intros entry Hentry;
              exact (fold_withLine_includes env (gitignoreEntries env venvName)
                       old entry (or_intror Hentry))|].
      apply (anyMissing_found env _ _ Hmissing).
  - unfold trace, snd in Hin.
    apply announced_lines in Hin as [line Hline]. discriminate.
Qed.

Lemma ensureGitIgnoreContents_adds_missing_entries_witness :
  In (WriteFile "/w/pyapp/.gitignore"
        (String.concat (String (ascii_of_nat 10) EmptyString)
           ["bin obj __pycache__"; ".venv"; ".python_packages"; "pyapp.zip"]))
     (trace (ensureGitIgnoreContents MoreSamples.pythonProject ".venv"))
  /\ includes
       (String.concat (String (ascii_of_nat 10) EmptyString)
          ["bin obj __pycache__"; ".venv"; ".python_packages"; "pyapp.zip"])
       "pyapp.zip" = true.
Proof.
  assert (Hin : In (WriteFile "/w/pyapp/.gitignore"
                      (String.concat (String (ascii_of_nat 10) EmptyString)
                         ["bin obj __pycache__"; ".venv"; ".python_packages";
                          "pyapp.zip"]))
                   (trace (ensureGitIgnoreContents MoreSamples.pythonProject ".venv")))
    by (vm_compute; auto 10).
  split; [exact Hin|].
  destruct (ensureGitIgnoreContents_adds_missing_entries _ _ _ _ Hin)
    as [_ [old [_ [_ [Hentries _]]]]].
  apply Hentries. do 3 right. left. reflexivity.
Defined.

(** Run again on the file it has written, [ensureGitIgnoreContents] writes
    nothing and announces nothing. *)
Theorem ensureGitIgnoreContents_settles :
  forall (env : Env) (venvName path contents : string),
    In (WriteFile path contents) (trace (ensureGitIgnoreContents env venvName)) ->
    ensureGitIgnoreContents (afterWrite env path contents) venvName = (Returned tt, []).
Proof.
  intros env venvName path contents Hin.
  destruct (fse_pathExists env (gitignorePath env)) eqn:Hexists.
  2: { unfold ensureGitIgnoreContents in Hin. fold (gitignorePath env) in Hin.
       rewrite Hexists in Hin. destruct Hin. }
  destruct (fse_readFile env (gitignorePath env)) as [old|e] eqn:Hread.
  2: { unfold ensureGitIgnoreContents in Hin. fold (gitignorePath env) in Hin.
       rewrite Hexists, Hread in Hin. destruct Hin. }
  rewrite (ensureGitIgnoreContents_run env venvName old Hexists Hread) in Hin.
  cbv zeta in Hin.
  assert (Hwritten : path = gitignorePath env
                     /\ contents = fold_left (withLine env)
                                             (gitignoreEntries env venvName) old).
  { destruct (anyMissing env (gitignoreEntries env venvName) old);
      unfold trace, snd in Hin.
    - apply in_app_iff in Hin as [Hin|Hin].
      + apply announced_lines in Hin as [line Hline]. discriminate.
      + destruct Hin as [Hin|[]]. injection Hin as <- <-. auto.
    - apply announced_lines in Hin as [line Hline]. discriminate. }
  destruct Hwritten as [-> ->].
  set (final := fold_left (withLine env) (gitignoreEntries env venvName) old).
  set (env' := afterWrite env (gitignorePath env) final).
  assert (Hpath : gitignorePath env' = gitignorePath env) by reflexivity.
  assert (Hexists' : fse_pathExists env' (gitignorePath env') = true).
  { rewrite Hpath. unfold env', afterWrite. cbn [fse_pathExists].
    now rewrite String.eqb_refl. }
  assert (Hread' : fse_readFile env' (gitignorePath env') = Resolved final).
  { rewrite Hpath. unfold env', afterWrite. cbn [fse_readFile].
    now rewrite String.eqb_refl. }
  rewrite (ensureGitIgnoreContents_run env' venvName final Hexists' Hread').
  cbv zeta.
  assert (Hentries : gitignoreEntries env' venvName = gitignoreEntries env venvName)
    by reflexivity.
  rewrite Hentries.
  destruct (nothing_missing env' (gitignoreEntries env venvName) final) as [-> ->];
    [|reflexivity].
  intros entry Hentry. unfold final.
  assert (Hsame : forall entries c,
             fold_left (withLine env') entries c = fold_left (withLine env) entries c)
    by reflexivity.
  apply fold_withLine_includes. auto.
Qed.

Lemma ensureGitIgnoreContents_settles_witness :
  ensureGitIgnoreContents
    (afterWrite MoreSamples.pythonProject "/w/pyapp/.gitignore"
       (String.concat (String (ascii_of_nat 10) EmptyString)
          ["bin obj __pycache__"; ".venv"; ".python_packages"; "pyapp.zip"]))
    ".venv" = (Returned tt, []).
Proof.
  apply (ensureGitIgnoreContents_settles MoreSamples.pythonProject ".venv").
  vm_compute. auto 10.
Defined.

(** ** [ensureVenvInFuncIgnore] *)

(** What [ensureVenvInFuncIgnore] hands to [writeFile]. *)
Lemma ensureVenvInFuncIgnore_run (env : Env) (venvName : string) :
  ensureVenvInFuncIgnore env venvName =
    let written contents :=
      (match fse_writeFile env (funcIgnorePath env) contents with
       | None => Returned tt
       | Some e => Thrown e
       end, [WriteFile (funcIgnorePath env) contents]) in
    if fse_pathExists env (funcIgnorePath env) then
      match fse_readFile env (funcIgnorePath env) with
      | Resolved old =>
          if truthy (Some old) then written (withLine env old venvName)
          else written venvName
      | Rejected e => (Thrown e, [])
      end
    else written venvName.
Proof.
  unfold ensureVenvInFuncIgnore. fold (funcIgnorePath env). cbv zeta.
  destruct (fse_pathExists env (funcIgnorePath env)).
  - destruct (fse_readFile env (funcIgnorePath env)) as [old|e]; [|reflexivity].
    cbn [bind await ret result trace fst snd app].
    unfold withLine.
    destruct old as [|c old]; cbn [truthy andb].
    + cbn [bind emit awaitVoid ret result trace fst snd app truthy].
      destruct (fse_writeFile env (funcIgnorePath env) venvName); reflexivity.
    + destruct (includes (String c old) venvName);
        cbn [append negb bind emit awaitVoid ret result trace fst snd app truthy].
      * destruct (fse_writeFile env (funcIgnorePath env) (String c old)); reflexivity.
      * destruct (fse_writeFile env (funcIgnorePath env)
                    (String c (old ++ EOL env ++ venvName))); reflexivity.
  - cbn [bind emit awaitVoid ret result trace fst snd app truthy].
    destruct (fse_writeFile env (funcIgnorePath env) venvName); reflexivity.
Qed.

(** Whatever [ensureVenvInFuncIgnore] writes to [.funcignore] names the
    virtual environment and starts with what the file held; and run again
    on the file it has written, it writes the same contents. *)
Theorem ensureVenvInFuncIgnore_lists_venv :
  forall (env : Env) (venvName path contents : string),
    In (WriteFile path contents) (trace (ensureVenvInFuncIgnore env venvName)) ->
    path = funcIgnorePath env
    /\ includes contents venvName = true
    /\ (forall old,
          fse_pathExists env path = true ->
          fse_readFile env path = Resolved old ->
          String.prefix old contents = true)
    /\ trace (ensureVenvInFuncIgnore (afterWrite env path contents) venvName)
         = [WriteFile path contents].
Proof.
  intros env venvName path contents Hin.
  assert (Hagain : forall c,
    includes c venvName = true ->
    trace (ensureVenvInFuncIgnore (afterWrite env (funcIgnorePath env) c) venvName)
      = [WriteFile (funcIgnorePath env) c]).
  { intros c Hc. rewrite ensureVenvInFuncIgnore_run. cbv zeta.
    change (funcIgnorePath (afterWrite env (funcIgnorePath env) c))
      with (funcIgnorePath env).
    unfold afterWrite at 1 2. cbn [fse_pathExists fse_readFile].
    rewrite String.eqb_refl.
    destruct c as [|x c].
    - cbn [truthy]. rewrite includes_unfold in Hc.
      destruct (String.prefix venvName EmptyString) eqn:Hp; [|discriminate].
      apply prefix_empty in Hp. subst venvName. reflexivity.
    - cbn [truthy]. rewrite (withLine_fixed _ _ _ Hc). reflexivity. }
  rewrite ensureVenvInFuncIgnore_run in Hin. cbv zeta in Hin.
  destruct (fse_pathExists env (funcIgnorePath env)) eqn:Hexists.
  - destruct (fse_readFile env (funcIgnorePath env)) as [old|e] eqn:Hread;
      [|destruct Hin].
    destruct (truthy (Some old)) eqn:Htruthy.
    + destruct Hin as [Hin|[]]. injection Hin as <- <-.
      split; [reflexivity|]. split; [apply includes_withLine|].
      split; [|apply Hagain, includes_withLine].
      intros old' _ Hread'. rewrite Hread in Hread'. injection Hread' as <-.
      apply prefix_withLine.
    + destruct Hin as [Hin|[]]. injection Hin as <- <-.
      split; [reflexivity|]. split; [apply includes_refl|].
      split; [|apply Hagain, includes_refl].
      intros old' _ Hread'. rewrite Hread in Hread'. injection Hread' as <-.
      destruct old; [apply prefix_nil | discriminate].
  - destruct Hin as [Hin|[]]. injection Hin as <- <-.
    split; [reflexivity|]. split; [apply includes_refl|].
    split; [|apply Hagain, includes_refl].
    intros old' Hexists'. congruence.
Qed.

Lemma ensureVenvInFuncIgnore_lists_venv_witness :
  In (WriteFile "/w/pyapp/.funcignore" ".venv")
     (trace (ensureVenvInFuncIgnore MoreSamples.pythonProject ".venv"))
  /\ trace (ensureVenvInFuncIgnore
              (afterWrite MoreSamples.pythonProject "/w/pyapp/.funcignore" ".venv")
              ".venv")
       = [WriteFile "/w/pyapp/.funcignore" ".venv"].
Proof.
  assert (Hin : In (WriteFile "/w/pyapp/.funcignore" ".venv")
                   (trace (ensureVenvInFuncIgnore MoreSamples.pythonProject ".venv")))
    by (left; reflexivity).
  split; [exact Hin|].
  exact (proj2 (proj2 (proj2
           (ensureVenvInFuncIgnore_lists_venv _ _ _ _ Hin)))).
Defined.

(** ** [validatePythonAlias] and [getPythonAlias] *)

(** [validatePythonAlias] never throws, runs the version command once, and
    answers [undefined] exactly for an alias in range. *)
Lemma validatePythonAlias_run (env : Env) (pyAlias : string) (validateMaxVersion : bool) :
  exists message,
    validatePythonAlias env pyAlias validateMaxVersion
      = (Returned message, [TryExecuteCommand (pyAlias ++ " --version")])
    /\ (message = None <-> aliasInRange env validateMaxVersion pyAlias)
    /\ (forall text, message = Some (Caught text) -> exists e, text = errorMessage env e).
Proof.
  unfold validatePythonAlias, aliasInRange.
  destruct (tryExecuteCommand env (pyAlias ++ " --version")) as [r|e] eqn:Hrun.
  2: { eexists. split; [reflexivity|]. split.
       - split; [discriminate|]. intros (r' & v' & H1 & _). discriminate.
       - intros text [= <-]. eauto. }
  cbn [bind emit await ret result trace fst snd app tryCatch].
  destruct (code r =? 0) eqn:Hcode; cbn [negb].
  2: { eexists. split; [reflexivity|]. split; [|discriminate].
       split; [discriminate|]. intros (r' & v' & H1 & H2 & _).
       injection H1 as <-. apply Z.eqb_neq in Hcode. contradiction. }
  apply Z.eqb_eq in Hcode.
  destruct (matchPythonVersion (cmdOutputIncludingStderr r)) as [v|] eqn:Hmatch.
  2: { eexists. split; [reflexivity|]. split; [|discriminate].
       split; [discriminate|]. intros (r' & v' & H1 & _ & H3 & _).
       injection H1 as <-. congruence. }
  destruct (truthy (Some v)) eqn:Htruthy; cbn [negb].
  2: { eexists. split; [reflexivity|]. split; [|discriminate].
       split; [discriminate|]. intros (r' & v' & H1 & _ & H3 & H4 & _).
       injection H1 as <-. rewrite Hmatch in H3. injection H3 as <-.
       destruct v; [congruence | discriminate]. }
  assert (Hv : v <> EmptyString) by (intros ->; discriminate).
  destruct (semver_lt env v minPythonVersion) as [[|]|e] eqn:Hlt;
    cbn [bind emit await ret throw result trace fst snd app tryCatch].
  - eexists. split; [reflexivity|]. split; [|discriminate].
    split; [discriminate|]. intros (r' & v' & H1 & _ & H3 & _ & H5 & _).
    injection H1 as <-. rewrite Hmatch in H3. injection H3 as <-. congruence.
  - destruct validateMaxVersion.
    + destruct (semver_gte env v maxPythonVersion) as [[|]|e] eqn:Hgte;
        cbn [bind emit await ret throw result trace fst snd app tryCatch].
      * eexists. split; [reflexivity|]. split; [|discriminate].
        split; [discriminate|]. intros (r' & v' & H1 & _ & H3 & _ & _ & H6).
        injection H1 as <-. rewrite Hmatch in H3. injection H3 as <-.
        specialize (H6 eq_refl). congruence.
      * eexists. split; [reflexivity|]. split; [|discriminate].
        split; [|reflexivity]. intros _. exists r, v. repeat split; auto.
      * eexists. split; [reflexivity|]. split.
        -- split; [discriminate|]. intros (r' & v' & H1 & _ & H3 & _ & _ & H6).
           injection H1 as <-. rewrite Hmatch in H3. injection H3 as <-.
           specialize (H6 eq_refl). congruence.
        -- intros text [= <-]. eauto.
    + eexists. split; [reflexivity|]. split; [|discriminate].
      split; [|reflexivity]. intros _. exists r, v. repeat split; auto. discriminate.
  - eexists. split; [reflexivity|]. split.
    + split; [discriminate|]. intros (r' & v' & H1 & _ & H3 & _ & H5 & _).
      injection H1 as <-. rewrite Hmatch in H3. injection H3 as <-. congruence.
    + intros text [= <-]. eauto.
Qed.

Lemma tryAliases_run (env : Env) (otherwise : M string) :
  (forall e, errorMessage env e <> EmptyString) ->
  forall aliases,
    (exists pre alias post,
        aliases = (pre ++ alias :: post)%list
        /\ Forall (fun a => ~ aliasInRange env true a) pre
        /\ aliasInRange env true alias
        /\ tryAliases env aliases otherwise =
             (Returned alias,
              map (fun a => TryExecuteCommand (a ++ " --version")) (pre ++ [alias])))
    \/ (Forall (fun a => ~ aliasInRange env true a) aliases
        /\ tryAliases env aliases otherwise =
             (result otherwise,
              (map (fun a => TryExecuteCommand (a ++ " --version")) aliases
               ++ trace otherwise)%list)).
Proof.
  intros Hmessage. induction aliases as [|alias rest IH].
  - right. split; [constructor|]. destruct otherwise. reflexivity.
  - destruct (validatePythonAlias_run env alias true) as [message [Hrun [Hvalid Hcaught]]].
    cbn [tryAliases]. rewrite Hrun.
    cbn [bind result trace fst snd app].
    destruct message as [[text|text]|].
    + assert (Hnot : ~ aliasInRange env true alias)
        by (intros H; apply Hvalid in H; discriminate).
      cbn [isTruthy negb].
      destruct IH as [(pre & a & post & -> & Hpre & Ha & Hrest) | [Hall Hrest]].
      * left. exists (alias :: pre), a, post. rewrite Hrest.
        repeat split; auto.
      * right. rewrite Hrest. split; [constructor; assumption | reflexivity].
    + assert (Hnot : ~ aliasInRange env true alias)
        by (intros H; apply Hvalid in H; discriminate).
      assert (Htext : truthy (Some text) = true).
      { destruct (Hcaught text eq_refl) as [e ->].
        specialize (Hmessage e). destruct (errorMessage env e); [congruence|reflexivity]. }
      cbn [isTruthy]. rewrite Htext. cbn [negb].
      destruct IH as [(pre & a & post & -> & Hpre & Ha & Hrest) | [Hall Hrest]].
      * left. exists (alias :: pre), a, post. rewrite Hrest.
        repeat split; auto.
      * right. rewrite Hrest. split; [constructor; assumption | reflexivity].
    + left. exists [], alias, rest. cbn [isTruthy negb].
      repeat split; auto. apply Hvalid. reflexivity.
Qed.

(** Without asking, [getPythonAlias] gives the first alias (the global
    pythonPath setting, then python3.6, py -3.6, python3, python, py) whose
    version command ends with code 0 and names a version neither below
    3.6.0 nor at or above 3.7.0, after having run the version command of
    that alias and of those before it and of no other; only when no alias
    qualifies does it ask, and then it gives what the input box gives. *)
Theorem getPythonAlias_picks_first_in_range :
  forall env : Env,
    (forall e, errorMessage env e <> EmptyString) ->
    (exists pre alias post,
        aliasesToTry env = (pre ++ alias :: post)%list
        /\ Forall (fun a => ~ aliasInRange env true a) pre
        /\ aliasInRange env true alias
        /\ getPythonAlias env =
             (Returned alias,
              map (fun a => TryExecuteCommand (a ++ " --version")) (pre ++ [alias])))
    \/ (Forall (fun a => ~ aliasInRange env true a) (aliasesToTry env)
        /\ result (getPythonAlias env) =
             match showInputBox env pyAliasPlaceholder with
             | Resolved alias => Returned alias
             | Rejected e => Thrown e
             end
        /\ trace (getPythonAlias env) =
             (map (fun a => TryExecuteCommand (a ++ " --version")) (aliasesToTry env)
              ++ [ShowInputBox pyAliasPlaceholder])%list).
Proof.
  intros env Hmessage. unfold getPythonAlias.
  destruct (tryAliases_run env
              (bind (emit (ShowInputBox pyAliasPlaceholder))
                    (fun _ => await (showInputBox env pyAliasPlaceholder)))
              Hmessage (aliasesToTry env))
    as [Hfound | [Hall Hrun]]; [left; exact Hfound|].
  right. split; [exact Hall|]. rewrite Hrun.
  destruct (showInputBox env pyAliasPlaceholder); split; reflexivity.
Qed.

Lemma getPythonAlias_picks_first_in_range_witness :
  (forall e, errorMessage MoreSamples.pythonProject e <> EmptyString)
  /\ ((exists pre alias post,
         aliasesToTry MoreSamples.pythonProject = (pre ++ alias :: post)%list
         /\ Forall (fun a => ~ aliasInRange MoreSamples.pythonProject true a) pre
         /\ aliasInRange MoreSamples.pythonProject true alias
         /\ getPythonAlias MoreSamples.pythonProject =
              (Returned alias,
               map (fun a => TryExecuteCommand (a ++ " --version")) (pre ++ [alias])))
      \/ (Forall (fun a => ~ aliasInRange MoreSamples.pythonProject true a)
                 (aliasesToTry MoreSamples.pythonProject)
          /\ result (getPythonAlias MoreSamples.pythonProject) =
               match showInputBox MoreSamples.pythonProject pyAliasPlaceholder with
               | Resolved alias => Returned alias
               | Rejected e => Thrown e
               end
          /\ trace (getPythonAlias MoreSamples.pythonProject) =
               (map (fun a => TryExecuteCommand (a ++ " --version"))
                    (aliasesToTry MoreSamples.pythonProject)
                ++ [ShowInputBox pyAliasPlaceholder])%list)).
Proof.
  assert (Hmessage : forall e, errorMessage MoreSamples.pythonProject e <> EmptyString)
    by discriminate.
  split; [exact Hmessage|].
  exact (getPythonAlias_picks_first_in_range MoreSamples.pythonProject Hmessage).
Defined.

(** ** [ensureVenv] *)

Lemma collectVenvs_resolved (env : Env) :
  forall ended venvs found,
    collectVenvs env ended venvs = Resolved found ->
    found = (venvs ++ List.filter
                        (fun p => match holdsVenv env p with
                                  | Resolved true => true
                                  | _ => false
                                  end) ended)%list
    /\ forall p, In p ended -> exists b, holdsVenv env p = Resolved b.
Proof.
  induction ended as [|p ended IH]; intros venvs found H; simpl in H.
  - injection H as <-. rewrite app_nil_r. split; [reflexivity|]. intros p [].
  - simpl. destruct (holdsVenv env p) as [[|]|e] eqn:Hp; [| |discriminate].
    + destruct (IH _ _ H) as [-> Hall]. rewrite <- app_assoc. split; [reflexivity|].
      intros q [<-|Hq]; eauto.
    + destruct (IH _ _ H) as [-> Hall]. split; [reflexivity|].
      intros q [<-|Hq]; eauto.
Qed.

Lemma createVirtualEnviornment_returned (env : Env) (venvName path : string)
    (done : list Effect) :
  createVirtualEnviornment env venvName path = (Returned tt, done) ->
  exists alias,
    In (ExecuteCommand path alias ["-m"; "venv"; venvName]) done
    /\ executeCommand env path alias ["-m"; "venv"; venvName] = None.
Proof.
  unfold createVirtualEnviornment.
  destruct (getPythonAlias env) as [[alias|e] before]; [|discriminate].
  cbn [bind emit result trace fst snd app].
  destruct (executeCommand env path alias ["-m"; "venv"; venvName]) eqn:Hrun;
    [discriminate|].
  cbn [awaitVoid ret result trace fst snd app]. intros H. injection H as <-.
  exists alias. split; [|exact Hrun].
  apply in_or_app. right. left. reflexivity.
Qed.

(** [ensureVenv] creates a virtual environment exactly when no entry of the
    project folder holds one, whatever the order in which the entries were
    examined; when some entry does, the name it gives is such an entry, or
    the answer of the quick pick that offered exactly those entries.  The
    name it gives is recorded as the pythonVenv setting. *)
Theorem ensureVenv_creates_only_when_none :
  forall (env : Env) (fsPaths : list string) (name : string),
    fse_readdir env (functionAppPath env) = Resolved fsPaths ->
    Permutation.Permutation (completionOrder env fsPaths) fsPaths ->
    result (ensureVenv env) = Returned name ->
    In (SetOtherSetting (fullPythonVenvSetting (names env)) name) (trace (ensureVenv env))
    /\ ((exists workingDirectory alias,
           In (ExecuteCommand workingDirectory alias ["-m"; "venv"; name])
              (trace (ensureVenv env)))
        <-> (forall p, In p fsPaths -> holdsVenv env p = Resolved false))
    /\ ((exists p, In p fsPaths /\ holdsVenv env p = Resolved true) ->
        (In name fsPaths /\ holdsVenv env name = Resolved true)
        \/ exists venvs,
             In (ShowQuickPick venvs) (trace (ensureVenv env))
             /\ showQuickPick env venvs = Resolved name
             /\ forall v, In v venvs <->
                           In v fsPaths /\ holdsVenv env v = Resolved true).
Proof.
  intros env fsPaths name Hdir Hperm. unfold ensureVenv. rewrite Hdir.
  cbn [bind await ret result trace fst snd app].
  destruct (collectVenvs env (completionOrder env fsPaths) []) as [venvs|e] eqn:Hc;
    [|discriminate].
  apply collectVenvs_resolved in Hc as [Hvenvs Hall]. simpl in Hvenvs.
  assert (Hmem : forall v, In v venvs <->
                           In v fsPaths /\ holdsVenv env v = Resolved true).
  { intros v. rewrite Hvenvs, filter_In. split.
    - intros [Hv Hholds]. split; [exact (Permutation.Permutation_in _ Hperm Hv)|].
      destruct (holdsVenv env v) as [[|]|]; congruence.
    - intros [Hv Hholds]. split.
      + exact (Permutation.Permutation_in _ (Permutation.Permutation_sym Hperm) Hv).
      + now rewrite Hholds. }
  assert (Hresolved : forall p, In p fsPaths -> exists b, holdsVenv env p = Resolved b).
  { intros p Hp. apply Hall.
    exact (Permutation.Permutation_in _ (Permutation.Permutation_sym Hperm) Hp). }
  clear Hvenvs Hall.
  cbn [bind await ret result trace fst snd app].
  destruct venvs as [|venv [|venv2 rest]].
  - destruct (createVirtualEnviornment env ".env" (functionAppPath env))
      as [[[]|e] done] eqn:Hcreate;
      cbn [bind emit await ret result trace fst snd app]; [|discriminate].
    intros H. injection H as <-.
    destruct (createVirtualEnviornment_returned _ _ _ _ Hcreate) as [alias [Hin Hrun]].
    rewrite !app_nil_r. split; [apply in_or_app; right; left; reflexivity|].
    split.
    + split.
      * intros _ p Hp. destruct (Hresolved p Hp) as [[|] Hb]; [|exact Hb].
        destruct (proj2 (Hmem p) (conj Hp Hb)).
      * intros _. exists (functionAppPath env), alias.
        apply in_or_app. left. exact Hin.
    + intros [p [Hp Hholds]]. destruct (proj2 (Hmem p) (conj Hp Hholds)).
  - cbn [bind emit await ret result trace fst snd app].
    intros H. injection H as <-. split; [left; reflexivity|].
    assert (Hvenv : In venv fsPaths /\ holdsVenv env venv = Resolved true)
      by (apply Hmem; left; reflexivity).
    split; [|auto].
    split.
    + intros [workingDirectory [alias [Hin|[]]]]. discriminate.
    + intros Hnone. destruct Hvenv as [Hp Hholds].
      rewrite (Hnone _ Hp) in Hholds. discriminate.
  - cbn [bind emit await ret result trace fst snd app].
    destruct (showQuickPick env (venv :: venv2 :: rest)) as [picked|e] eqn:Hpick;
      cbn [bind emit await ret result trace fst snd app]; [|discriminate].
    intros H. injection H as <-. split; [right; left; reflexivity|].
    assert (Hvenv : In venv fsPaths /\ holdsVenv env venv = Resolved true)
      by (apply Hmem; left; reflexivity).
    split.
    + split.
      * intros [workingDirectory [alias [Hin|[Hin|[]]]]]; discriminate.
      * intros Hnone. destruct Hvenv as [Hp Hholds].
        rewrite (Hnone _ Hp) in Hholds. discriminate.
    + intros _. right. exists (venv :: venv2 :: rest).
      split; [left; reflexivity|]. split; [exact Hpick | exact Hmem].
Qed.

Lemma ensureVenv_creates_only_when_none_witness :
  result (ensureVenv MoreSamples.pythonProject) = Returned ".venv"
  /\ In (SetOtherSetting "azureFunctions.pythonVenv" ".venv")
        (trace (ensureVenv MoreSamples.pythonProject)).
Proof.
  split; [reflexivity|].
  refine (proj1 (ensureVenv_creates_only_when_none MoreSamples.pythonProject
                   ["hello"; ".venv"; "host.json"] ".venv" eq_refl _ eq_refl)).
  apply Permutation.Permutation_sym, Permutation.Permutation_rev.
Defined.

(** ** [onInitProjectForVSCode] *)

Lemma tryAliases_trace (env : Env) (otherwise : M string) :
  forall aliases e,
    In e (trace (tryAliases env aliases otherwise)) ->
    (exists command, e = TryExecuteCommand command) \/ In e (trace otherwise).
Proof.
  induction aliases as [|alias rest IH]; intros e Hin; [now right|].
  destruct (validatePythonAlias_run env alias true) as [message [Hrun _]].
  cbn [tryAliases] in Hin. rewrite Hrun in Hin.
  cbn [bind result trace fst snd app] in Hin.
  destruct (negb (isTruthy message)).
  - destruct Hin as [<-|[]]. eauto.
  - destruct Hin as [<-|Hin]; [eauto | exact (IH _ Hin)].
Qed.

Lemma ensureVenv_writes_nothing (env : Env) (e : Effect) :
  In e (trace (ensureVenv env)) -> ~ writesDisk e.
Proof.
  unfold ensureVenv. intros Hin.
  apply in_trace_bind in Hin as [Hin|[fsPaths [_ Hin]]];
    [rewrite trace_await in Hin; destruct Hin|].
  apply in_trace_bind in Hin as [Hin|[venvs [_ Hin]]];
    [rewrite trace_await in Hin; destruct Hin|].
  apply in_trace_bind in Hin as [Hin|[name [_ Hin]]].
  - destruct venvs as [|venv [|venv2 rest]].
    + apply in_trace_bind in Hin as [Hin|[u [_ []]]].
      unfold createVirtualEnviornment in Hin.
      apply in_trace_bind in Hin as [Hin|[alias [_ Hin]]].
      * apply tryAliases_trace in Hin as [[command ->]|Hin]; [auto|].
        apply in_trace_bind in Hin as [[<-|[]]|[u [_ Hin]]]; [auto|].
        rewrite trace_await in Hin. destruct Hin.
      * apply in_trace_bind in Hin as [[<-|[]]|[u [_ Hin]]]; [auto|].
        rewrite trace_awaitVoid in Hin. destruct Hin.
    + destruct Hin.
    + apply in_trace_bind in Hin as [[<-|[]]|[u [_ Hin]]]; [auto|].
      rewrite trace_await in Hin. destruct Hin.
  - apply in_trace_bind in Hin as [[<-|[]]|[u [_ []]]]. auto.
Qed.

Lemma write_after_prefix (p q before after : list Effect) (e : Effect) :
  (forall x, In x p -> ~ writesDisk x) -> writesDisk e ->
  (p ++ q = before ++ e :: after)%list -> exists mid, before = (p ++ mid)%list.
Proof.
  revert before. induction p as [|a p IH]; intros before Hquiet Hw Heq.
  - exists before. reflexivity.
  - destruct before as [|b before]; cbn [app] in Heq; injection Heq as Hhead Heq.
    + subst a. destruct (Hquiet e (or_introl eq_refl) Hw).
    + subst b. destruct (IH before) as [mid ->]; auto.
      * intros x Hx. apply Hquiet. right. exact Hx.
      * exists mid. reflexivity.
Qed.

(** Whenever [onInitProjectForVSCode] changes a file of the project, it has
    run before that, with success, the command that installs pylint in the
    virtual environment it uses: the one it was given, or else the one
    [ensureVenv] gave.  And when it returns and there is a [.gitignore], the
    zip file it has set as the deploy subpath is named in the contents the
    [.gitignore] is left with. *)
Theorem onInitProjectForVSCode_steps :
  forall (env : Env) (_venvName : option string),
    (forall before e after,
        trace (onInitProjectForVSCode env _venvName) = (before ++ e :: after)%list ->
        writesDisk e ->
        exists venvName,
          (if truthy _venvName then _venvName = Some venvName
           else result (ensureVenv env) = Returned venvName)
          /\ In (ExecuteCommand (functionAppPath env) (pylintCommand env venvName) []) before
          /\ executeCommand env (functionAppPath env) (pylintCommand env venvName) []
               = None)
    /\ (forall given,
          result (onInitProjectForVSCode env _venvName) = Returned given ->
          fse_pathExists env (gitignorePath env) = true ->
          In (SetDeploySubpath (zipFileName env))
             (trace (onInitProjectForVSCode env _venvName))
          /\ exists old final,
               fse_readFile env (gitignorePath env) = Resolved old
               /\ (final = old
                   \/ In (WriteFile (gitignorePath env) final)
                         (trace (onInitProjectForVSCode env _venvName)))
               /\ includes final (zipFileName env) = true).
Proof.
  intros env _venvName. unfold onInitProjectForVSCode.
  remember (if negb (truthy _venvName) then ensureVenv env
            else ret match _venvName with
                     | Some v => v
                     | None => EmptyString
                     end) as choose eqn:Hchoice.
  assert (Hchoose : forall e, In e (trace choose) -> ~ writesDisk e).
  { subst choose. destruct (negb (truthy _venvName)).
    - apply ensureVenv_writes_nothing.
    - intros e []. }
  assert (Hused : forall venvName,
             result choose = Returned venvName ->
             if truthy _venvName then _venvName = Some venvName
             else result (ensureVenv env) = Returned venvName).
  { subst choose. intros venvName.
    destruct (truthy _venvName) eqn:Htruthy; cbn [negb]; [|auto].
    destruct _venvName as [v|]; [|discriminate]. cbn. congruence. }
  clear Hchoice.
  destruct choose as [[venvName|err] chosen]; cbn [trace snd result fst] in Hchoose, Hused.
  2: { cbn [bind emit result trace fst snd app]. split; [|discriminate].
       intros before e after Htrace Hw. exfalso.
       assert (Hin : In e (before ++ e :: after)) by apply in_elt.
       rewrite <- Htrace, ?app_nil_r in Hin. destruct Hin as [<-|Hin]; [destruct Hw|].
       destruct (Hchoose _ Hin Hw). }
  cbn [bind emit result trace fst snd app].
  unfold makeVenvDebuggable, runPythonCommandInVenv. fold (pylintCommand env venvName).
  cbn [bind emit result trace fst snd app].
  destruct (executeCommand env (functionAppPath env) (pylintCommand env venvName) [])
    as [err|] eqn:Hpylint.
  { cbn [awaitVoid throw bind emit result trace fst snd app]. split; [|discriminate].
    intros before e after Htrace Hw. exfalso.
    assert (Hin : In e (before ++ e :: after)) by apply in_elt.
    rewrite <- Htrace in Hin. destruct Hin as [<-|Hin]; [destruct Hw|].
    apply in_app_iff in Hin as [Hin|[<-|[]]]; [destruct (Hchoose _ Hin Hw) | destruct Hw]. }
  split.
  { cbn [awaitVoid ret bind emit result trace fst snd app].
    intros before e after Htrace Hw. exists venvName.
    split; [exact (Hused venvName eq_refl)|]. split; [|exact Hpylint].
    destruct (write_after_prefix
                (SetDeploySubpath (zipFileName env)
                   :: chosen ++ [ExecuteCommand (functionAppPath env)
                                   (pylintCommand env venvName) []])
                (trace (ensureVenvInFuncIgnore env venvName ;;
                        ensureGitIgnoreContents env venvName ;;
                        ensureAzureWebJobsStorage env ;; ret (Some venvName))%run)
                before after e) as [mid ->]; [|exact Hw| |].
    - intros x [<-|Hx]; [intros []|].
      apply in_app_iff in Hx as [Hx|[<-|[]]]; [exact (Hchoose _ Hx) | intros []].
    - rewrite <- Htrace. cbn [app]. now rewrite <- app_assoc.
    - cbn [app In]. rewrite !in_app_iff. cbn [In]. tauto. }
  cbn [awaitVoid ret bind emit result trace fst snd app].
  destruct (ensureVenvInFuncIgnore env venvName) as [[[]|err] ignored];
    cbn [bind result trace fst snd app]; [|discriminate].
  destruct (ensureGitIgnoreContents env venvName) as [[[]|err] gitignored] eqn:Hgit;
    cbn [bind result trace fst snd app]; [|discriminate].
  intros given _ Hexists. split; [left; reflexivity|].
  destruct (fse_readFile env (gitignorePath env)) as [old|err] eqn:Hread.
  2: { unfold ensureGitIgnoreContents in Hgit. fold (gitignorePath env) in Hgit.
       rewrite Hexists, Hread in Hgit. discriminate. }
  rewrite (ensureGitIgnoreContents_run env venvName old Hexists Hread) in Hgit.
  cbv zeta in Hgit.
  exists old, (fold_left (withLine env) (gitignoreEntries env venvName) old).
  split; [reflexivity|]. split.
  - destruct (anyMissing env (gitignoreEntries env venvName) old) eqn:Hmissing.
    + right. injection Hgit as _ Hgit.
      assert (Hwritten :
        In (WriteFile (gitignorePath env)
              (fold_left (withLine env) (gitignoreEntries env venvName) old))
           gitignored)
        by (rewrite <- Hgit; apply in_or_app; right; left; reflexivity).
      cbn [In]. rewrite !in_app_iff. cbn [In]. rewrite !in_app_iff. tauto.
    + left.
      assert (Hall : forall entry, In entry (gitignoreEntries env venvName) ->
                                   includes old entry = true).
      { intros entry Hentry. destruct (includes old entry) eqn:Hinc; [reflexivity|].
        clear Hgit. revert Hmissing Hentry Hinc. generalize old.
        induction (gitignoreEntries env venvName) as [|x xs IH];
          intros c Hmissing Hentry Hinc; [destruct Hentry|].
        simpl in Hmissing. apply orb_false_iff in Hmissing as [Hx Hxs].
        apply negb_false_iff in Hx.
        destruct Hentry as [->|Hentry]; [congruence|].
        rewrite (withLine_fixed env _ _ Hx) in Hxs. exact (IH _ Hxs Hentry Hinc). }
      clear Hgit Hmissing. revert Hall. generalize old.
      induction (gitignoreEntries env venvName) as [|x xs IH]; intros c Hall;
        [reflexivity|].
      simpl. rewrite (withLine_fixed env _ _ (Hall x (or_introl eq_refl))).
      apply IH. intros entry Hentry. apply Hall. right. exact Hentry.
  - apply fold_withLine_includes. right. do 3 right. left. reflexivity.
Qed.

(** ** [ensureAzureWebJobsStorage] *)

(** On Windows [ensureAzureWebJobsStorage] does nothing.  Elsewhere, what it
    writes back to the local settings holds the empty string under the
    storage key, whatever was there, and every other value as it was read. *)
Theorem ensureAzureWebJobsStorage_blanks_only_storage :
  forall env : Env,
    (isWindows env = true -> ensureAzureWebJobsStorage env = (Returned tt, []))
    /\ (forall path values,
          In (WriteLocalSettingsValues path values)
             (trace (ensureAzureWebJobsStorage env)) ->
          isWindows env = false
          /\ Dictionary.get values (azureWebJobsStorageKey env) = Some EmptyString
          /\ exists read,
               getLocalSettings env path = Resolved read
               /\ forall key,
                    key <> azureWebJobsStorageKey env ->
                    Dictionary.get values key
                      = match read with
                        | Some old => Dictionary.get old key
                        | None => None
                        end).
Proof.
  intros env. unfold ensureAzureWebJobsStorage. split.
  - intros ->. reflexivity.
  - intros path values. destruct (isWindows env); cbn [negb]; [intros []|].
    cbv zeta.
    destruct (getLocalSettings env
                (path_join env [functionAppPath env; localSettingsFileName env]))
      as [read|e] eqn:Hread; [|intros []].
    cbn [bind emit await ret result trace fst snd app].
    rewrite trace_awaitVoid. intros [Hin|[]]. injection Hin as <- <-.
    split; [reflexivity|]. split; [apply DictionaryFacts.get_set_same|].
    exists read. split; [exact Hread|]. intros key Hkey.
    rewrite DictionaryFacts.get_set_other by congruence.
    destruct read; reflexivity.
Qed.

Lemma ensureAzureWebJobsStorage_blanks_only_storage_witness :
  In (WriteLocalSettingsValues "/w/pyapp/local.settings.json"
        [("AzureWebJobsStorage", EmptyString); ("FUNCTIONS_WORKER_RUNTIME", "python")])
     (trace (ensureAzureWebJobsStorage MoreSamples.pythonProject))
  /\ Dictionary.get
       [("AzureWebJobsStorage", EmptyString); ("FUNCTIONS_WORKER_RUNTIME", "python")]
       (azureWebJobsStorageKey MoreSamples.pythonProject) = Some EmptyString.
Proof.
  assert (Hin : In (WriteLocalSettingsValues "/w/pyapp/local.settings.json"
                      [("AzureWebJobsStorage", EmptyString);
                       ("FUNCTIONS_WORKER_RUNTIME", "python")])
                   (trace (ensureAzureWebJobsStorage MoreSamples.pythonProject)))
    by (left; reflexivity).
  split; [exact Hin|].
  exact (proj1 (proj2 (proj2 (ensureAzureWebJobsStorage_blanks_only_storage
                                MoreSamples.pythonProject) _ _ Hin))).
Defined.

Lemma onInitProjectForVSCode_steps_witness :
  result (onInitProjectForVSCode MoreSamples.pythonProject None) = Returned (Some ".venv")
  /\ In (SetDeploySubpath "pyapp.zip")
        (trace (onInitProjectForVSCode MoreSamples.pythonProject None))
  /\ exists venvName,
       result (ensureVenv MoreSamples.pythonProject) = Returned venvName
       /\ In (ExecuteCommand "/w/pyapp"
                (pylintCommand MoreSamples.pythonProject venvName) [])
             [SetDeploySubpath "pyapp.zip";
              SetOtherSetting "azureFunctions.pythonVenv" ".venv";
              ExecuteCommand "/w/pyapp" ". ./.venv/bin/activate && pip install pylint" []]
       /\ executeCommand MoreSamples.pythonProject "/w/pyapp"
            (pylintCommand MoreSamples.pythonProject venvName) [] = None.
Proof.
  split; [reflexivity|]. split.
  - exact (proj1 (proj2 (onInitProjectForVSCode_steps MoreSamples.pythonProject None)
                    (Some ".venv") eq_refl eq_refl)).
  - exact (proj1 (onInitProjectForVSCode_steps MoreSamples.pythonProject None)
             [SetDeploySubpath "pyapp.zip";
              SetOtherSetting "azureFunctions.pythonVenv" ".venv";
              ExecuteCommand "/w/pyapp" ". ./.venv/bin/activate && pip install pylint" []]
             (WriteFile "/w/pyapp/.funcignore" ".venv")
             (skipn 4 (trace (onInitProjectForVSCode MoreSamples.pythonProject None)))
             eq_refl I).
Defined.

End PythonProjectFacts.

(* ===================================================================== *)
(** * Tasks and debug configurations: further properties *)
(* ===================================================================== *)

Module TaskProviderMoreFacts.
Import Vocabulary MoreVocabulary FuncTaskProviderHost.

(** ** A workspace with a Python project *)

Lemma getHostStartTask_python (env : Env) (folder : WorkspaceFolder) :
  projectLanguage env (fsPath folder) = Some Python ->
  getHostStartTask env folder =
    match getPythonCommand env "127.0.0.1" 9091 with
    | Resolved arguments =>
        Resolved
          (newHostStartTask env folder
             (match pythonVenv env (fsPath folder) with
              | Some v =>
                  if truthy (Some v)
                  then PythonProjectCreator.convertToVenvCommand
                         (path_join env) (joinCommands env) v (platform env)
                         ["func host start"]
                  else "func host start"
              | None => "func host start"
              end)
             (Some [("languageWorkers__python__arguments", arguments)]))
    | Rejected e => Rejected e
    end.
Proof.
  intros Hlang. unfold getHostStartTask. rewrite Hlang. cbv zeta.
  destruct (pythonVenv env (fsPath folder)); reflexivity.
Qed.

Lemma getHostStartTask_not_python (env : Env) (folder : WorkspaceFolder) :
  pythonFunctionProject env folder = false ->
  isFunctionProject env (fsPath folder) = true ->
  exists t, getHostStartTask env folder = Resolved t.
Proof.
  unfold pythonFunctionProject, getHostStartTask. intros Hnot Hproject.
  rewrite Hproject in Hnot. simpl in Hnot.
  destruct (projectLanguage env (fsPath folder)) as [[| | | |other]|];
    try discriminate; eauto.
Qed.

Lemma visitFolders_without_launcher (env : Env) (e : Error) :
  getPythonCommand env "127.0.0.1" 9091 = Rejected e ->
  forall folders result,
    visitFolders env folders result =
      if existsb (pythonFunctionProject env) folders
      then Rejected e
      else Resolved (result ++ flat_map (projectTasks env) folders)%list.
Proof.
  intros Hlauncher. induction folders as [|folder folders IH]; intros result.
  - simpl. now rewrite app_nil_r.
  - cbn [visitFolders existsb flat_map]. unfold projectTasks at 1.
    destruct (pythonFunctionProject env folder) eqn:Hpython.
    + unfold pythonFunctionProject in Hpython.
      apply andb_true_iff in Hpython as [Hproject Hlang]. rewrite Hproject.
      destruct (projectLanguage env (fsPath folder)) as [[| | | |other]|] eqn:Hl;
        try discriminate.
      rewrite (getHostStartTask_python env folder Hl), Hlauncher. reflexivity.
    + destruct (isFunctionProject env (fsPath folder)) eqn:Hproject.
      * destruct (getHostStartTask_not_python env folder Hpython Hproject) as [t Ht].
        rewrite Ht, IH. cbn [orb].
        destruct (existsb (pythonFunctionProject env) folders); [reflexivity|].
        now rewrite <- !app_assoc.
      * rewrite IH. reflexivity.
Qed.

(** When the launcher command of the Python extension cannot be had (the
    extension is missing, fails to activate, has no debug API, or the call
    fails), one Python function project in the workspace makes the provider
    fail with that error and give no task for any folder; with no such
    project, every function project gets its two tasks. *)
Theorem provideTasks_without_python_launcher :
  forall (env : Env) (e : Error) (folders : list WorkspaceFolder),
    getPythonCommand env "127.0.0.1" 9091 = Rejected e ->
    provideTasks env (Some folders) =
      if existsb (pythonFunctionProject env) folders
      then Rejected e
      else Resolved (flat_map (projectTasks env) folders).
Proof.
  intros env e folders Hlauncher. unfold provideTasks.
  exact (visitFolders_without_launcher env e Hlauncher folders []).
Qed.

Lemma provideTasks_without_python_launcher_witness :
  getPythonCommand (Samples.hostEnv (Some Python)) "127.0.0.1" 9091
    = Rejected (PlainError "todo")
  /\ provideTasks (Samples.hostEnv (Some Python)) (Some [Samples.appFolder])
       = Rejected (PlainError "todo").
Proof.
  split; [reflexivity|].
  exact (provideTasks_without_python_launcher (Samples.hostEnv (Some Python))
           (PlainError "todo") [Samples.appFolder] eq_refl).
Defined.

(** ** The Python debug port *)

(** The attach configuration of a Python project names port 9091, the port
    for which [getHostStartTask] asks the Python extension for its launcher
    command; the task it gives for a Python project carries that command,
    joined with spaces, in [languageWorkers__python__arguments].  The
    configuration attaches to [localhost]; the launcher is asked for
    [127.0.0.1]. *)
Theorem python_debug_port_agrees :
  forall (names : Names) (configuration : PythonProject.DebugConfiguration)
         (env : Env) (folder : WorkspaceFolder) (t : Task),
    In configuration
       (PythonProject.configurations (PythonProject.getLaunchJson names)) ->
    projectLanguage env (fsPath folder) = Some Python ->
    getHostStartTask env folder = Resolved t ->
    PythonProject.dc_host configuration = "localhost"
    /\ exists extension launcher parts command,
         pyExtension env = Some extension
         /\ getRemoteLauncherCommand extension = Some launcher
         /\ launcher "127.0.0.1" (PythonProject.dc_port configuration) = Resolved parts
         /\ execution t =
              ShellExecution command
                (Some [("languageWorkers__python__arguments", String.concat " " parts)]).
Proof.
  intros names configuration env folder t [<-|[]] Hlang Htask.
  split; [reflexivity|]. cbn [PythonProject.dc_port].
  rewrite (getHostStartTask_python env folder Hlang) in Htask.
  unfold getPythonCommand in Htask.
  destruct (pyExtension env) as [extension|]; [|discriminate].
  destruct (if isActive extension then None else activate extension); [discriminate|].
  destruct (getRemoteLauncherCommand extension) as [launcher|] eqn:Hlauncher;
    [|discriminate].
  destruct (launcher "127.0.0.1" 9091) as [parts|e] eqn:Hparts; [|discriminate].
  injection Htask as <-.
  exists extension, launcher, parts. eexists.
  split; [reflexivity|]. split; [exact Hlauncher|]. split; [exact Hparts|]. reflexivity.
Qed.

Lemma python_debug_port_agrees_witness :
  exists t,
    getHostStartTask MoreSamples.pythonHostEnv Samples.appFolder = Resolved t
    /\ execution t =
         ShellExecution ". ./.venv/bin/activate && func host start"
           (Some [("languageWorkers__python__arguments",
                   "-m ptvsd --host 127.0.0.1 --port 9091")])
    /\ exists extension launcher parts command,
         pyExtension MoreSamples.pythonHostEnv = Some extension
         /\ getRemoteLauncherCommand extension = Some launcher
         /\ launcher "127.0.0.1" 9091 = Resolved parts
         /\ execution t =
              ShellExecution command
                (Some [("languageWorkers__python__arguments", String.concat " " parts)]).
Proof.
  eexists. split; [reflexivity|]. split; [reflexivity|].
  exact (proj2 (python_debug_port_agrees Samples.names _
                  MoreSamples.pythonHostEnv Samples.appFolder _
                  (or_introl eq_refl) eq_refl eq_refl)).
Defined.

(** ** The pre-deploy task the creators record *)

(** The pre-deploy task a creator records for a new project is the one the
    deploy command infers when the preDeployTask setting is absent: for a
    JavaScript project on a runtime other than v1 the extensions-install
    task, on which the host-start task of tasks.json then depends; on v1
    the creator leaves the field alone and deploy infers no task; for a
    Python project the func-pack task, which tasks.json defines under that
    label. *)
Theorem creators_record_the_inferred_preDeployTask :
  forall (env : Deploy.Env) (runtime : ProjectRuntime) (inherited : option string),
    (runtime <> v1 ->
       snd (CreatorJson.javaScriptTasksJson (Deploy.names env) (Some runtime) inherited)
         = Deploy.inferredTaskName env JavaScript runtime
       /\ Forall (fun t => CreatorJson.tj_dependsOn t
                             = Deploy.inferredTaskName env JavaScript runtime)
                 (CreatorJson.tasks
                    (fst (CreatorJson.javaScriptTasksJson (Deploy.names env)
                            (Some runtime) inherited))))
    /\ (runtime = v1 ->
          snd (CreatorJson.javaScriptTasksJson (Deploy.names env) (Some runtime) inherited)
            = inherited
          /\ Deploy.inferredTaskName env JavaScript runtime = None
          /\ Forall (fun t => CreatorJson.tj_dependsOn t = None)
                    (CreatorJson.tasks
                       (fst (CreatorJson.javaScriptTasksJson (Deploy.names env)
                               (Some runtime) inherited))))
    /\ (forall python : PythonProject.Env,
          PythonProject.names python = Deploy.names env ->
          Deploy.inferredTaskName env Python runtime
            = Some (PythonProject.preDeployTask (PythonProject.names python))
          /\ exists t,
               In t (CreatorJson.tasks (PythonProject.getTasksJson python))
               /\ CreatorJson.tj_label t
                    = Some (PythonProject.preDeployTask (PythonProject.names python))).
Proof.
  intros env runtime inherited. split; [|split].
  - intros Hruntime. destruct runtime; [congruence|]. simpl.
    split; [reflexivity|]. repeat constructor.
  - intros ->. simpl. repeat split. repeat constructor.
  - intros python Hnames. unfold Deploy.inferredTaskName, PythonProject.preDeployTask.
    rewrite Hnames. split; [reflexivity|].
    eexists. split; [do 3 right; left; reflexivity|].
    simpl. now rewrite Hnames.
Qed.

Lemma creators_record_the_inferred_preDeployTask_witness :
  v2 <> v1
  /\ snd (CreatorJson.javaScriptTasksJson (Deploy.names MoreSamples.pythonEnv)
             (Some v2) None)
       = Deploy.inferredTaskName MoreSamples.pythonEnv JavaScript v2
  /\ Deploy.inferredTaskName MoreSamples.pythonEnv Python v2 = Some "funcPack".
Proof.
  assert (Hruntime : v2 <> v1) by discriminate.
  split; [exact Hruntime|]. split.
  - exact (proj1 (proj1 (creators_record_the_inferred_preDeployTask
                           MoreSamples.pythonEnv v2 None) Hruntime)).
  - exact (proj1 (proj2 (proj2 (creators_record_the_inferred_preDeployTask
                                  MoreSamples.pythonEnv v2 None))
                    MoreSamples.pythonProject eq_refl)).
Defined.

End TaskProviderMoreFacts.

(* ===================================================================== *)
(** * The copyFunctionUrl command: properties *)
(* ===================================================================== *)

Module CopyFunctionUrlFacts.
Import Run CopyFunctionUrl RunFacts.

(** The clipboard is written at most once, and only with the trigger url of
    an HTTP trigger: the node passed to the command or, only when none is
    passed, the node picked in the tree.  For any other function the command
    throws without touching the clipboard. *)
Theorem copyFunctionUrl_http_triggers_only :
  forall (env : Env) (node : option FunctionTreeItem),
    (forall text,
        In (ClipboardWrite text) (trace (copyFunctionUrl env node)) ->
        exists chosen,
          (node = Some chosen
           \/ (node = None /\ showTreeItemPicker env = Resolved chosen))
          /\ isHttpTrigger chosen = true
          /\ text = triggerUrl chosen
          /\ List.filter (fun e => match e with ClipboardWrite _ => true | _ => false end)
                         (trace (copyFunctionUrl env node))
               = [ClipboardWrite text])
    /\ (forall chosen,
          (node = Some chosen
           \/ (node = None /\ showTreeItemPicker env = Resolved chosen)) ->
          isHttpTrigger chosen = false ->
          result (copyFunctionUrl env node) = Thrown copyFailedForNonHttp)
    /\ (In ShowTreeItemPicker (trace (copyFunctionUrl env node)) <-> node = None).
Proof.
  intros env node. unfold copyFunctionUrl. split; [|split].
  - intros text Hin. destruct node as [given|].
    + cbn [bind ret result trace fst snd app] in *.
      destruct (isHttpTrigger given) eqn:Hhttp; [|destruct Hin].
      cbn [bind emit result trace fst snd app] in *.
      rewrite trace_awaitVoid in *. destruct Hin as [Hin|[]]. injection Hin as <-.
      exists given. repeat split; auto.
    + destruct (showTreeItemPicker env) as [picked|e] eqn:Hpick.
      * cbn [bind emit await ret result trace fst snd app] in *.
        destruct (isHttpTrigger picked) eqn:Hhttp.
        -- cbn [bind emit result trace fst snd app] in *.
           rewrite trace_awaitVoid in *.
           destruct Hin as [Hin|[Hin|[]]]; [discriminate|]. injection Hin as <-.
           exists picked. repeat split; auto.
        -- destruct Hin as [Hin|[]]. discriminate.
      * cbn [bind emit await throw result trace fst snd app] in Hin.
        destruct Hin as [Hin|[]]. discriminate.
  - intros chosen [->|[-> Hpick]] Hhttp.
    + cbn [bind ret result trace fst snd app]. rewrite Hhttp. reflexivity.
    + rewrite Hpick. cbn [bind emit await ret result trace fst snd app].
      rewrite Hhttp. reflexivity.
  - destruct node as [given|].
    + cbn [bind ret result trace fst snd app]. split; [|discriminate].
      destruct (isHttpTrigger given); [|intros []].
      cbn [bind emit result trace fst snd app]. rewrite trace_awaitVoid.
      intros [Hin|[]]. discriminate.
    + split; [reflexivity|]. intros _.
      rewrite trace_bind, trace_bind. left. reflexivity.
Qed.

Lemma copyFunctionUrl_http_triggers_only_witness :
  (exists chosen,
      (Some MoreSamples.helloFunction = Some chosen
       \/ (Some MoreSamples.helloFunction = None
           /\ showTreeItemPicker MoreSamples.clipboardEnv = Resolved chosen))
      /\ isHttpTrigger chosen = true
      /\ "https://linux.example/api/hello" = triggerUrl chosen
      /\ List.filter (fun e => match e with ClipboardWrite _ => true | _ => false end)
                     (trace (copyFunctionUrl MoreSamples.clipboardEnv
                               (Some MoreSamples.helloFunction)))
           = [ClipboardWrite "https://linux.example/api/hello"])
  /\ result (copyFunctionUrl MoreSamples.clipboardEnv None) = Thrown copyFailedForNonHttp.
Proof.
  split.
  - refine (proj1 (copyFunctionUrl_http_triggers_only MoreSamples.clipboardEnv
                     (Some MoreSamples.helloFunction)) _ _).
    left. reflexivity.
  - refine (proj1 (proj2 (copyFunctionUrl_http_triggers_only MoreSamples.clipboardEnv None))
              {| triggerUrl := EmptyString; isHttpTrigger := false |} _ eq_refl).
    right. split; reflexivity.
Defined.

End CopyFunctionUrlFacts.
